(** * Retail sales query pipeline: search, filter, aggregate, sort, paginate

    A shallow embedding of the backend services of the retail sales
    management system (array backend: SearchService, FilterService,
    SortService, PaginationService, TransactionService, DataLoader;
    indexed backend: TransactionServiceMongo and the Transaction model;
    request validation: validators and validationMiddleware), followed by
    the properties of the specification that were checked against them.

    Conventions of the embedding.
    - JavaScript numbers that the services handle are integral here
      ([Z]); a magnitude of [2^1024] or more stands for an infinity.
      [parseInt] rounds what it reads to the nearest Number and reads
      a Number through its decimal text, as the language does.
      Amounts are read in minor currency units and summed exactly:
      the sums are those of the source where its additions are exact,
      on integral amounts whose sums stay below [2^53].
    - A JavaScript string is a [string] of code units below 256;
      [toLowerCase] folds the capitals of that range and [trim] strips
      its white space.
    - A property that can be absent from an object is an [option];
      [None] stands for [undefined]. *)

From Stdlib Require Import List ZArith String Ascii Bool Lia.
From Stdlib Require Import Permutation Sorted.
Import ListNotations.

Local Open Scope string_scope.
Local Open Scope Z_scope.

(* ================================================================= *)
(** * Part I.  Definitions *)
(* ================================================================= *)

(** ** JavaScript built-ins used by the services *)

Module JS.

(** Values that reach a service where the source inspects the dynamic
    type ([typeof], [parseInt], truthiness).  [JNum n] is the Number
    whose value is the integer [n], and [Infinity] or [-Infinity] when
    the magnitude of [n] is [2^1024] or more. *)
Inductive jsval : Type :=
| JUndefined
| JNull
| JNum (n : Z)
| JStr (s : string).

(** [x || d] on an optional number: [undefined] and [0] are falsy. *)
Definition num_or (x : option Z) (d : Z) : Z :=
  match x with
  | Some n => if n =? 0 then d else n
  | None => d
  end.

(** [x || ''] on an optional string. *)
Definition str_or_empty (x : option string) : string :=
  match x with
  | Some s => s
  | None => ""
  end.

(** Truthiness of a string: the empty string is falsy. *)
Definition truthy_str (s : string) : bool := negb (String.eqb s "").

(** *** Strings *)

(** The code units with a lower-case form: A to Z, and the capitals
    from 192 to 222 but for the multiplication sign, 215. *)
Definition isUpper (c : ascii) : bool :=
  let n := nat_of_ascii c in
  ((65 <=? n)%nat && (n <=? 90)%nat)
  || ((192 <=? n)%nat && (n <=? 222)%nat && negb (n =? 215)%nat).

Definition lower_ascii (c : ascii) : ascii :=
  if isUpper c then ascii_of_nat (nat_of_ascii c + 32) else c.

(** [String.prototype.toLowerCase]. *)
Fixpoint toLowerCase (s : string) : string :=
  match s with
  | EmptyString => EmptyString
  | String c s' => String (lower_ascii c) (toLowerCase s')
  end.

(** White space and line terminators: TAB, LF, VT, FF, CR, SP, NBSP. *)
Definition isWhiteSpace (c : ascii) : bool :=
  let n := nat_of_ascii c in
  ((9 <=? n)%nat && (n <=? 13)%nat) || (n =? 32)%nat || (n =? 160)%nat.

Fixpoint trimStart (s : string) : string :=
  match s with
  | EmptyString => EmptyString
  | String c s' => if isWhiteSpace c then trimStart s' else s
  end.

Fixpoint rev_append (s acc : string) : string :=
  match s with
  | EmptyString => acc
  | String c s' => rev_append s' (String c acc)
  end.

Definition reverse (s : string) : string := rev_append s EmptyString.

Definition trimEnd (s : string) : string := reverse (trimStart (reverse s)).

(** [String.prototype.trim]. *)
Definition trim (s : string) : string := trimEnd (trimStart s).

(** [s.startsWith(t)]. *)
Fixpoint startsWith (s t : string) : bool :=
  match t, s with
  | EmptyString, _ => true
  | String _ _, EmptyString => false
  | String b t', String a s' => Ascii.eqb a b && startsWith s' t'
  end.

(** [s.includes(t)]: [t] occurs in [s] as a contiguous substring. *)
Fixpoint includes (s t : string) : bool :=
  startsWith s t ||
  match s with
  | EmptyString => false
  | String _ s' => includes s' t
  end.

(** [arr.includes(x)] on an array of strings. *)
Definition arr_includes (arr : list string) (x : string) : bool :=
  existsb (String.eqb x) arr.

(** *** parseInt *)

Definition digit_value (c : ascii) : option Z :=
  let n := nat_of_ascii c in
  if (48 <=? n)%nat && (n <=? 57)%nat then Some (Z.of_nat (n - 48))
  else if (97 <=? n)%nat && (n <=? 102)%nat then Some (Z.of_nat (n - 87))
  else if (65 <=? n)%nat && (n <=? 70)%nat then Some (Z.of_nat (n - 55))
  else None.

(** Longest prefix of radix-[r] digits, accumulated left to right;
    [seen] records whether at least one digit was read. *)
Fixpoint parse_digits (r : Z) (s : string) (acc : Z) (seen : bool)
  : option Z :=
  match s with
  | EmptyString => if seen then Some acc else None
  | String c s' =>
      match digit_value c with
      | Some d =>
          if d <? r then parse_digits r s' (acc * r + d) true
          else if seen then Some acc else None
      | None => if seen then Some acc else None
      end
  end.

Definition strip_hex_prefix (s : string) : option string :=
  match s with
  | String "0" (String "x" s') => Some s'
  | String "0" (String "X" s') => Some s'
  | _ => None
  end.

Definition parse_unsigned (s : string) : option Z :=
  match strip_hex_prefix s with
  | Some s' => parse_digits 16 s' 0 false
  | None => parse_digits 10 s 0 false
  end.

(** The Number nearest to an integer: the integer itself below
    [2^53], and beyond that its 53 leading bits, rounded to nearest
    with ties to the even mantissa. *)
Definition roundDouble (n : Z) : Z :=
  let m := Z.abs n in
  if m <? 2 ^ 53 then n
  else
    let shift := Z.log2 m - 52 in
    let mantissa := Z.shiftr m shift in
    let rest := m - Z.shiftl mantissa shift in
    let half := 2 ^ (shift - 1) in
    let mantissa :=
      if (half <? rest) || ((rest =? half) && Z.odd mantissa)
      then mantissa + 1 else mantissa in
    Z.sgn n * Z.shiftl mantissa shift.

(** [parseInt(string)] with no radix argument; [None] is [NaN].  The
    digits read are rounded to a Number. *)
Definition parseInt_str (s : string) : option Z :=
  option_map roundDouble
    match trimStart s with
    | String "-" s' => option_map Z.opp (parse_unsigned s')
    | String "+" s' => parse_unsigned s'
    | s' => parse_unsigned s'
    end.

(** The first digit [d] of the decimal expansion of [m >= 1], with the
    power of ten [p] of its place: [d * p <= m < (d + 1) * p]. *)
Fixpoint leading (fuel : nat) (m : Z) : Z * Z :=
  match fuel with
  | O => (m, 1)
  | S fuel' =>
      if m <? 10 then (m, 1)
      else let (d, p) := leading fuel' (m / 10) in (d, 10 * p)
  end.

(** The digit before the point in the exponent form of a Number
    [m >= 10^21].  [Number::toString] writes the fewest digits that
    read back as [m]: when the next one-digit multiple of the power of
    ten rounds to [m], that digit is written; otherwise the first
    digit of [m]. *)
Definition exponentLead (m : Z) : Z :=
  let (d, p) := leading (Z.to_nat (Z.log2 m) + 1) m in
  if roundDouble ((d + 1) * p) =? m
  then (if d =? 9 then 1 else d + 1)
  else d.

(** [parseInt(n)] on a Number: [parseInt] reads the text of its
    argument.  Below [10^21] the text is the decimal expansion of [n];
    from [10^21] on it is the exponent form, of which [parseInt] reads
    the digit before the point; the text of an infinity has no digit. *)
Definition parseInt_num (n : Z) : option Z :=
  let m := Z.abs n in
  if m <? 10 ^ 21 then Some n
  else if 2 ^ 1024 <=? m then None
  else Some (Z.sgn n * exponentLead m).

(** [parseInt(v)]; [undefined] and [null] stringify to text with no
    leading digit. *)
Definition parseInt (v : jsval) : option Z :=
  match v with
  | JNum n => parseInt_num n
  | JStr s => parseInt_str s
  | JUndefined | JNull => None
  end.

(** *** Arrays *)

(** [Math.ceil(n / d)] for [n >= 0] and [d > 0]. *)
Definition ceil_div (n d : Z) : Z := (n + d - 1) / d.

(** [arr.slice(start, end)] for [0 <= start <= end]. *)
Definition slice {A} (arr : list A) (start end_ : Z) : list A :=
  firstn (Z.to_nat (end_ - start)) (skipn (Z.to_nat start) arr).

(** [Array.prototype.sort(compareFn)].  The language requires the sort
    to be stable and, for a consistent comparator, to produce the order
    the comparator dictates; that result is unique, and it is the one
    stable insertion computes.  [cmp a b > 0] means [a] goes after
    [b]. *)
Fixpoint sort_insert {A} (cmp : A -> A -> Z) (x : A) (l : list A)
  : list A :=
  match l with
  | [] => [x]
  | y :: l' => if cmp x y >? 0 then y :: sort_insert cmp x l' else x :: l
  end.

Fixpoint sort {A} (cmp : A -> A -> Z) (l : list A) : list A :=
  match l with
  | [] => []
  | x :: l' => sort_insert cmp x (sort cmp l')
  end.

(** Truthiness of a value: [undefined], [null], [0] and the empty
    string are falsy. *)
Definition truthy (v : jsval) : bool :=
  match v with
  | JUndefined | JNull => false
  | JNum n => negb (n =? 0)
  | JStr s => truthy_str s
  end.

(** [s.split(',')]: the pieces of [s] between commas; the empty string
    splits into one empty piece. *)
Fixpoint split_comma (s : string) : list string :=
  match s with
  | EmptyString => [EmptyString]
  | String c s' =>
      if Ascii.eqb c "," then EmptyString :: split_comma s'
      else match split_comma s' with
           | piece :: pieces => String c piece :: pieces
           | [] => [String c EmptyString]
           end
  end.

(** [arr.join(',')]. *)
Fixpoint join_comma (arr : list string) : string :=
  match arr with
  | [] => EmptyString
  | [x] => x
  | x :: arr' => x ++ String "," (join_comma arr')
  end.

End JS.

(** ** Data model *)

(** A transaction record.  An optional property is [None] when the
    object lacks it.  [date] is the time value (milliseconds since the
    epoch) of the record's date: every producer of records in the
    repository (DataLoader.parseDate, the import scripts, the required
    Date of the store schema) yields a parsable date. *)
Record Transaction : Type := {
  transactionId : string;
  customerId : string;
  customerName : option string;
  phoneNumber : option string;
  gender : string;
  age : option Z;
  customerRegion : string;
  productName : string;
  productCategory : string;
  tags : option (list string);
  quantity : option Z;
  totalAmount : option Z;
  finalAmount : option Z;
  date : Z;
  paymentMethod : string
}.

(** A non-empty date string of a request, abstracted to what
    [new Date(s)] makes of it. *)
Inductive dateStr : Type :=
| ValidDate (t : Z)
| InvalidDate.

(** [d.getTime()]; [None] is [NaN]. *)
Definition getTime (d : dateStr) : option Z :=
  match d with
  | ValidDate t => Some t
  | InvalidDate => None
  end.

(** Filter criteria as parsed from the request.  A multi-select field
    that is absent is the empty list; a range bound that is absent
    ([undefined], or an empty date string) is [None]. *)
Module Filters.

Record AgeRange : Type := { min : option Z; max : option Z }.

Record DateRange : Type := { start : option dateStr; end_ : option dateStr }.

Record FilterCriteria : Type := {
  customerRegion : list string;
  gender : list string;
  ageRange : option AgeRange;
  productCategory : list string;
  tags : list string;
  paymentMethod : list string;
  dateRange : option DateRange
}.

(** The object [{}]. *)
Definition empty : FilterCriteria :=
  {| customerRegion := []; gender := []; ageRange := None;
     productCategory := []; tags := []; paymentMethod := [];
     dateRange := None |}.

End Filters.

(** [arr.length > 0]. *)
Definition nonEmpty {A} (arr : list A) : bool :=
  match arr with
  | [] => false
  | _ :: _ => true
  end.

(** Relational operators on numbers where an operand may be [NaN]
    ([None]): every comparison with [NaN] is false. *)
Definition js_ge (a b : option Z) : bool :=
  match a, b with
  | Some x, Some y => y <=? x
  | _, _ => false
  end.

Definition js_le (a b : option Z) : bool := js_ge b a.

Definition js_gt (a b : option Z) : bool :=
  match a, b with
  | Some x, Some y => y <? x
  | _, _ => false
  end.

(** ** SearchService *)

Module SearchService.

(** The callback of [data.filter] in [searchTransactions]. *)
Definition matchesTerm (normalizedTerm : string) (transaction : Transaction)
  : bool :=
  let customerName :=
    JS.toLowerCase (JS.str_or_empty (customerName transaction)) in
  let matchesName := JS.includes customerName normalizedTerm in
  let phoneNumber := JS.str_or_empty (phoneNumber transaction) in
  let matchesPhone := JS.includes phoneNumber normalizedTerm in
  matchesName || matchesPhone.

Definition searchTransactions (data : list Transaction)
  (searchTerm : JS.jsval) : list Transaction :=
  match searchTerm with
  | JS.JStr s =>
      if negb (JS.truthy_str s) then data
      else
        let normalizedTerm := JS.trim (JS.toLowerCase s) in
        if String.eqb normalizedTerm "" then data
        else filter (matchesTerm normalizedTerm) data
  | _ => data
  end.

(** [isValidSearchTerm]. *)
Definition isValidSearchTerm (searchTerm : JS.jsval) : bool :=
  match searchTerm with
  | JS.JNull | JS.JUndefined => true
  | JS.JStr s => (String.length (JS.trim s) <=? 100)%nat
  | JS.JNum _ => false
  end.

End SearchService.

(** ** FilterService *)

Module FilterService.

Definition filterByCustomerRegion (data : list Transaction)
  (regions : list string) : list Transaction :=
  if negb (nonEmpty regions) then data
  else filter (fun transaction =>
                 JS.arr_includes regions (customerRegion transaction)) data.

Definition filterByGender (data : list Transaction)
  (genders : list string) : list Transaction :=
  if negb (nonEmpty genders) then data
  else filter (fun transaction =>
                 JS.arr_includes genders (gender transaction)) data.

(** The callback of [data.filter] in [filterByAgeRange]. *)
Definition ageInRange (range : Filters.AgeRange) (transaction : Transaction)
  : bool :=
  let age := age transaction in
  match Filters.min range, Filters.max range with
  | Some mn, Some mx => js_ge age (Some mn) && js_le age (Some mx)
  | Some mn, None => js_ge age (Some mn)
  | None, Some mx => js_le age (Some mx)
  | None, None => true
  end.

Definition filterByAgeRange (data : list Transaction)
  (range : Filters.AgeRange) : list Transaction :=
  filter (ageInRange range) data.

Definition filterByProductCategory (data : list Transaction)
  (categories : list string) : list Transaction :=
  if negb (nonEmpty categories) then data
  else filter (fun transaction =>
                 JS.arr_includes categories (productCategory transaction))
         data.

(** The callback of [data.filter] in [filterByTags]. *)
Definition hasAnyTag (filterTags : list string) (transaction : Transaction)
  : bool :=
  let transactionTags :=
    match tags transaction with
    | Some ts => ts
    | None => []
    end in
  existsb (fun tag => JS.arr_includes transactionTags tag) filterTags.

Definition filterByTags (data : list Transaction)
  (filterTags : list string) : list Transaction :=
  if negb (nonEmpty filterTags) then data
  else filter (hasAnyTag filterTags) data.

Definition filterByPaymentMethod (data : list Transaction)
  (methods : list string) : list Transaction :=
  if negb (nonEmpty methods) then data
  else filter (fun transaction =>
                 JS.arr_includes methods (paymentMethod transaction)) data.

(** The callback of [data.filter] in [filterByDateRange]. *)
Definition dateInRange (range : Filters.DateRange)
  (transaction : Transaction) : bool :=
  let transactionDate := Some (date transaction) in
  match Filters.start range, Filters.end_ range with
  | Some s, Some e =>
      js_ge transactionDate (getTime s) && js_le transactionDate (getTime e)
  | Some s, None => js_ge transactionDate (getTime s)
  | None, Some e => js_le transactionDate (getTime e)
  | None, None => true
  end.

Definition filterByDateRange (data : list Transaction)
  (range : Filters.DateRange) : list Transaction :=
  filter (dateInRange range) data.

(** [applyFilters]; [filters] is [None] when the argument is not an
    object. *)
Definition applyFilters (data : list Transaction)
  (filters : option Filters.FilterCriteria) : list Transaction :=
  match filters with
  | None => data
  | Some filters =>
      let result := data in
      let result :=
        if nonEmpty (Filters.customerRegion filters)
        then filterByCustomerRegion result (Filters.customerRegion filters)
        else result in
      let result :=
        if nonEmpty (Filters.gender filters)
        then filterByGender result (Filters.gender filters)
        else result in
      let result :=
        match Filters.ageRange filters with
        | Some range => filterByAgeRange result range
        | None => result
        end in
      let result :=
        if nonEmpty (Filters.productCategory filters)
        then filterByProductCategory result (Filters.productCategory filters)
        else result in
      let result :=
        if nonEmpty (Filters.tags filters)
        then filterByTags result (Filters.tags filters)
        else result in
      let result :=
        if nonEmpty (Filters.paymentMethod filters)
        then filterByPaymentMethod result (Filters.paymentMethod filters)
        else result in
      let result :=
        match Filters.dateRange filters with
        | Some range => filterByDateRange result range
        | None => result
        end in
      result
  end.

(** A [Set] of strings in insertion order. *)
Definition set_add (x : string) (s : list string) : list string :=
  if JS.arr_includes s x then s else s ++ [x].

(** Code-unit order of two strings, the default of
    [Array.prototype.sort] on strings. *)
Definition compareStrings (a b : string) : Z :=
  match String.compare a b with
  | Lt => -1
  | Eq => 0
  | Gt => 1
  end.

Record FilterOptions : Type := {
  regions : list string;
  genders : list string;
  categories : list string;
  optionTags : list string;
  paymentMethods : list string
}.

(** One step of [data.forEach] in [getFilterOptions]. *)
Definition addOptions (options : FilterOptions) (transaction : Transaction)
  : FilterOptions :=
  {| regions :=
       if JS.truthy_str (customerRegion transaction)
       then set_add (customerRegion transaction) (regions options)
       else regions options;
     genders :=
       if JS.truthy_str (gender transaction)
       then set_add (gender transaction) (genders options)
       else genders options;
     categories :=
       if JS.truthy_str (productCategory transaction)
       then set_add (productCategory transaction) (categories options)
       else categories options;
     optionTags :=
       match tags transaction with
       | Some ts => fold_left (fun s tag => set_add tag s) ts
                      (optionTags options)
       | None => optionTags options
       end;
     paymentMethods :=
       if JS.truthy_str (paymentMethod transaction)
       then set_add (paymentMethod transaction) (paymentMethods options)
       else paymentMethods options |}.

Definition getFilterOptions (data : list Transaction) : FilterOptions :=
  let options :=
    fold_left addOptions data
      {| regions := []; genders := []; categories := [];
         optionTags := []; paymentMethods := [] |} in
  {| regions := JS.sort compareStrings (regions options);
     genders := JS.sort compareStrings (genders options);
     categories := JS.sort compareStrings (categories options);
     optionTags := JS.sort compareStrings (optionTags options);
     paymentMethods := JS.sort compareStrings (paymentMethods options) |}.

End FilterService.

(** ** SortService *)

(** The sort stage on array values.  [localeCompare] is the host's
    [String.prototype.localeCompare]; it is a parameter of the functions
    that reach it. *)
Module SortService.

Definition validSortFields : list string :=
  ["date"; "quantity"; "customerName"].

(** A default parameter value: used when the argument is [undefined]. *)
Definition orDefault (d : string) (x : option string) : string :=
  match x with
  | Some s => s
  | None => d
  end.

Definition compareByDate (sortOrder : string) (a b : Transaction) : Z :=
  let dateA := date a in
  let dateB := date b in
  if String.eqb sortOrder "asc" then dateA - dateB else dateB - dateA.

Definition sortByDate (data : list Transaction) (sortOrder : string)
  : list Transaction :=
  JS.sort (compareByDate sortOrder) data.

Definition compareByQuantity (sortOrder : string) (a b : Transaction) : Z :=
  let quantityA := JS.num_or (quantity a) 0 in
  let quantityB := JS.num_or (quantity b) 0 in
  if String.eqb sortOrder "asc" then quantityA - quantityB
  else quantityB - quantityA.

Definition sortByQuantity (data : list Transaction) (sortOrder : string)
  : list Transaction :=
  JS.sort (compareByQuantity sortOrder) data.

Definition compareByCustomerName (localeCompare : string -> string -> Z)
  (sortOrder : string) (a b : Transaction) : Z :=
  let nameA := JS.toLowerCase (JS.str_or_empty (customerName a)) in
  let nameB := JS.toLowerCase (JS.str_or_empty (customerName b)) in
  let comparison := localeCompare nameA nameB in
  if String.eqb sortOrder "asc" then comparison else - comparison.

Definition sortByCustomerName (localeCompare : string -> string -> Z)
  (data : list Transaction) (sortOrder : string) : list Transaction :=
  JS.sort (compareByCustomerName localeCompare sortOrder) data.

(** [sortTransactions], seen through the contents of the arrays. *)
Definition sortTransactions (localeCompare : string -> string -> Z)
  (data : list Transaction) (sortBy sortOrder : option string)
  : list Transaction :=
  let sortBy := orDefault "date" sortBy in
  let sortOrder := orDefault "desc" sortOrder in
  if negb (nonEmpty data) then data
  else if negb (JS.arr_includes validSortFields sortBy) then data
  else
    let sorted := data in
    if String.eqb sortBy "date" then sortByDate sorted sortOrder
    else if String.eqb sortBy "quantity" then sortByQuantity sorted sortOrder
    else if String.eqb sortBy "customerName"
         then sortByCustomerName localeCompare sorted sortOrder
    else sorted.

(** [isValidSort]; an absent or empty argument is falsy. *)
Definition isValidSort (sortBy sortOrder : option string) : bool :=
  let falsy x := negb (JS.truthy_str (JS.str_or_empty x)) in
  let isValidField :=
    falsy sortBy || JS.arr_includes validSortFields (JS.str_or_empty sortBy) in
  let isValidOrder :=
    falsy sortOrder
    || JS.arr_includes ["asc"; "desc"] (JS.str_or_empty sortOrder) in
  isValidField && isValidOrder.

End SortService.

(** ** Arrays as objects

    An array is an object with an identity: the store maps a reference
    to the current contents of its array.  [ [...data] ] allocates,
    [data.sort(f)] updates in place and returns its receiver. *)
Module Store.

Definition ref : Type := nat.

Definition store : Type := list (list Transaction).

Definition read (h : store) (r : ref) : list Transaction := nth r h [].

Definition alloc (h : store) (arr : list Transaction) : store * ref :=
  ((h ++ [arr])%list, List.length h).

Fixpoint write (h : store) (r : ref) (arr : list Transaction) : store :=
  match h, r with
  | [], _ => []
  | _ :: h', O => arr :: h'
  | a :: h', S r' => a :: write h' r' arr
  end.

(** [data.sort(compareFn)]. *)
Definition sort_in_place (cmp : Transaction -> Transaction -> Z)
  (h : store) (data : ref) : store * ref :=
  (write h data (JS.sort cmp (read h data)), data).

End Store.

(** The sort stage on array references, as the source runs it. *)
Module SortServiceRef.

Import Store.

Definition sortByDate (h : store) (data : ref) (sortOrder : string)
  : store * ref :=
  sort_in_place (SortService.compareByDate sortOrder) h data.

Definition sortByQuantity (h : store) (data : ref) (sortOrder : string)
  : store * ref :=
  sort_in_place (SortService.compareByQuantity sortOrder) h data.

Definition sortByCustomerName (localeCompare : string -> string -> Z)
  (h : store) (data : ref) (sortOrder : string) : store * ref :=
  sort_in_place (SortService.compareByCustomerName localeCompare sortOrder)
    h data.

Definition sortTransactions (localeCompare : string -> string -> Z)
  (h : store) (data : ref) (sortBy sortOrder : option string)
  : store * ref :=
  let sortBy := SortService.orDefault "date" sortBy in
  let sortOrder := SortService.orDefault "desc" sortOrder in
  if negb (nonEmpty (read h data)) then (h, data)
  else if negb (JS.arr_includes SortService.validSortFields sortBy)
       then (h, data)
  else
    let (h1, sorted) := alloc h (read h data) in
    if String.eqb sortBy "date" then sortByDate h1 sorted sortOrder
    else if String.eqb sortBy "quantity"
         then sortByQuantity h1 sorted sortOrder
    else if String.eqb sortBy "customerName"
         then sortByCustomerName localeCompare h1 sorted sortOrder
    else (h1, sorted).

End SortServiceRef.

(** ** PaginationService *)

Module Paging.

Record Pagination : Type := {
  currentPage : Z;
  pageSize : Z;
  totalItems : Z;
  totalPages : Z;
  hasNextPage : bool;
  hasPreviousPage : bool;
  startIndex : option Z;
  endIndex : option Z
}.

Record Page : Type := {
  items : list Transaction;
  pagination : Pagination
}.

End Paging.

Module PaginationService.

Definition MAX_PAGE_SIZE : Z := 100.

Definition validatePage (page : JS.jsval) : Z :=
  match JS.parseInt page with
  | None => 1
  | Some parsed => if parsed <? 1 then 1 else parsed
  end.

Definition validatePageSize (pageSize : JS.jsval) : Z :=
  match JS.parseInt pageSize with
  | None => 10
  | Some parsed => if parsed <? 1 then 10 else Z.min parsed MAX_PAGE_SIZE
  end.

(** A default parameter value: used when the argument is [undefined]. *)
Definition orDefault (d : Z) (v : JS.jsval) : JS.jsval :=
  match v with
  | JS.JUndefined => JS.JNum d
  | _ => v
  end.

(** [n || d] on a number. *)
Definition or_num (n d : Z) : Z := if n =? 0 then d else n.

Definition paginate (data : list Transaction) (page pageSize : JS.jsval)
  : Paging.Page :=
  let page := orDefault 1 page in
  let pageSize := orDefault 10 pageSize in
  let parsedPage := validatePage page in
  let parsedPageSize := validatePageSize pageSize in
  let totalItems := Z.of_nat (List.length data) in
  let totalPages := JS.ceil_div totalItems parsedPageSize in
  let validPage := Z.max 1 (Z.min parsedPage (or_num totalPages 1)) in
  let startIndex := (validPage - 1) * parsedPageSize in
  let endIndex := startIndex + parsedPageSize in
  let items := JS.slice data startIndex endIndex in
  {| Paging.items := items;
     Paging.pagination :=
       {| Paging.currentPage := validPage;
          Paging.pageSize := parsedPageSize;
          Paging.totalItems := totalItems;
          Paging.totalPages := or_num totalPages 0;
          Paging.hasNextPage := validPage <? totalPages;
          Paging.hasPreviousPage := 1 <? validPage;
          Paging.startIndex :=
            Some (if 0 <? totalItems then startIndex + 1 else 0);
          Paging.endIndex := Some (Z.min endIndex totalItems) |} |}.

(** [getPageInfo]: the metadata of [paginate] from the number of items
    alone. *)
Definition getPageInfo (totalItems : Z) (page pageSize : JS.jsval)
  : Paging.Pagination :=
  let parsedPage := validatePage page in
  let parsedPageSize := validatePageSize pageSize in
  let totalPages := JS.ceil_div totalItems parsedPageSize in
  let validPage := Z.max 1 (Z.min parsedPage (or_num totalPages 1)) in
  {| Paging.currentPage := validPage;
     Paging.pageSize := parsedPageSize;
     Paging.totalItems := totalItems;
     Paging.totalPages := or_num totalPages 0;
     Paging.hasNextPage := validPage <? totalPages;
     Paging.hasPreviousPage := 1 <? validPage;
     Paging.startIndex := None;
     Paging.endIndex := None |}.

(** [getPageRange]: the slice bounds [(startIndex, endIndex)] of a
    page, with no regard to the number of items. *)
Definition getPageRange (page pageSize : JS.jsval) : Z * Z :=
  let parsedPage := validatePage page in
  let parsedPageSize := validatePageSize pageSize in
  let startIndex := (parsedPage - 1) * parsedPageSize in
  let endIndex := startIndex + parsedPageSize in
  (startIndex, endIndex).

End PaginationService.

(** ** DataLoader *)

Module DataLoader.

(** A row of the source file: its date column (absent, or a non-empty
    string) and its other columns as [parseTransaction] reads them. *)
Record Row : Type := {
  rowDate : option dateStr;
  rowFields : Transaction
}.

(** [parseDate]; [now] is the reading of the clock by [new Date()].
    The result is the time value of the returned ISO string. *)
Definition parseDate (now : Z) (value : option dateStr) : Z :=
  match value with
  | None => now
  | Some d =>
      match getTime d with
      | None => now
      | Some t => t
      end
  end.

Definition withDate (t : Transaction) (d : Z) : Transaction :=
  {| transactionId := transactionId t; customerId := customerId t;
     customerName := customerName t; phoneNumber := phoneNumber t;
     gender := gender t; age := age t; customerRegion := customerRegion t;
     productName := productName t; productCategory := productCategory t;
     tags := tags t; quantity := quantity t; totalAmount := totalAmount t;
     finalAmount := finalAmount t; date := d;
     paymentMethod := paymentMethod t |}.

Definition parseTransaction (now : Z) (row : Row) : Transaction :=
  withDate (rowFields row) (parseDate now (rowDate row)).

(** The ['data'] handler of [loadData] over the rows of the file from
    the [i]-th on; [clock k] is the time at which row [k] is parsed. *)
Fixpoint loadRows (clock : nat -> Z) (i : nat) (rows : list Row)
  : list Transaction :=
  match rows with
  | [] => []
  | row :: rows' =>
      parseTransaction (clock i) row :: loadRows clock (S i) rows'
  end.

(** The loader's cache. *)
Record Cache : Type := {
  data : option (list Transaction);
  isLoaded : bool
}.

Definition initial : Cache := {| data := None; isLoaded := false |}.

(** [loadData] on a file that exists and is read without error. *)
Definition loadData (clock : nat -> Z) (c : Cache) (rows : list Row)
  : Cache * list Transaction :=
  match isLoaded c, data c with
  | true, Some d => (c, d)
  | _, _ =>
      let results := loadRows clock 0 rows in
      ({| data := Some results; isLoaded := true |}, results)
  end.

Definition getData (c : Cache) : option (list Transaction) := data c.

Definition clearCache (c : Cache) : Cache := initial.

(** The tags column of a row: already an array, a string, or anything
    else (absent included). *)
Inductive tagsValue : Type :=
| TagsArray (tags : list string)
| TagsString (s : string)
| TagsOther.

(** [parseTags]. *)
Definition parseTags (value : tagsValue) : list string :=
  match value with
  | TagsArray tags => tags
  | TagsString s =>
      if JS.truthy_str (JS.trim s)
      then filter JS.truthy_str (map JS.trim (JS.split_comma s))
      else []
  | TagsOther => []
  end.

End DataLoader.

(** ** TransactionService (array backend) *)

Module Params.

(** The [params] object of a query; [JUndefined] and [None] are absent
    properties. *)
Record QueryParams : Type := {
  search : JS.jsval;
  filters : option Filters.FilterCriteria;
  sortBy : option string;
  sortOrder : option string;
  page : JS.jsval;
  pageSize : JS.jsval
}.

End Params.

Module Stats.

Record AggregateStats : Type := {
  totalUnits : Z;
  totalAmount : Z;
  totalDiscount : Z;
  recordCount : Z
}.

Definition zero : AggregateStats :=
  {| totalUnits := 0; totalAmount := 0; totalDiscount := 0;
     recordCount := 0 |}.

End Stats.

Record QueryResult : Type := {
  items : list Transaction;
  pagination : Paging.Pagination;
  aggregateStats : Stats.AggregateStats
}.

(** What a call that can throw does. *)
Inductive outcome (A : Type) : Type :=
| Returned (a : A)
| Thrown (message : string).

Arguments Returned {A} a.
Arguments Thrown {A} message.

Module TransactionService.

(** [a || b] on optional numbers. *)
Definition opt_or (a b : option Z) : option Z :=
  match a with
  | Some n => if n =? 0 then b else a
  | None => b
  end.

(** [data.reduce((sum, t) => sum + f(t), 0)]. *)
Definition reduce_sum (f : Transaction -> Z) (data : list Transaction) : Z :=
  fold_left (fun sum t => sum + f t) data 0.

(** The summand of [totalDiscount]. *)
Definition discountOf (t : Transaction) : Z :=
  let total := JS.num_or (totalAmount t) 0 in
  let final := JS.num_or (finalAmount t) 0 in
  total - final.

(** [calculateAggregateStats].  The amounts are integral and the sums
    exact: they are the sums of the source wherever its additions of
    Numbers are exact, that is on integral amounts whose sums stay
    below [2^53]; the rounding of other sums is outside the model. *)
Definition calculateAggregateStats (data : list Transaction)
  : Stats.AggregateStats :=
  if negb (nonEmpty data) then
    {| Stats.totalUnits := 0; Stats.totalAmount := 0;
       Stats.totalDiscount := 0; Stats.recordCount := 0 |}
  else
    let totalUnits := reduce_sum (fun t => JS.num_or (quantity t) 0) data in
    let totalAmount :=
      reduce_sum
        (fun t => JS.num_or (opt_or (totalAmount t) (finalAmount t)) 0)
        data in
    let totalDiscount := reduce_sum discountOf data in
    {| Stats.totalUnits := totalUnits;
       Stats.totalAmount := totalAmount;
       Stats.totalDiscount := totalDiscount;
       Stats.recordCount := Z.of_nat (List.length data) |}.

Definition searchOrDefault (v : JS.jsval) : JS.jsval :=
  match v with
  | JS.JUndefined => JS.JStr ""
  | _ => v
  end.

Definition filtersOrDefault (f : option Filters.FilterCriteria)
  : option Filters.FilterCriteria :=
  match f with
  | None => Some Filters.empty
  | Some _ => f
  end.

Definition getTransactions (localeCompare : string -> string -> Z)
  (cache : DataLoader.Cache) (params : Params.QueryParams)
  : outcome QueryResult :=
  match DataLoader.getData cache with
  | None =>
      Thrown
        "Failed to get transactions: Data not loaded. Please restart the server."
  | Some data =>
      let search := searchOrDefault (Params.search params) in
      let filters := filtersOrDefault (Params.filters params) in
      let sortBy := SortService.orDefault "date" (Params.sortBy params) in
      let sortOrder :=
        SortService.orDefault "desc" (Params.sortOrder params) in
      let page := PaginationService.orDefault 1 (Params.page params) in
      let pageSize :=
        PaginationService.orDefault 10 (Params.pageSize params) in
      let data := SearchService.searchTransactions data search in
      let data := FilterService.applyFilters data filters in
      let aggregateStats := calculateAggregateStats data in
      let data :=
        SortService.sortTransactions localeCompare data
          (Some sortBy) (Some sortOrder) in
      let result := PaginationService.paginate data page pageSize in
      Returned
        {| items := Paging.items result;
           pagination := Paging.pagination result;
           aggregateStats := aggregateStats |}
  end.

(** [getFilterOptions]: the [search] property is applied when truthy;
    the [filters] property is read and not used. *)
Definition getFilterOptions (cache : DataLoader.Cache)
  (params : Params.QueryParams) : outcome FilterService.FilterOptions :=
  match DataLoader.getData cache with
  | None =>
      Thrown
        "Failed to get filter options: Data not loaded. Please restart the server."
  | Some data =>
      let search := searchOrDefault (Params.search params) in
      let filters := filtersOrDefault (Params.filters params) in
      let data :=
        match search with
        | JS.JStr s =>
            if JS.truthy_str s
            then SearchService.searchTransactions data search
            else data
        | JS.JNum n =>
            if n =? 0 then data
            else SearchService.searchTransactions data search
        | _ => data
        end in
      let options := FilterService.getFilterOptions data in
      Returned options
  end.

End TransactionService.

(** ** Request validation (validators, validationMiddleware) *)

Module Validators.

Record Validation : Type := {
  isValid : bool;
  errors : list string
}.

(** [errors.push(e)]. *)
Definition push (errors : list string) (e : string) : list string :=
  (errors ++ [e])%list.

Definition validation (errors : list string) : Validation :=
  {| isValid := negb (nonEmpty errors); errors := errors |}.

(** [isNaN(n) || n < 1] on the result of [parseInt]. *)
Definition nanOrBelow1 (n : option Z) : bool :=
  match n with
  | None => true
  | Some k => k <? 1
  end.

Definition isUndefined (v : JS.jsval) : bool :=
  match v with
  | JS.JUndefined => true
  | _ => false
  end.

Definition validatePagination (page pageSize : JS.jsval) : Validation :=
  let errors := [] in
  let errors :=
    if negb (isUndefined page) then
      let pageNum := JS.parseInt page in
      if nanOrBelow1 pageNum
      then push errors "Page number must be a positive integer"
      else errors
    else errors in
  let errors :=
    if negb (isUndefined pageSize) then
      let pageSizeNum := JS.parseInt pageSize in
      if nanOrBelow1 pageSizeNum || js_gt pageSizeNum (Some 100)
      then push errors "Page size must be between 1 and 100"
      else errors
    else errors in
  validation errors.

Definition validSortFields : list string :=
  ["date"; "quantity"; "customerName"].

Definition validSortOrders : list string := ["asc"; "desc"].

(** Truthiness of a query-string property. *)
Definition truthy (x : option string) : bool :=
  match x with
  | Some s => JS.truthy_str s
  | None => false
  end.

Definition validateSort (sortBy sortOrder : option string) : Validation :=
  let errors := [] in
  let errors :=
    if truthy sortBy
       && negb (JS.arr_includes validSortFields (JS.str_or_empty sortBy))
    then push errors "Invalid sortBy field. Must be one of: date, quantity, customerName"
    else errors in
  let errors :=
    if truthy sortOrder
       && negb (JS.arr_includes validSortOrders (JS.str_or_empty sortOrder))
    then push errors "Invalid sortOrder. Must be one of: asc, desc"
    else errors in
  validation errors.

Definition ageRangeErrors (range : Filters.AgeRange) : list string :=
  let min := Filters.min range in
  let max := Filters.max range in
  let errors := [] in
  let errors :=
    match min, max with
    | Some mn, Some mx =>
        if mx <? mn
        then push errors "Age range min cannot be greater than max"
        else errors
    | _, _ => errors
    end in
  let errors :=
    match min with
    | Some mn =>
        if mn <? 0
        then push errors "Age range min must be a non-negative number"
        else errors
    | None => errors
    end in
  let errors :=
    match max with
    | Some mx =>
        if mx <? 0
        then push errors "Age range max must be a non-negative number"
        else errors
    | None => errors
    end in
  errors.

Definition dateRangeErrors (range : Filters.DateRange) : list string :=
  match Filters.start range, Filters.end_ range with
  | Some startDate, Some endDate =>
      let errors := [] in
      let errors :=
        match getTime startDate with
        | None => push errors "Invalid start date format"
        | Some _ => errors
        end in
      let errors :=
        match getTime endDate with
        | None => push errors "Invalid end date format"
        | Some _ => errors
        end in
      let errors :=
        if js_gt (getTime startDate) (getTime endDate)
        then push errors "Start date cannot be after end date"
        else errors in
      errors
  | _, _ => []
  end.

Definition validateFilters (filters : Filters.FilterCriteria) : Validation :=
  let errors := [] in
  let errors :=
    match Filters.ageRange filters with
    | Some range => (errors ++ ageRangeErrors range)%list
    | None => errors
    end in
  let errors :=
    match Filters.dateRange filters with
    | Some range => (errors ++ dateRangeErrors range)%list
    | None => errors
    end in
  validation errors.

End Validators.

Module ValidationMiddleware.

(** The [filters] property of the query string: absent (or empty),
    text that [JSON.parse] rejects, or the parsed criteria. *)
Inductive FiltersParam : Type :=
| FiltersAbsent
| FiltersBadJson
| FiltersParsed (f : Filters.FilterCriteria).

Record Query : Type := {
  page : JS.jsval;
  pageSize : JS.jsval;
  sortBy : option string;
  sortOrder : option string;
  filters : FiltersParam
}.

Record ValidationError : Type := {
  message : string;
  errors : list string
}.

(** What the middleware hands to [next]: nothing, and the pipeline
    runs, or the error, and it does not. *)
Inductive Next : Type :=
| NextOk
| NextError (e : ValidationError).

Definition validateTransactionQuery (query : Query) : Next :=
  let paginationValidation :=
    Validators.validatePagination (page query) (pageSize query) in
  if negb (Validators.isValid paginationValidation) then
    NextError {| message := "Invalid pagination parameters";
                 errors := Validators.errors paginationValidation |}
  else
    let sortValidation :=
      Validators.validateSort (sortBy query) (sortOrder query) in
    if negb (Validators.isValid sortValidation) then
      NextError {| message := "Invalid sort parameters";
                   errors := Validators.errors sortValidation |}
    else
      match filters query with
      | FiltersAbsent => NextOk
      | FiltersBadJson =>
          NextError {| message := "Invalid filter format. Must be valid JSON";
                       errors := [] |}
      | FiltersParsed parsedFilters =>
          let filterValidation := Validators.validateFilters parsedFilters in
          if negb (Validators.isValid filterValidation) then
            NextError {| message := "Invalid filter parameters";
                         errors := Validators.errors filterValidation |}
          else NextOk
      end.

End ValidationMiddleware.

(** ** TransactionService.validateParams *)

Module TransactionServiceParams.

(** [v ? parseInt(v) : d]; [None] is [NaN]. *)
Definition parsedOr (d : Z) (v : JS.jsval) : option Z :=
  if JS.truthy v then JS.parseInt v else Some d.

(** [validateParams]. *)
Definition validateParams (params : Params.QueryParams)
  : Validators.Validation :=
  let errors := [] in
  let errors :=
    if JS.truthy (Params.search params)
       && negb (SearchService.isValidSearchTerm (Params.search params))
    then Validators.push errors "Invalid search term"
    else errors in
  let errors :=
    if negb (SortService.isValidSort (Params.sortBy params)
               (Params.sortOrder params))
    then Validators.push errors "Invalid sort parameters"
    else errors in
  let page := parsedOr 1 (Params.page params) in
  let pageSize := parsedOr 10 (Params.pageSize params) in
  let errors :=
    if Validators.nanOrBelow1 page
    then Validators.push errors "Page must be a positive integer"
    else errors in
  let errors :=
    if Validators.nanOrBelow1 pageSize || js_gt pageSize (Some 100)
    then Validators.push errors "Page size must be between 1 and 100"
    else errors in
  Validators.validation errors.

End TransactionServiceParams.

(** ** transactionController *)

Module TransactionController.

(** [v ? parseInt(v) : undefined], the value handed to the service;
    [None] when [parseInt] yields [NaN]. *)
Definition numericParam (v : JS.jsval) : option JS.jsval :=
  if JS.truthy v then option_map JS.JNum (JS.parseInt v)
  else Some JS.JUndefined.

(** What [getTransactions] does with a request before it calls the
    service: it rejects filters that are not valid JSON, and otherwise
    builds the parameters of the call.  [None] when a numeric parameter
    is [NaN]. *)
Definition serviceParams (search : JS.jsval)
  (query : ValidationMiddleware.Query)
  : option (outcome Params.QueryParams) :=
  match ValidationMiddleware.filters query with
  | ValidationMiddleware.FiltersBadJson =>
      Some (Thrown "Invalid filters format. Must be valid JSON")
  | filters =>
      let parsedFilters :=
        match filters with
        | ValidationMiddleware.FiltersParsed f => f
        | _ => Filters.empty
        end in
      match numericParam (ValidationMiddleware.page query),
            numericParam (ValidationMiddleware.pageSize query) with
      | Some page, Some pageSize =>
          Some (Returned
                  {| Params.search := search;
                     Params.filters := Some parsedFilters;
                     Params.sortBy := ValidationMiddleware.sortBy query;
                     Params.sortOrder := ValidationMiddleware.sortOrder query;
                     Params.page := page;
                     Params.pageSize := pageSize |})
      | _, _ => None
      end
  end.

End TransactionController.

(** ** The indexed backend (Transaction model, TransactionServiceMongo) *)

(** What the document store contributes and the repository does not
    define: the matching of [$regex] with option [i], and the order in
    which a sorted cursor yields the documents of a result set. *)
Record Engine : Type := {
  regexTest : string -> string -> bool;
  sortDocs : string -> Z -> list Transaction -> list Transaction
}.

Module TransactionServiceMongo.

(** The query object of [buildFilterQuery]: a key that was not set is
    [None]. *)
Record FilterQuery : Type := {
  q_customerRegion : option (list string);
  q_gender : option (list string);
  q_age_gte : option Z;
  q_age_lte : option Z;
  q_productCategory : option (list string);
  q_tags : option (list string);
  q_paymentMethod : option (list string);
  q_date_gte : option dateStr;
  q_date_lte : option dateStr
}.

(** [{ $in: values }] when the list is not empty. *)
Definition inClause (values : list string) : option (list string) :=
  if nonEmpty values then Some values else None.

Definition buildFilterQuery (filters : Filters.FilterCriteria)
  : FilterQuery :=
  {| q_customerRegion := inClause (Filters.customerRegion filters);
     q_gender := inClause (Filters.gender filters);
     q_age_gte :=
       match Filters.ageRange filters with
       | Some range =>
           match Filters.min range with
           | Some mn => if 0 <? mn then Some mn else None
           | None => None
           end
       | None => None
       end;
     q_age_lte :=
       match Filters.ageRange filters with
       | Some range =>
           match Filters.max range with
           | Some mx => if mx <? 100 then Some mx else None
           | None => None
           end
       | None => None
       end;
     q_productCategory := inClause (Filters.productCategory filters);
     q_tags := inClause (Filters.tags filters);
     q_paymentMethod := inClause (Filters.paymentMethod filters);
     q_date_gte :=
       match Filters.dateRange filters with
       | Some range => Filters.start range
       | None => None
       end;
     q_date_lte :=
       match Filters.dateRange filters with
       | Some range => Filters.end_ range
       | None => None
       end |}.

(** [buildSearchQuery]: [None] is the query [{}], [Some term] the
    [$or] of the five case-insensitive pattern matches on [term]. *)
Definition buildSearchQuery (searchTerm : string) : option string :=
  if negb (JS.truthy_str searchTerm) || String.eqb (JS.trim searchTerm) ""
  then None
  else Some (JS.trim searchTerm).

Definition buildSortQuery (sortBy sortOrder : string) : string * Z :=
  (sortBy, if String.eqb sortOrder "asc" then 1 else -1).

(** The combined query: the filter query alone, or its [$and] with the
    search query. *)
Inductive Query : Type :=
| QFilter (filterQuery : FilterQuery)
| QAnd (filterQuery : FilterQuery) (searchQuery : option string).

(** *** Query evaluation by the store *)

(** [{ field: { $in: values } }] on a scalar field. *)
Definition matchIn (clause : option (list string)) (value : string) : bool :=
  match clause with
  | Some values => JS.arr_includes values value
  | None => true
  end.

(** [{ field: { $in: values } }] on an array field: some element of
    the array is one of the values. *)
Definition matchInArray (clause : option (list string))
  (value : option (list string)) : bool :=
  match clause with
  | Some values =>
      match value with
      | Some elements => existsb (JS.arr_includes values) elements
      | None => false
      end
  | None => true
  end.

Definition matchGte (bound value : option Z) (present : bool) : bool :=
  if present then js_ge value bound else true.

Definition matchLte (bound value : option Z) (present : bool) : bool :=
  if present then js_le value bound else true.

Definition isSome {A} (x : option A) : bool :=
  match x with
  | Some _ => true
  | None => false
  end.

Definition bindTime (d : option dateStr) : option Z :=
  match d with
  | Some s => getTime s
  | None => None
  end.

Definition matchFilter (q : FilterQuery) (doc : Transaction) : bool :=
  matchIn (q_customerRegion q) (customerRegion doc)
  && matchIn (q_gender q) (gender doc)
  && matchGte (q_age_gte q) (age doc) (isSome (q_age_gte q))
  && matchLte (q_age_lte q) (age doc) (isSome (q_age_lte q))
  && matchIn (q_productCategory q) (productCategory doc)
  && matchInArray (q_tags q) (tags doc)
  && matchIn (q_paymentMethod q) (paymentMethod doc)
  && matchGte (bindTime (q_date_gte q)) (Some (date doc))
       (isSome (q_date_gte q))
  && matchLte (bindTime (q_date_lte q)) (Some (date doc))
       (isSome (q_date_lte q)).

Definition matchSearch (db : Engine) (searchQuery : option string)
  (doc : Transaction) : bool :=
  match searchQuery with
  | None => true
  | Some term =>
      let onOptional field :=
        match field with
        | Some s => regexTest db term s
        | None => false
        end in
      onOptional (customerName doc)
      || onOptional (phoneNumber doc)
      || regexTest db term (customerId doc)
      || regexTest db term (productName doc)
      || regexTest db term (transactionId doc)
  end.

Definition matches (db : Engine) (query : Query) (doc : Transaction)
  : bool :=
  match query with
  | QFilter filterQuery => matchFilter filterQuery doc
  | QAnd filterQuery searchQuery =>
      matchFilter filterQuery doc && matchSearch db searchQuery doc
  end.

(** [$sum] over a field: a document without the field adds nothing. *)
Definition sumField (f : Transaction -> option Z) (docs : list Transaction)
  : Z :=
  fold_left (fun sum doc => sum + match f doc with
                                  | Some n => n
                                  | None => 0
                                  end) docs 0.

(** [{ $subtract: ['$totalAmount', '$finalAmount'] }]: [null] when an
    operand is missing, and [$sum] skips [null]. *)
Definition subtractAmounts (doc : Transaction) : option Z :=
  match totalAmount doc, finalAmount doc with
  | Some total, Some final => Some (total - final)
  | _, _ => None
  end.

(** [Transaction.getAggregateStats]: the [$match] and [$group] stages
    over the collection; an empty match yields no group. *)
Definition getAggregateStats (db : Engine) (collection : list Transaction)
  (query : Query) : Stats.AggregateStats :=
  let matched := filter (matches db query) collection in
  if negb (nonEmpty matched) then
    {| Stats.totalUnits := 0; Stats.totalAmount := 0;
       Stats.totalDiscount := 0; Stats.recordCount := 0 |}
  else
    {| Stats.totalUnits := sumField quantity matched;
       Stats.totalAmount := sumField totalAmount matched;
       Stats.totalDiscount := sumField subtractAmounts matched;
       Stats.recordCount := Z.of_nat (List.length matched) |}.

Definition msPerDay : Z := 86400000.

(** [item.date.toISOString().split('T')[0]]: the date at the
    precision of a day, as the time value of that day. *)
Definition formatDate (t : Z) : Z := msPerDay * (t / msPerDay).

Definition formatItem (item : Transaction) : Transaction :=
  DataLoader.withDate item (formatDate (date item)).

(** The store casts the operands of a query to the types of the
    schema; an Invalid Date does not cast and the query is rejected. *)
Definition castable (q : FilterQuery) : bool :=
  let valid d :=
    match d with
    | Some InvalidDate => false
    | _ => true
    end in
  valid (q_date_gte q) && valid (q_date_lte q).

(** A numeric parameter after its default: [None] when the value is
    not a number. *)
Definition numberOr (d : Z) (v : JS.jsval) : option Z :=
  match v with
  | JS.JUndefined => Some d
  | JS.JNum n => Some n
  | _ => None
  end.

(** [getTransactions].  The result is [None] outside the requests the
    model covers: a search term that is not a string, a page or page
    size that is not a number, [page < 1] or [pageSize < 1], which the
    validation middleware rejects before the service is called, and a
    query that the store rejects. *)
Definition getTransactions (db : Engine) (collection : list Transaction)
  (params : Params.QueryParams) : option QueryResult :=
  let filters :=
    match Params.filters params with
    | Some f => f
    | None => Filters.empty
    end in
  let sortBy := SortService.orDefault "date" (Params.sortBy params) in
  let sortOrder := SortService.orDefault "desc" (Params.sortOrder params) in
  match TransactionService.searchOrDefault (Params.search params),
        numberOr 1 (Params.page params),
        numberOr 10 (Params.pageSize params) with
  | JS.JStr search, Some page, Some pageSize =>
      if (page <? 1) || (pageSize <? 1) then None
      else if negb (castable (buildFilterQuery filters)) then None
      else
        let filterQuery := buildFilterQuery filters in
        let searchQuery := buildSearchQuery search in
        let combinedQuery :=
          if JS.truthy_str search then QAnd filterQuery searchQuery
          else QFilter filterQuery in
        let sort := buildSortQuery sortBy sortOrder in
        let aggregateStats := getAggregateStats db collection combinedQuery in
        let totalItems := Stats.recordCount aggregateStats in
        let totalPages := JS.ceil_div totalItems pageSize in
        let skip := (page - 1) * pageSize in
        let items :=
          firstn (Z.to_nat pageSize)
            (skipn (Z.to_nat skip)
               (sortDocs db (fst sort) (snd sort)
                  (filter (matches db combinedQuery) collection))) in
        let formattedItems := map formatItem items in
        Some
          {| items := formattedItems;
             pagination :=
               {| Paging.currentPage := page;
                  Paging.pageSize := pageSize;
                  Paging.totalItems := totalItems;
                  Paging.totalPages := totalPages;
                  Paging.hasNextPage := page <? totalPages;
                  Paging.hasPreviousPage := 1 <? page;
                  Paging.startIndex := None;
                  Paging.endIndex := None |};
             aggregateStats :=
               {| Stats.totalUnits :=
                    PaginationService.or_num
                      (Stats.totalUnits aggregateStats) 0;
                  Stats.totalAmount :=
                    PaginationService.or_num
                      (Stats.totalAmount aggregateStats) 0;
                  Stats.totalDiscount :=
                    PaginationService.or_num
                      (Stats.totalDiscount aggregateStats) 0;
                  Stats.recordCount :=
                    PaginationService.or_num
                      (Stats.recordCount aggregateStats) 0 |} |}
  | _, _, _ => None
  end.

Module Options.

Record AgeRange : Type := { min : Z; max : Z }.

Record FilterOptions : Type := {
  customerRegion : list string;
  gender : list string;
  productCategory : list string;
  tags : list string;
  paymentMethod : list string;
  ageRange : AgeRange
}.

End Options.

(** [Transaction.distinct(field, query)], in order of first
    occurrence. *)
Definition distinct (values : list string) : list string :=
  fold_left (fun s v => FilterService.set_add v s) values [].

Definition nonEmptyStrings (values : list string) : list string :=
  filter JS.truthy_str values.

(** The accumulators [$min] and [$max] over a field: documents
    without the field are skipped, [None] is [null]. *)
Definition accumulate (pick : Z -> Z -> Z) (f : Transaction -> option Z)
  (docs : list Transaction) : option Z :=
  fold_left (fun acc doc =>
               match acc, f doc with
               | Some a, Some v => Some (pick a v)
               | None, Some v => Some v
               | _, None => acc
               end) docs None.

(** [getFilterOptions]: the distinct values of the five fields, and
    the observed age range, over the documents that match the
    combined query. *)
Definition getFilterOptions (db : Engine) (collection : list Transaction)
  (params : Params.QueryParams) : option Options.FilterOptions :=
  let filters :=
    match Params.filters params with
    | Some f => f
    | None => Filters.empty
    end in
  match TransactionService.searchOrDefault (Params.search params) with
  | JS.JStr search =>
      if negb (castable (buildFilterQuery filters)) then None else
      let filterQuery := buildFilterQuery filters in
      let searchQuery := buildSearchQuery search in
      let combinedQuery :=
        if JS.truthy_str search then QAnd filterQuery searchQuery
        else QFilter filterQuery in
      let matched := filter (matches db combinedQuery) collection in
      let tagsOf doc :=
        match tags doc with
        | Some ts => ts
        | None => []
        end in
      Some
        {| Options.customerRegion :=
             nonEmptyStrings (distinct (map customerRegion matched));
           Options.gender := nonEmptyStrings (distinct (map gender matched));
           Options.productCategory :=
             nonEmptyStrings (distinct (map productCategory matched));
           Options.tags := nonEmptyStrings (distinct (flat_map tagsOf matched));
           Options.paymentMethod :=
             nonEmptyStrings (distinct (map paymentMethod matched));
           Options.ageRange :=
             if nonEmpty matched then
               {| Options.min := JS.num_or (accumulate Z.min age matched) 0;
                  Options.max := JS.num_or (accumulate Z.max age matched) 100 |}
             else {| Options.min := 0; Options.max := 100 |} |}
  | _ => None
  end.

End TransactionServiceMongo.

(** ** Fixtures and reference instances *)

Module Fixture.

Definition mk (id name phone gen : string) (a : Z) (region : string)
  (q total final day : Z) : Transaction :=
  {| transactionId := id; customerId := "C" ++ id;
     customerName := Some name; phoneNumber := Some phone;
     gender := gen; age := Some a; customerRegion := region;
     productName := "Widget"; productCategory := "Electronics";
     tags := Some ["new"]; quantity := Some q;
     totalAmount := Some total; finalAmount := Some final;
     date := day * 86400000; paymentMethod := "Card" |}.

Definition john : Transaction :=
  mk "T1" "John Doe" "1234567890" "Male" 35 "North" 2 2000 1800 19000.

Definition alice : Transaction :=
  mk "T2" "Alice Johnson" "9876543210" "Female" 28 "South" 5 5000 4500 19001.

Definition bob : Transaction :=
  mk "T3" "Bob Smith" "5551234567" "Male" 42 "East" 1 1000 1000 19002.

Definition carol : Transaction :=
  mk "T4" "Carol White" "5559876543" "Female" 31 "West" 3 3000 2700 19003.

Definition dave : Transaction :=
  mk "T5" "Dave Brown" "5550000000" "Male" 55 "North" 4 4000 3600 19004.

Definition sampleTransactions : list Transaction :=
  [john; alice; bob; carol; dave].

Definition loaded (data : list Transaction) : DataLoader.Cache :=
  {| DataLoader.data := Some data; DataLoader.isLoaded := true |}.

(** A query with every property absent. *)
Definition noParams : Params.QueryParams :=
  {| Params.search := JS.JUndefined; Params.filters := None;
     Params.sortBy := None; Params.sortOrder := None;
     Params.page := JS.JUndefined; Params.pageSize := JS.JUndefined |}.

(** A [localeCompare] for evaluation: code-unit order. *)
Definition codeUnitCompare : string -> string -> Z :=
  FilterService.compareStrings.

(** The order in which the store compares two optional numbers as
    sort keys: a missing value sorts before every number. *)
Definition compareKeys (a b : option Z) : Z :=
  match a, b with
  | None, None => 0
  | None, Some _ => -1
  | Some _, None => 1
  | Some x, Some y => x - y
  end.

(** A store engine for evaluation: substring matching on lower-cased
    text for [$regex], stable insertion on the sort key for the
    cursor order. *)
Definition engine : Engine :=
  {| regexTest := fun pattern s =>
       JS.includes (JS.toLowerCase s) (JS.toLowerCase pattern);
     sortDocs := fun field direction docs =>
       if String.eqb field "date" then
         JS.sort (fun a b => direction * (date a - date b)) docs
       else if String.eqb field "quantity" then
         JS.sort (fun a b =>
                    direction * compareKeys (quantity a) (quantity b)) docs
       else docs |}.

(** A record that lacks [finalAmount]. *)
Definition withoutFinalAmount : Transaction :=
  {| transactionId := "T6"; customerId := "CT6";
     customerName := Some "Erin Green"; phoneNumber := Some "5551112222";
     gender := "Female"; age := Some 40; customerRegion := "South";
     productName := "Widget"; productCategory := "Electronics";
     tags := Some ["new"]; quantity := Some 1;
     totalAmount := Some 100; finalAmount := None;
     date := 19005 * 86400000; paymentMethod := "Card" |}.

(** Criteria that select one region. *)
Definition northOnly : Filters.FilterCriteria :=
  {| Filters.customerRegion := ["North"]; Filters.gender := [];
     Filters.ageRange := None; Filters.productCategory := [];
     Filters.tags := []; Filters.paymentMethod := [];
     Filters.dateRange := None |}.

(** A query string with a page size out of range and an unsupported
    sort field. *)
Definition twoViolations : ValidationMiddleware.Query :=
  {| ValidationMiddleware.page := JS.JUndefined;
     ValidationMiddleware.pageSize := JS.JStr "101";
     ValidationMiddleware.sortBy := Some "price";
     ValidationMiddleware.sortOrder := None;
     ValidationMiddleware.filters := ValidationMiddleware.FiltersAbsent |}.

(** Two rows of a source file: the first has a date that does not
    parse, the second a date that does. *)
Definition rows : list DataLoader.Row :=
  [ {| DataLoader.rowDate := Some InvalidDate;
       DataLoader.rowFields := john |};
    {| DataLoader.rowDate := Some (ValidDate 100);
       DataLoader.rowFields := alice |} ].


(** A store that holds the sample array at reference 0. *)
Definition sampleStore : Store.store := [sampleTransactions].

(** Two records that tie on quantity, between two that do not. *)
Definition tied : list Transaction :=
  [ mk "A" "Ann" "1" "Female" 30 "North" 3 300 300 19000;
    mk "B" "Ben" "2" "Male" 31 "North" 2 200 200 19001;
    mk "C" "Cy" "3" "Male" 32 "North" 3 300 300 19002;
    mk "D" "Di" "4" "Female" 33 "North" 1 100 100 19003 ].

(** A request for page 999 of pages of two records. *)
Definition page999 : Params.QueryParams :=
  {| Params.search := JS.JUndefined; Params.filters := None;
     Params.sortBy := None; Params.sortOrder := None;
     Params.page := JS.JNum 999; Params.pageSize := JS.JNum 2 |}.

(** A request for the second page of one record of the North region,
    by descending quantity. *)
Definition northByQuantity : Params.QueryParams :=
  {| Params.search := JS.JUndefined; Params.filters := Some northOnly;
     Params.sortBy := Some "quantity"; Params.sortOrder := Some "desc";
     Params.page := JS.JNum 2; Params.pageSize := JS.JNum 1 |}.

(** A query that the middleware accepts, and criteria with a start
    date that does not parse and no end date. *)
Definition secondPage : ValidationMiddleware.Query :=
  {| ValidationMiddleware.page := JS.JStr "2";
     ValidationMiddleware.pageSize := JS.JStr "25";
     ValidationMiddleware.sortBy := Some "quantity";
     ValidationMiddleware.sortOrder := Some "asc";
     ValidationMiddleware.filters := ValidationMiddleware.FiltersAbsent |}.

Definition sinceInvalidDate : Filters.FilterCriteria :=
  {| Filters.customerRegion := []; Filters.gender := [];
     Filters.ageRange := None; Filters.productCategory := [];
     Filters.tags := []; Filters.paymentMethod := [];
     Filters.dateRange :=
       Some {| Filters.start := Some InvalidDate;
               Filters.end_ := None |} |}.

(** Criteria with an age range and a date range that are in order. *)
Definition adultsOfJanuary : Filters.FilterCriteria :=
  {| Filters.customerRegion := []; Filters.gender := [];
     Filters.ageRange :=
       Some {| Filters.min := Some 18; Filters.max := Some 65 |};
     Filters.productCategory := [];
     Filters.tags := []; Filters.paymentMethod := [];
     Filters.dateRange :=
       Some {| Filters.start := Some (ValidDate 1704067200000);
               Filters.end_ := Some (ValidDate 1706745599000) |} |}.

(** Criteria with the age range 0 to 100. *)
Definition anyAge : Filters.FilterCriteria :=
  {| Filters.customerRegion := []; Filters.gender := [];
     Filters.ageRange :=
       Some {| Filters.min := Some 0; Filters.max := Some 100 |};
     Filters.productCategory := [];
     Filters.tags := []; Filters.paymentMethod := [];
     Filters.dateRange := None |}.

End Fixture.

(** ** Vocabulary of the specification *)

Module Spec.

Import JS.

(** [t] occurs in [s] as a contiguous substring. *)
Definition Substring (t s : string) : Prop :=
  exists pre post, s = pre ++ t ++ post.

(** The term a search acts on, in the words of the specification:
    none when the term is not a string that is non-empty after
    trimming, and otherwise the lower-cased trimmed term. *)
Definition normalizedTerm (term : jsval) : option string :=
  match term with
  | JStr s =>
      if String.eqb (trim s) "" then None else Some (toLowerCase (trim s))
  | _ => None
  end.

(** A record is kept for [t]: its lower-cased name or its phone number
    contains [t]; a missing name or number counts as the empty
    string. *)
Definition Keeps (t : string) (r : Transaction) : Prop :=
  Substring t (toLowerCase (str_or_empty (customerName r)))
  \/ Substring t (str_or_empty (phoneNumber r)).

(** [l1] is [l2] with some elements left out and the order kept. *)
Inductive Subsequence {A : Type} : list A -> list A -> Prop :=
| sub_nil : Subsequence [] []
| sub_drop (x : A) (l1 l2 : list A) :
    Subsequence l1 l2 -> Subsequence l1 (x :: l2)
| sub_keep (x : A) (l1 l2 : list A) :
    Subsequence l1 l2 -> Subsequence (x :: l1) (x :: l2).

(** The tags of a record; a record without the property has none. *)
Definition tagsOf (r : Transaction) : list string :=
  match tags r with
  | Some ts => ts
  | None => []
  end.

(** A multi-select constraint: present when the set is not empty, and
    then the value of the record is a member. *)
Definition InSet (values : list string) (v : string) : Prop :=
  values <> [] -> In v values.

(** The tag constraint: present when the set is not empty, and then the
    record has a tag in common with it. *)
Definition TagsIntersect (values : list string) (r : Transaction) : Prop :=
  values <> [] -> exists tag, In tag values /\ In tag (tagsOf r).

(** The age constraint: each bound that is given holds of the age of the
    record, inclusively. *)
Definition AgeWithin (range : option Filters.AgeRange) (r : Transaction)
  : Prop :=
  forall rg, range = Some rg ->
    (forall mn, Filters.min rg = Some mn ->
                exists a, age r = Some a /\ mn <= a)
    /\ (forall mx, Filters.max rg = Some mx ->
                   exists a, age r = Some a /\ a <= mx).

(** The date constraint: each bound that is given is a date, and holds
    of the time value of the record's date, inclusively. *)
Definition DateWithin (range : option Filters.DateRange) (r : Transaction)
  : Prop :=
  forall rg, range = Some rg ->
    (forall s, Filters.start rg = Some s ->
               exists t, getTime s = Some t /\ t <= date r)
    /\ (forall e, Filters.end_ rg = Some e ->
                  exists t, getTime e = Some t /\ date r <= t).

(** A record satisfies every present constraint of the criteria. *)
Definition Satisfies (f : Filters.FilterCriteria) (r : Transaction) : Prop :=
  InSet (Filters.customerRegion f) (customerRegion r)
  /\ InSet (Filters.gender f) (gender r)
  /\ AgeWithin (Filters.ageRange f) r
  /\ InSet (Filters.productCategory f) (productCategory r)
  /\ TagsIntersect (Filters.tags f) r
  /\ InSet (Filters.paymentMethod f) (paymentMethod r)
  /\ DateWithin (Filters.dateRange f) r.

(** The conjunction of the stages of [applyFilters] on one record. *)
Definition passes (f : Filters.FilterCriteria) (r : Transaction) : bool :=
  (negb (nonEmpty (Filters.customerRegion f))
   || JS.arr_includes (Filters.customerRegion f) (customerRegion r))
  && (negb (nonEmpty (Filters.gender f))
      || JS.arr_includes (Filters.gender f) (gender r))
  && match Filters.ageRange f with
     | Some range => FilterService.ageInRange range r
     | None => true
     end
  && (negb (nonEmpty (Filters.productCategory f))
      || JS.arr_includes (Filters.productCategory f) (productCategory r))
  && (negb (nonEmpty (Filters.tags f))
      || FilterService.hasAnyTag (Filters.tags f) r)
  && (negb (nonEmpty (Filters.paymentMethod f))
      || JS.arr_includes (Filters.paymentMethod f) (paymentMethod r))
  && match Filters.dateRange f with
     | Some range => FilterService.dateInRange range r
     | None => true
     end.

(** The page a request asks for, as [parseInt] reads it, normalized: 1
    when there is nothing to read or the reading is below 1. *)
Definition normalPage (page : jsval) : Z :=
  match parseInt page with
  | Some n => if 1 <=? n then n else 1
  | None => 1
  end.

(** The page size, as [parseInt] reads it, normalized: 10 when there
    is nothing to read or the reading is below 1, and at most 100. *)
Definition normalPageSize (pageSize : jsval) : Z :=
  match parseInt pageSize with
  | Some n => if 1 <=? n then Z.min n 100 else 10
  | None => 10
  end.

(** [x] clamped into [[lo, hi]]. *)
Definition clamp (lo hi x : Z) : Z :=
  if x <? lo then lo else if hi <? x then hi else x.

(** Every violation that the validators find in a query: those of the
    pagination, of the sort and, when criteria were parsed, of the
    filters. *)
Definition allViolations (q : ValidationMiddleware.Query) : list string :=
  (Validators.errors
     (Validators.validatePagination (ValidationMiddleware.page q)
        (ValidationMiddleware.pageSize q))
   ++ Validators.errors
        (Validators.validateSort (ValidationMiddleware.sortBy q)
           (ValidationMiddleware.sortOrder q))
   ++ match ValidationMiddleware.filters q with
      | ValidationMiddleware.FiltersParsed f =>
          Validators.errors (Validators.validateFilters f)
      | _ => []
      end)%list.

(** The errors that the middleware reports: none when it lets the
    request through. *)
Definition reported (n : ValidationMiddleware.Next) : list string :=
  match n with
  | ValidationMiddleware.NextOk => []
  | ValidationMiddleware.NextError e => ValidationMiddleware.errors e
  end.

(** The order of the records of a list, by identity. *)
Definition order (l : list Transaction) : list string :=
  map transactionId l.


(** The comparison key of a record under a sort field: the time value
    of its date, its quantity (0 when missing), or its lower-cased name
    (empty when missing); a field that is not supported gives every
    record the same key. *)
Inductive SortKey : Type :=
| KNum (n : Z)
| KStr (s : string)
| KNone.

Definition sortKey (sortBy : string) (r : Transaction) : SortKey :=
  if String.eqb sortBy "date" then KNum (date r)
  else if String.eqb sortBy "quantity" then KNum (num_or (quantity r) 0)
  else if String.eqb sortBy "customerName"
       then KStr (toLowerCase (str_or_empty (customerName r)))
  else KNone.

Definition sameKey (a b : SortKey) : bool :=
  match a, b with
  | KNum x, KNum y => x =? y
  | KStr s, KStr t => String.eqb s t
  | KNone, KNone => true
  | _, _ => false
  end.

(** The records of a list whose key under [sortBy] is [k], in the order
    of the list. *)
Definition withKey (sortBy : string) (k : SortKey) (l : list Transaction)
  : list Transaction :=
  filter (fun r => sameKey (sortKey sortBy r) k) l.

(** *** The two backends side by side *)

(** The order of two optional numbers as sort keys in the store: a
    missing value comes before every number. *)
Definition bson_le (a b : option Z) : Prop :=
  match a, b with
  | None, _ => True
  | Some _, None => False
  | Some x, Some y => x <= y
  end.

(** A relation read in the direction of a sort: 1 ascending, -1
    descending. *)
Definition inDirection {A} (d : Z) (le : A -> A -> Prop) (a b : A) : Prop :=
  if d =? 1 then le a b else le b a.

(** What is assumed of the store: a sorted cursor yields the documents
    of the result set, each once, in the order of the sort field.  The
    order among documents that tie is left open. *)
Record EngineSound (db : Engine) : Prop := {
  sortDocs_perm :
    forall field d docs, Permutation docs (sortDocs db field d docs);
  sortDocs_date :
    forall d docs, d = 1 \/ d = -1 ->
      StronglySorted (inDirection d (fun a b => date a <= date b))
        (sortDocs db "date" d docs);
  sortDocs_quantity :
    forall d docs, d = 1 \/ d = -1 ->
      StronglySorted
        (inDirection d (fun a b => bson_le (quantity a) (quantity b)))
        (sortDocs db "quantity" d docs)
}.

(** The criteria of a request, [{}] when it has none. *)
Definition criteriaOf (p : Params.QueryParams) : Filters.FilterCriteria :=
  match Params.filters p with
  | Some f => f
  | None => Filters.empty
  end.

(** The records that a request with no search term selects. *)
Definition matching (data : list Transaction) (p : Params.QueryParams)
  : list Transaction :=
  FilterService.applyFilters data (Some (criteriaOf p)).

Definition blankSearch (v : jsval) : bool :=
  match v with
  | JUndefined => true
  | JStr s => String.eqb (trim s) ""
  | _ => false
  end.

(** The age bounds of the criteria are ones that the indexed backend
    applies: a minimum above 0, a maximum below 100. *)
Definition ageBoundsApplied (f : Filters.FilterCriteria) : bool :=
  match Filters.ageRange f with
  | Some rg =>
      match Filters.min rg with
      | Some mn => 0 <? mn
      | None => true
      end
      && match Filters.max rg with
         | Some mx => mx <? 100
         | None => true
         end
  | None => true
  end.

Definition numericOr (d : Z) (v : jsval) : Z :=
  match v with
  | JNum n => n
  | _ => d
  end.

Definition isNumberOrAbsent (v : jsval) : bool :=
  match v with
  | JUndefined | JNum _ => true
  | _ => false
  end.

(** The requests on which the two backends are compared: no search
    term; age bounds that both apply; date bounds that are dates; sort
    by date or by quantity; a page and a page size that are numbers or
    absent, with the page size between 1 and 100 and the page at
    least 1 and below [2^32]. *)
Definition commonRequest (p : Params.QueryParams) : bool :=
  blankSearch (Params.search p)
  && ageBoundsApplied (criteriaOf p)
  && TransactionServiceMongo.castable
       (TransactionServiceMongo.buildFilterQuery (criteriaOf p))
  && (let field := SortService.orDefault "date" (Params.sortBy p) in
      String.eqb field "date" || String.eqb field "quantity")
  && isNumberOrAbsent (Params.page p)
  && isNumberOrAbsent (Params.pageSize p)
  && (1 <=? numericOr 10 (Params.pageSize p))
  && (numericOr 10 (Params.pageSize p) <=? 100)
  && (1 <=? numericOr 1 (Params.page p))
  && (numericOr 1 (Params.page p) <? 2 ^ 32).


Definition hasAmounts (r : Transaction) : bool :=
  match totalAmount r, finalAmount r with
  | Some total, Some final => negb (total =? 0) || (final =? 0)
  | _, _ => false
  end.



(** The result of a call that returned. *)
Definition returned {A} (o : outcome A) : option A :=
  match o with
  | Returned a => Some a
  | Thrown _ => None
  end.


(** The order of a direction on integer keys. *)
Definition keyOrder (key : Transaction -> Z) (d : Z) (a b : Transaction)
  : Prop :=
  inDirection d (fun a b => key a <= key b) a b.

(** The direction that [buildSortQuery] gives to an order. *)
Definition direction (sortOrder : string) : Z :=
  if String.eqb sortOrder "asc" then 1 else -1.

(** The cache of the array backend once [data] is loaded. *)
Definition loadedWith (data : list Transaction) : DataLoader.Cache :=
  {| DataLoader.data := Some data; DataLoader.isLoaded := true |}.

(** *** Filter options *)

(** A list of options is made of the values that [valuesOf] gives for
    the records of [data], each once, in code-unit order; the empty
    string is an option only when [withEmpty] holds. *)
Definition OptionsOf (valuesOf : Transaction -> list string)
  (withEmpty : bool) (data : list Transaction) (options : list string)
  : Prop :=
  (forall v, In v options
             <-> (withEmpty = true \/ v <> "")
                 /\ exists t, In t data /\ In v (valuesOf t))
  /\ NoDup options
  /\ StronglySorted (fun a b => FilterService.compareStrings a b <= 0)
       options.

(** The steps of [addOptions] on the set of one scalar field, and on
    the set of tags. *)
Definition addScalar (field : Transaction -> string) (s : list string)
  (t : Transaction) : list string :=
  if truthy_str (field t) then FilterService.set_add (field t) s else s.

Definition addTags (s : list string) (t : Transaction) : list string :=
  match tags t with
  | Some ts => fold_left (fun s tag => FilterService.set_add tag s) ts s
  | None => s
  end.

(** A tag as the loader produces it from text: not empty, without
    surrounding white space, without a comma. *)
Definition cleanTag (tag : string) : bool :=
  truthy_str tag && String.eqb (trim tag) tag && negb (includes tag ",").

(** The criteria without their age range, and the age ranges that are
    at least as wide as 0 to 100. *)
Definition withoutAgeRange (f : Filters.FilterCriteria)
  : Filters.FilterCriteria :=
  {| Filters.customerRegion := Filters.customerRegion f;
     Filters.gender := Filters.gender f;
     Filters.ageRange := None;
     Filters.productCategory := Filters.productCategory f;
     Filters.tags := Filters.tags f;
     Filters.paymentMethod := Filters.paymentMethod f;
     Filters.dateRange := Filters.dateRange f |}.

Definition widestAgeRange (f : Filters.FilterCriteria) : bool :=
  match Filters.ageRange f with
  | Some rg =>
      match Filters.min rg with
      | Some mn => mn <=? 0
      | None => true
      end
      && match Filters.max rg with
         | Some mx => 100 <=? mx
         | None => true
         end
  | None => true
  end.

(** A JavaScript array holds fewer than [2^32] elements. *)
Definition fitsArray {A} (l : list A) : bool :=
  Z.of_nat (List.length l) <? 2 ^ 32.

(** The Numbers that stand for an infinity. *)
Definition isInfinite (v : jsval) : bool :=
  match v with
  | JNum n => 2 ^ 1024 <=? Z.abs n
  | _ => false
  end.

(** Criteria that ask for one region, and for one tag. *)
Definition onlyRegion (r : string) : Filters.FilterCriteria :=
  {| Filters.customerRegion := [r]; Filters.gender := [];
     Filters.ageRange := None; Filters.productCategory := [];
     Filters.tags := []; Filters.paymentMethod := [];
     Filters.dateRange := None |}.

Definition onlyTag (tag : string) : Filters.FilterCriteria :=
  {| Filters.customerRegion := []; Filters.gender := [];
     Filters.ageRange := None; Filters.productCategory := [];
     Filters.tags := [tag]; Filters.paymentMethod := [];
     Filters.dateRange := None |}.

End Spec.

(* ================================================================= *)
(** * Part II.  Properties *)
(* ================================================================= *)

(** ** Strings *)

Module StringFacts.

Import JS Spec.

Lemma startsWith_spec (s t : string) :
  startsWith s t = true <-> exists post, s = t ++ post.
Proof.
  revert s. induction t as [|b t IH]; intros s.
  - split; [intros _; now exists s | now destruct s].
  - destruct s as [|a s]; simpl.
    + split; [discriminate | intros [post H]; discriminate].
    + rewrite andb_true_iff, Ascii.eqb_eq, IH. split.
      * intros [-> [post ->]]. now exists post.
      * intros [post H]. injection H as -> ->. split; [reflexivity|].
        now exists post.
Qed.

Lemma includes_spec (s t : string) :
  includes s t = true <-> Substring t s.
Proof.
  unfold Substring. induction s as [|a s IH].
  - cbn [includes]. rewrite orb_false_r, startsWith_spec. split.
    + intros [post H]. now exists "", post.
    + intros [pre [post H]]. destruct pre; [now exists post|discriminate].
  - cbn [includes]. rewrite orb_true_iff, startsWith_spec, IH. split.
    + intros [[post H] | [pre [post H]]].
      * now exists "", post.
      * exists (String a pre), post. simpl. now rewrite H.
    + intros [pre [post H]]. destruct pre as [|c pre].
      * left. now exists post.
      * right. simpl in H. injection H as _ H. now exists pre, post.
Qed.

(** The empty string contains no non-empty string. *)
Lemma includes_empty (t : string) : t <> "" -> includes "" t = false.
Proof. destruct t; [congruence | reflexivity]. Qed.

Lemma isWhiteSpace_lower (c : ascii) :
  isWhiteSpace (lower_ascii c) = isWhiteSpace c.
Proof.
  destruct c as [[] [] [] [] [] [] [] []]; reflexivity.
Qed.

Lemma trimStart_lower (s : string) :
  trimStart (toLowerCase s) = toLowerCase (trimStart s).
Proof.
  induction s as [|c s IH]; simpl; [reflexivity|].
  rewrite isWhiteSpace_lower. now destruct (isWhiteSpace c).
Qed.

Lemma rev_append_lower (s acc : string) :
  rev_append (toLowerCase s) (toLowerCase acc)
  = toLowerCase (rev_append s acc).
Proof.
  revert acc. induction s as [|c s IH]; intros acc; simpl; [reflexivity|].
  now rewrite <- IH.
Qed.

Lemma reverse_lower (s : string) :
  reverse (toLowerCase s) = toLowerCase (reverse s).
Proof. exact (rev_append_lower s ""). Qed.

(** Lower-casing and trimming commute. *)
Lemma trim_lower (s : string) :
  trim (toLowerCase s) = toLowerCase (trim s).
Proof.
  unfold trim, trimEnd.
  now rewrite trimStart_lower, reverse_lower, trimStart_lower, reverse_lower.
Qed.

Lemma toLowerCase_empty (s : string) : toLowerCase s = "" <-> s = "".
Proof. destruct s; simpl; split; congruence. Qed.

End StringFacts.

(** ** Numbers *)

Module NumberFacts.

Import JS.

Lemma leading_range (fuel : nat) (m : Z) :
  1 <= m -> m < 2 ^ Z.of_nat fuel ->
  1 <= fst (leading fuel m) <= 9 /\ 1 <= snd (leading fuel m).
Proof.
  revert m. induction fuel as [|fuel IH]; intros m H1 H2.
  - change (2 ^ Z.of_nat 0) with 1 in H2. lia.
  - cbn [leading]. destruct (Z.ltb_spec m 10) as [Hm | Hm];
      [cbn [fst snd]; lia|].
    rewrite Nat2Z.inj_succ, Z.pow_succ_r in H2 by lia.
    assert (Hq : 1 <= m / 10 < 2 ^ Z.of_nat fuel).
    { split.
      - apply Z.div_le_lower_bound; lia.
      - apply Z.div_lt_upper_bound; lia. }
    destruct (IH (m / 10) (proj1 Hq) (proj2 Hq)) as [Hd Hp].
    destruct (leading fuel (m / 10)) as [d p]. cbn [fst snd] in *. lia.
Qed.

(** The digit before the point is a digit from 1 to 9. *)
Lemma exponentLead_range (m : Z) : 1 <= m -> 1 <= exponentLead m <= 9.
Proof.
  intros Hm. unfold exponentLead.
  assert (Hf : m < 2 ^ Z.of_nat (Z.to_nat (Z.log2 m) + 1)).
  { rewrite Nat2Z.inj_add, Z2Nat.id by apply Z.log2_nonneg.
    change (Z.of_nat 1) with 1.
    apply (Z.log2_spec m). lia. }
  destruct (leading_range _ m Hm Hf) as [Hd _].
  destruct (leading (Z.to_nat (Z.log2 m) + 1) m) as [d p].
  cbn [fst] in Hd.
  destruct (roundDouble ((d + 1) * p) =? m); [|lia].
  destruct (Z.eqb_spec d 9); lia.
Qed.

(** Below [10^21] [parseInt] reads a Number as it is. *)
Lemma parseInt_num_small (n : Z) :
  Z.abs n < 10 ^ 21 -> parseInt_num n = Some n.
Proof.
  intros H. unfold parseInt_num. cbv zeta.
  destruct (Z.ltb_spec (Z.abs n) (10 ^ 21)); [reflexivity | lia].
Qed.

(** What [parseInt] reads from a Number: the Number itself below
    [10^21], and one digit with its sign from there on. *)
Lemma parseInt_num_some (n k : Z) :
  parseInt_num n = Some k ->
  (Z.abs n < 10 ^ 21 /\ k = n)
  \/ (10 ^ 21 <= n < 2 ^ 1024 /\ 1 <= k <= 9)
  \/ (- 2 ^ 1024 < n <= - 10 ^ 21 /\ -9 <= k <= -1).
Proof.
  unfold parseInt_num. cbv zeta.
  assert (H21 : 0 < 10 ^ 21) by reflexivity.
  destruct (Z.ltb_spec (Z.abs n) (10 ^ 21)) as [H | H].
  - intros [= <-]. now left.
  - destruct (Z.leb_spec (2 ^ 1024) (Z.abs n)) as [Hi | Hi];
      [discriminate|].
    intros [= <-].
    pose proof (exponentLead_range (Z.abs n) ltac:(lia)) as Hr.
    destruct (Z.abs_spec n) as [[Hn E] | [Hn E]]; rewrite E in *.
    + right. left. rewrite Z.sgn_pos by lia. lia.
    + right. right. rewrite Z.sgn_neg by lia. lia.
Qed.

(** The text of a Number has no digit to read exactly when the Number
    is an infinity. *)
Lemma parseInt_num_none (n : Z) :
  parseInt_num n = None <-> 2 ^ 1024 <= Z.abs n.
Proof.
  unfold parseInt_num. cbv zeta.
  assert (H : 10 ^ 21 < 2 ^ 1024) by reflexivity.
  destruct (Z.ltb_spec (Z.abs n) (10 ^ 21)).
  - split; [discriminate | lia].
  - destruct (Z.leb_spec (2 ^ 1024) (Z.abs n));
      [tauto | split; [discriminate | lia]].
Qed.

(** [parseInt] keeps a Number on its side of 1. *)
Lemma parseInt_num_below_1 (n k : Z) :
  parseInt_num n = Some k -> (k < 1 <-> n < 1).
Proof.
  intros H. assert (H21 : 0 < 10 ^ 21) by reflexivity.
  destruct (parseInt_num_some n k H) as [[_ ->] | [[Hn Hk] | [Hn Hk]]]; lia.
Qed.

End NumberFacts.

(** ** Search stage *)

Module SearchProps.

Import JS Spec StringFacts.

Lemma matchesTerm_Keeps (t : string) (r : Transaction) :
  SearchService.matchesTerm t r = true <-> Keeps t r.
Proof.
  unfold SearchService.matchesTerm, Keeps.
  now rewrite orb_true_iff, !includes_spec.
Qed.

Lemma normalizedTerm_nonempty (term : jsval) (t : string) :
  normalizedTerm term = Some t -> t <> "".
Proof.
  destruct term as [| | n | s]; cbn [normalizedTerm]; try discriminate.
  destruct (String.eqb (trim s) "") eqn:E; [discriminate|].
  intros [= <-] H. apply String.eqb_neq in E.
  exact (E (proj1 (toLowerCase_empty _) H)).
Qed.

Lemma searchTransactions_eq (data : list Transaction) (term : jsval) :
  SearchService.searchTransactions data term =
    match normalizedTerm term with
    | None => data
    | Some t => filter (SearchService.matchesTerm t) data
    end.
Proof.
  destruct term as [| | n | s];
    cbn [SearchService.searchTransactions normalizedTerm]; try reflexivity.
  unfold truthy_str. rewrite negb_involutive.
  destruct (String.eqb s "") eqn:Es.
  - apply String.eqb_eq in Es. subst s. reflexivity.
  - rewrite trim_lower.
    destruct (String.eqb (trim s) "") eqn:Et.
    + apply String.eqb_eq in Et. rewrite Et. reflexivity.
    + destruct (String.eqb (toLowerCase (trim s)) "") eqn:El;
        [|reflexivity].
      apply String.eqb_eq in El. apply String.eqb_neq in Et.
      destruct (Et (proj1 (toLowerCase_empty _) El)).
Qed.

Lemma missing_never_kept (t : string) (r : Transaction) :
  t <> "" -> customerName r = None -> phoneNumber r = None ->
  SearchService.matchesTerm t r = false.
Proof.
  intros Ht Hn Hp. unfold SearchService.matchesTerm.
  rewrite Hn, Hp. cbn [str_or_empty toLowerCase].
  now rewrite includes_empty.
Qed.

(** C7.  A term that is not a non-empty string after trimming (null,
    undefined, a number, empty or white space only) leaves the list
    unchanged.  Otherwise the search keeps, in their order, exactly
    the records whose lower-cased customerName or whose phoneNumber
    contains the lower-cased trimmed term as a substring; a missing
    customerName or phoneNumber is read as the empty string, so a
    record that has neither is never kept. *)
Theorem search_keeps_exactly_the_matching_records
  (data : list Transaction) (term : jsval) :
  match normalizedTerm term with
  | None => SearchService.searchTransactions data term = data
  | Some t =>
      SearchService.searchTransactions data term
      = filter (SearchService.matchesTerm t) data
      /\ (forall r, SearchService.matchesTerm t r = true <-> Keeps t r)
      /\ (forall r,
            In r (SearchService.searchTransactions data term)
            <-> In r data /\ Keeps t r)
      /\ (forall r, customerName r = None -> phoneNumber r = None ->
                    ~ In r (SearchService.searchTransactions data term))
  end.
Proof.
  rewrite searchTransactions_eq.
  destruct (normalizedTerm term) as [t|] eqn:E; [|reflexivity].
  pose proof (normalizedTerm_nonempty _ _ E) as Ht.
  split; [reflexivity|]. split; [apply matchesTerm_Keeps|]. split.
  - intros r. now rewrite filter_In, matchesTerm_Keeps.
  - intros r Hn Hp Hin. apply filter_In in Hin as [_ Hin].
    now rewrite (missing_never_kept t r Ht Hn Hp) in Hin.
Qed.

(** The identity cases of the search, and scenario 1, evaluated. *)
Example search_identity_cases :
  SearchService.searchTransactions Fixture.sampleTransactions (JStr "")
    = Fixture.sampleTransactions
  /\ SearchService.searchTransactions Fixture.sampleTransactions JNull
    = Fixture.sampleTransactions
  /\ SearchService.searchTransactions Fixture.sampleTransactions JUndefined
    = Fixture.sampleTransactions
  /\ SearchService.searchTransactions Fixture.sampleTransactions (JStr "   ")
    = Fixture.sampleTransactions
  /\ SearchService.searchTransactions Fixture.sampleTransactions (JNum 7)
    = Fixture.sampleTransactions
  /\ SearchService.searchTransactions Fixture.sampleTransactions
       (JStr " Alice ")
    = [Fixture.alice].
Proof. repeat split. Qed.

End SearchProps.

(** ** Lists *)

Module ListFacts.

Import Spec.

Lemma filter_all {A} (l : list A) : filter (fun _ => true) l = l.
Proof. induction l as [|x l IH]; simpl; congruence. Qed.

Lemma filter_filter {A} (p q : A -> bool) (l : list A) :
  filter p (filter q l) = filter (fun x => q x && p x) l.
Proof.
  induction l as [|x l IH]; simpl; [reflexivity|].
  destruct (q x); simpl; [destruct (p x)|]; congruence.
Qed.

Lemma Subsequence_refl {A} (l : list A) : Subsequence l l.
Proof. induction l; constructor; assumption. Qed.

Lemma filter_Subsequence {A} (p : A -> bool) (l : list A) :
  Subsequence (filter p l) l.
Proof.
  induction l as [|x l IH]; simpl; [constructor|].
  destruct (p x); constructor; assumption.
Qed.

Lemma arr_includes_In (arr : list string) (x : string) :
  JS.arr_includes arr x = true <-> In x arr.
Proof.
  unfold JS.arr_includes. rewrite existsb_exists. split.
  - intros [y [Hy E]]. apply String.eqb_eq in E. now subst.
  - intros H. exists x. split; [assumption | apply String.eqb_refl].
Qed.

Lemma nonEmpty_false {A} (l : list A) : nonEmpty l = false <-> l = [].
Proof. destruct l; simpl; split; congruence. Qed.

End ListFacts.

(** ** Filter stage *)

Module FilterProps.

Import Spec ListFacts.

(** A multi-select stage of [applyFilters], as one filter. *)
Lemma stage_multi (field : Transaction -> string) (values : list string)
  (data : list Transaction) :
  (if nonEmpty values
   then if negb (nonEmpty values) then data
        else filter (fun t => JS.arr_includes values (field t)) data
   else data)
  = filter (fun t => negb (nonEmpty values)
                     || JS.arr_includes values (field t)) data.
Proof.
  destruct (nonEmpty values); simpl; [reflexivity|].
  now rewrite filter_all.
Qed.

Lemma stage_tags (values : list string) (data : list Transaction) :
  (if nonEmpty values then FilterService.filterByTags data values else data)
  = filter (fun t => negb (nonEmpty values)
                     || FilterService.hasAnyTag values t) data.
Proof.
  unfold FilterService.filterByTags.
  destruct (nonEmpty values); simpl; [reflexivity|].
  now rewrite filter_all.
Qed.

Lemma stage_optional {R} (pred : R -> Transaction -> bool) (range : option R)
  (data : list Transaction) :
  match range with
  | Some rg => filter (pred rg) data
  | None => data
  end
  = filter (fun t => match range with
                     | Some rg => pred rg t
                     | None => true
                     end) data.
Proof. destruct range; [reflexivity | now rewrite filter_all]. Qed.

(** [applyFilters] keeps the records that pass every stage. *)
Lemma applyFilters_filter (data : list Transaction)
  (f : Filters.FilterCriteria) :
  FilterService.applyFilters data (Some f) = filter (passes f) data.
Proof.
  unfold FilterService.applyFilters, passes.
  unfold FilterService.filterByCustomerRegion, FilterService.filterByGender,
    FilterService.filterByProductCategory,
    FilterService.filterByPaymentMethod,
    FilterService.filterByAgeRange, FilterService.filterByDateRange.
  cbv zeta.
  rewrite (stage_multi customerRegion), (stage_multi gender).
  rewrite (stage_optional FilterService.ageInRange).
  rewrite (stage_multi productCategory), stage_tags.
  rewrite (stage_multi paymentMethod).
  rewrite (stage_optional FilterService.dateInRange).
  rewrite !filter_filter. apply filter_ext. intros t.
  now rewrite !andb_assoc.
Qed.

Lemma multi_InSet (values : list string) (v : string) :
  negb (nonEmpty values) || JS.arr_includes values v = true
  <-> InSet values v.
Proof.
  unfold InSet. rewrite orb_true_iff, negb_true_iff, nonEmpty_false,
    arr_includes_In.
  split.
  - intros [-> | H] Hne; [congruence | assumption].
  - intros H. destruct values as [|x l]; [now left|].
    right. apply H. discriminate.
Qed.

Lemma hasAnyTag_spec (values : list string) (r : Transaction) :
  FilterService.hasAnyTag values r = true
  <-> exists tag, In tag values /\ In tag (tagsOf r).
Proof.
  unfold FilterService.hasAnyTag, tagsOf. rewrite existsb_exists.
  split; intros [tag [H1 H2]]; exists tag; split; try assumption;
    now apply arr_includes_In.
Qed.

Lemma tags_TagsIntersect (values : list string) (r : Transaction) :
  negb (nonEmpty values) || FilterService.hasAnyTag values r = true
  <-> TagsIntersect values r.
Proof.
  unfold TagsIntersect.
  rewrite orb_true_iff, negb_true_iff, nonEmpty_false, hasAnyTag_spec.
  split.
  - intros [-> | H] Hne; [congruence | assumption].
  - intros H. destruct values as [|x l]; [now left|].
    right. apply H. discriminate.
Qed.

Lemma js_ge_spec (a : option Z) (b : Z) :
  js_ge a (Some b) = true <-> exists x, a = Some x /\ b <= x.
Proof.
  destruct a as [x|]; simpl.
  - rewrite Z.leb_le. split; [intros H; now exists x|].
    now intros [y [[= <-] H]].
  - split; [discriminate | now intros [y [H _]]].
Qed.

Lemma js_le_spec (a : option Z) (b : Z) :
  js_le a (Some b) = true <-> exists x, a = Some x /\ x <= b.
Proof.
  destruct a as [x|]; simpl.
  - rewrite Z.leb_le. split; [intros H; now exists x|].
    now intros [y [[= <-] H]].
  - split; [discriminate | now intros [y [H _]]].
Qed.

Lemma age_AgeWithin (range : option Filters.AgeRange) (r : Transaction) :
  match range with
  | Some rg => FilterService.ageInRange rg r
  | None => true
  end = true <-> AgeWithin range r.
Proof.
  unfold AgeWithin. destruct range as [[mn mx]|].
  - unfold FilterService.ageInRange. cbn [Filters.min Filters.max]. split.
    + intros H rg [= <-]. cbn [Filters.min Filters.max].
      destruct mn as [mn|], mx as [mx|];
        rewrite ?andb_true_iff, ?js_ge_spec, ?js_le_spec in H;
        split; intros k [= <-]; tauto.
    + intros H. destruct (H _ eq_refl) as [H1 H2].
      cbn [Filters.min Filters.max] in H1, H2.
      destruct mn as [mn|], mx as [mx|];
        rewrite ?andb_true_iff, ?js_ge_spec, ?js_le_spec; auto.
  - split; [intros _ rg; discriminate | reflexivity].
Qed.

Lemma date_ge_spec (d : Z) (s : dateStr) :
  js_ge (Some d) (getTime s) = true <-> exists t, getTime s = Some t /\ t <= d.
Proof.
  destruct s as [t|]; simpl.
  - rewrite Z.leb_le. split; [intros H; now exists t|].
    now intros [y [[= <-] H]].
  - split; [discriminate | now intros [y [H _]]].
Qed.

Lemma date_le_spec (d : Z) (e : dateStr) :
  js_le (Some d) (getTime e) = true <-> exists t, getTime e = Some t /\ d <= t.
Proof.
  destruct e as [t|]; simpl.
  - rewrite Z.leb_le. split; [intros H; now exists t|].
    now intros [y [[= <-] H]].
  - split; [discriminate | now intros [y [H _]]].
Qed.

Lemma date_DateWithin (range : option Filters.DateRange) (r : Transaction) :
  match range with
  | Some rg => FilterService.dateInRange rg r
  | None => true
  end = true <-> DateWithin range r.
Proof.
  unfold DateWithin. destruct range as [[s e]|].
  - unfold FilterService.dateInRange.
    cbn [Filters.start Filters.end_]. split.
    + intros H rg [= <-]. cbn [Filters.start Filters.end_].
      destruct s as [s|], e as [e|];
        rewrite ?andb_true_iff, ?date_ge_spec, ?date_le_spec in H;
        split; intros k [= <-]; tauto.
    + intros H. destruct (H _ eq_refl) as [H1 H2].
      cbn [Filters.start Filters.end_] in H1, H2.
      destruct s as [s|], e as [e|];
        rewrite ?andb_true_iff, ?date_ge_spec, ?date_le_spec; auto.
  - split; [intros _ rg; discriminate | reflexivity].
Qed.

Lemma passes_Satisfies (f : Filters.FilterCriteria) (r : Transaction) :
  passes f r = true <-> Satisfies f r.
Proof.
  unfold passes, Satisfies.
  rewrite !andb_true_iff, !multi_InSet, tags_TagsIntersect,
    age_AgeWithin, date_DateWithin.
  tauto.
Qed.

(** C8.  The result of the filter stage is a subsequence of its input,
    and a record is in it exactly when it is in the input and satisfies
    every present constraint of the criteria: membership in the set of
    each multi-select field, a tag in common with the tag set, and the
    inclusive bounds of ageRange and dateRange, all of them together.
    Criteria that are not an object leave the list unchanged. *)
Theorem filter_closure (R : list Transaction)
  (f : option Filters.FilterCriteria) :
  Subsequence (FilterService.applyFilters R f) R
  /\ match f with
     | Some criteria =>
         forall r, In r (FilterService.applyFilters R f)
                   <-> In r R /\ Satisfies criteria r
     | None => FilterService.applyFilters R f = R
     end.
Proof.
  destruct f as [criteria|].
  - rewrite applyFilters_filter. split; [apply filter_Subsequence|].
    intros r. now rewrite filter_In, passes_Satisfies.
  - split; [apply Subsequence_refl | reflexivity].
Qed.

End FilterProps.

(** ** Pagination stage *)

Module PaginationProps.

Import JS Spec.

Lemma validatePage_normal (page : jsval) :
  PaginationService.validatePage (PaginationService.orDefault 1 page)
  = normalPage page.
Proof.
  assert (G : forall v, PaginationService.validatePage v = normalPage v).
  { intros v. unfold PaginationService.validatePage, normalPage.
    destruct (parseInt v) as [k|]; [|reflexivity].
    destruct (Z.ltb_spec k 1), (Z.leb_spec 1 k); lia. }
  destruct page; try apply G. reflexivity.
Qed.

Lemma validatePageSize_normal (pageSize : jsval) :
  PaginationService.validatePageSize (PaginationService.orDefault 10 pageSize)
  = normalPageSize pageSize.
Proof.
  assert (G : forall v,
             PaginationService.validatePageSize v = normalPageSize v).
  { intros v. unfold PaginationService.validatePageSize, normalPageSize,
      PaginationService.MAX_PAGE_SIZE.
    destruct (parseInt v) as [k|]; [|reflexivity].
    destruct (Z.ltb_spec k 1), (Z.leb_spec 1 k); lia. }
  destruct pageSize; try apply G. reflexivity.
Qed.

Lemma normalPage_pos (page : jsval) : 1 <= normalPage page.
Proof.
  unfold normalPage. destruct (parseInt page) as [n|]; [|lia].
  destruct (Z.leb_spec 1 n); lia.
Qed.

Lemma normalPageSize_range (pageSize : jsval) :
  1 <= normalPageSize pageSize <= 100.
Proof.
  unfold normalPageSize. destruct (parseInt pageSize) as [n|]; [|lia].
  destruct (Z.leb_spec 1 n); lia.
Qed.

(** [Math.ceil(n / d)] is the least number of pages of [d] items that
    hold [n] items. *)
Lemma ceil_div_spec (n d : Z) :
  0 <= n -> 0 < d ->
  let q := ceil_div n d in
  0 <= q /\ n <= q * d /\ (q - 1) * d < n + (if n =? 0 then 1 else 0)
  /\ (n = 0 <-> q = 0).
Proof.
  intros Hn Hd q. subst q. unfold ceil_div.
  pose proof (Z.mul_div_le (n + d - 1) d Hd) as H1.
  pose proof (Z.mul_succ_div_gt (n + d - 1) d Hd) as H2.
  assert (0 <= (n + d - 1) / d) by (apply Z.div_pos; lia).
  destruct (Z.eqb_spec n 0) as [->|Hn0].
  - replace (0 + d - 1) with (d - 1) in * by lia.
    rewrite Z.div_small by lia. lia.
  - repeat split; nia.
Qed.

Lemma slice_nonempty {A} (l : list A) (start end_ : Z) :
  0 <= start -> start < Z.of_nat (List.length l) -> start < end_ ->
  slice l start end_ <> [].
Proof.
  intros H0 H1 H2. unfold slice.
  assert (Hs : (Z.to_nat start < List.length l)%nat) by lia.
  destruct (skipn (Z.to_nat start) l) as [|x l'] eqn:E.
  - apply (f_equal (@List.length A)) in E. rewrite length_skipn in E.
    simpl in E. lia.
  - destruct (Z.to_nat (end_ - start)) eqn:E2; [lia|]. simpl. discriminate.
Qed.

(** X27.  For every array and every page and page size, [paginate]
    takes the page and the page size as [parseInt] reads them: a page
    with nothing to read or read below 1 is 1, a page size with nothing
    to read or read below 1 is 10, the page size is capped at 100, and
    the page read is clamped into [[1, max(totalPages, 1)]]; the
    items are the slice of that page, and it is not empty when the
    array is not.  In particular a page read as 999 of a three-page
    result is page 3, the last one, with its items. *)
Theorem paginate_normalizes_and_clamps (data : list Transaction)
  (page pageSize : jsval) :
  let r := PaginationService.paginate data page pageSize in
  let pg := Paging.pagination r in
  let ps := Paging.pageSize pg in
  let tp := Paging.totalPages pg in
  let cp := Paging.currentPage pg in
  ps = normalPageSize pageSize
  /\ 1 <= ps <= 100
  /\ tp = ceil_div (Z.of_nat (List.length data)) ps
  /\ cp = clamp 1 (Z.max tp 1) (normalPage page)
  /\ 1 <= cp <= Z.max tp 1
  /\ Paging.items r = slice data ((cp - 1) * ps) ((cp - 1) * ps + ps)
  /\ (data <> [] -> Paging.items r <> [])
  /\ (tp = 3 -> parseInt page = Some 999 ->
      cp = 3 /\ Paging.items r = slice data (2 * ps) (2 * ps + ps)
      /\ Paging.items r <> []).
Proof.
  intros r pg ps tp cp.
  assert (Eps : ps = normalPageSize pageSize)
    by apply validatePageSize_normal.
  pose proof (normalPageSize_range pageSize) as Hps. rewrite <- Eps in Hps.
  pose proof (normalPage_pos page) as Hp.
  set (n := Z.of_nat (List.length data)).
  assert (Hn : 0 <= n) by (subst n; lia).
  destruct (ceil_div_spec n ps Hn ltac:(lia)) as (Hq0 & Hq1 & Hq2 & Hq3).
  assert (Etp : tp = ceil_div n ps).
  { subst tp pg r. cbn [PaginationService.paginate Paging.pagination
      Paging.totalPages]. unfold PaginationService.or_num.
    fold n. change (PaginationService.validatePageSize
                      (PaginationService.orDefault 10 pageSize)) with ps.
    destruct (Z.eqb_spec (ceil_div n ps) 0); lia. }
  assert (Ecp : cp = Z.max 1 (Z.min (normalPage page) (Z.max tp 1))).
  { subst cp pg r. cbn [PaginationService.paginate Paging.pagination
      Paging.currentPage]. rewrite validatePage_normal.
    fold n. change (PaginationService.validatePageSize
                      (PaginationService.orDefault 10 pageSize)) with ps.
    rewrite <- Etp. unfold PaginationService.or_num.
    destruct (Z.eqb_spec tp 0); lia. }
  assert (Eit : Paging.items r
                = slice data ((cp - 1) * ps) ((cp - 1) * ps + ps))
    by reflexivity.
  assert (Hne : data <> [] -> Paging.items r <> []).
  { intros Hd. rewrite Eit. apply slice_nonempty; try nia.
    fold n. assert (0 < n) by (subst n; destruct data; simpl; [congruence|lia]).
    destruct (Z.eqb_spec n 0); [lia|].
    assert (1 <= tp) by lia. rewrite <- Etp in Hq2. nia. }
  assert (Hrange : 1 <= cp <= Z.max tp 1) by lia.
  split; [exact Eps|]. split; [exact Hps|]. split; [exact Etp|].
  split.
  { rewrite Ecp. unfold clamp.
    destruct (Z.ltb_spec (normalPage page) 1);
      destruct (Z.ltb_spec (Z.max tp 1) (normalPage page)); lia. }
  split; [exact Hrange|]. split; [exact Eit|]. split; [exact Hne|].
  intros Htp Hpage.
  assert (Ecp3 : cp = 3).
  { unfold normalPage in Ecp. rewrite Hpage in Ecp.
    change (if 1 <=? 999 then 999 else 1) with 999 in Ecp. lia. }
  split; [exact Ecp3|]. split.
  - rewrite Eit, Ecp3. reflexivity.
  - apply Hne. intros Hd.
    assert (Hz : tp = 0).
    { rewrite Etp. apply Hq3. subst n. rewrite Hd. reflexivity. }
    lia.
Qed.

(** Scenarios 3 to 5 of the specification, evaluated. *)
Example paginate_scenarios :
  let names r :=
    map (fun t => str_or_empty (customerName t)) (Paging.items r) in
  let p999 :=
    PaginationService.paginate Fixture.sampleTransactions (JNum 999) (JNum 2) in
  let p1 :=
    PaginationService.paginate Fixture.sampleTransactions (JStr "abc")
      (JStr "0") in
  Paging.currentPage (Paging.pagination p999) = 3
  /\ Paging.totalPages (Paging.pagination p999) = 3
  /\ names p999 = ["Dave Brown"]
  /\ Paging.currentPage (Paging.pagination p1) = 1
  /\ Paging.pageSize (Paging.pagination p1) = 10
  /\ Paging.totalPages (Paging.pagination p1) = 1
  /\ Paging.hasNextPage (Paging.pagination p1) = false
  /\ List.length (Paging.items p1) = 5%nat
  /\ Paging.pageSize
       (Paging.pagination
          (PaginationService.paginate Fixture.sampleTransactions
             JUndefined (JStr "250"))) = 100.
Proof. repeat split. Qed.

(** C3.  [paginate] passes its page and page size, Numbers included,
    to [parseInt], which reads the text of its argument.  The text of
    the Number 10^21 is in exponent form, 1e+21, of which [parseInt]
    reads 1: asked for page 10^21 of the five sample records in pages
    of two, [paginate] returns page 1 with the first two records,
    where clamping the requested page into [[1, 3]] gives page 3, the
    page it returns for a request of page 999.  Asked for pages of
    10^21 records it makes pages of one record, not of 100.  The
    controller hands the service the Number 10^21 for the page of the
    query string 1000000000000000000000. *)
Theorem paginate_reads_a_large_number_by_its_first_digit :
  parseInt (JNum (10 ^ 21)) = Some 1
  /\ Paging.currentPage
       (Paging.pagination
          (PaginationService.paginate Fixture.sampleTransactions
             (JNum (10 ^ 21)) (JNum 2))) = 1
  /\ order
       (Paging.items
          (PaginationService.paginate Fixture.sampleTransactions
             (JNum (10 ^ 21)) (JNum 2))) = ["T1"; "T2"]
  /\ Paging.totalPages
       (Paging.pagination
          (PaginationService.paginate Fixture.sampleTransactions
             (JNum (10 ^ 21)) (JNum 2))) = 3
  /\ clamp 1 3 (10 ^ 21) = 3
  /\ Paging.currentPage
       (Paging.pagination
          (PaginationService.paginate Fixture.sampleTransactions
             (JNum 999) (JNum 2))) = 3
  /\ order
       (Paging.items
          (PaginationService.paginate Fixture.sampleTransactions
             (JNum 999) (JNum 2))) = ["T5"]
  /\ Paging.pageSize
       (Paging.pagination
          (PaginationService.paginate Fixture.sampleTransactions
             (JNum 1) (JNum (10 ^ 21)))) = 1
  /\ Z.min (10 ^ 21) 100 = 100
  /\ TransactionController.numericParam (JStr "1000000000000000000000")
     = Some (JNum (10 ^ 21)).
Proof. repeat split. Qed.

End PaginationProps.

(** ** Aggregate stage *)

Module AggregateProps.

Import Spec.

Lemma reduce_sum_cons (f : Transaction -> Z) (t : Transaction)
  (data : list Transaction) :
  TransactionService.reduce_sum f (t :: data)
  = f t + TransactionService.reduce_sum f data.
Proof.
  unfold TransactionService.reduce_sum. simpl.
  assert (G : forall l a,
             fold_left (fun sum t => sum + f t) l a
             = a + fold_left (fun sum t => sum + f t) l 0).
  { induction l as [|x l IH]; intros a; simpl; [lia|].
    rewrite (IH (a + f x)), (IH (f x)). lia. }
  rewrite G. lia.
Qed.

Lemma sumField_cons (f : Transaction -> option Z) (t : Transaction)
  (docs : list Transaction) :
  TransactionServiceMongo.sumField f (t :: docs)
  = match f t with Some n => n | None => 0 end
    + TransactionServiceMongo.sumField f docs.
Proof.
  unfold TransactionServiceMongo.sumField. simpl.
  set (g := fun sum doc => sum + match f doc with
                                 | Some n => n
                                 | None => 0
                                 end).
  assert (G : forall l a, fold_left g l a = a + fold_left g l 0).
  { induction l as [|x l IH]; intros a; cbn [fold_left]; [lia|].
    rewrite (IH (g a x)), (IH (g 0 x)). unfold g. lia. }
  change (fold_left g docs (g 0 t) = g 0 t + fold_left g docs 0).
  apply G.
Qed.

(** In the array backend a record without [finalAmount] adds its whole
    [totalAmount] to the discount. *)
Lemma discountOf_missing_finalAmount (t : Transaction) :
  finalAmount t = None ->
  TransactionService.discountOf t = JS.num_or (totalAmount t) 0.
Proof.
  intros H. unfold TransactionService.discountOf. rewrite H. simpl. lia.
Qed.

(** In the indexed backend a record without [finalAmount] adds nothing
    to the discount. *)
Lemma subtractAmounts_missing_finalAmount (doc : Transaction) :
  finalAmount doc = None ->
  TransactionServiceMongo.subtractAmounts doc = None.
Proof.
  intros H. unfold TransactionServiceMongo.subtractAmounts. rewrite H.
  now destruct (totalAmount doc).
Qed.

(** C2, the array backend at a set whose only record lacks
    [finalAmount]: [calculateAggregateStats] reports its [totalAmount],
    100, as the discount, where the specification asks for 0; the
    aggregation of the indexed backend reports 0 on the same set. *)
Theorem missing_finalAmount_counts_as_discount :
  Stats.totalDiscount
    (TransactionService.calculateAggregateStats [Fixture.withoutFinalAmount])
  = 100
  /\ Stats.totalDiscount
       (TransactionServiceMongo.getAggregateStats Fixture.engine
          [Fixture.withoutFinalAmount]
          (TransactionServiceMongo.QFilter
             (TransactionServiceMongo.buildFilterQuery Filters.empty)))
     = 0.
Proof. split; reflexivity. Qed.

End AggregateProps.

(** ** Filter options *)

Module FilterOptionsProps.

Import Spec.

(** The array backend computes the options without looking at the
    filters of the request. *)
Lemma getFilterOptions_ignores_filters (cache : DataLoader.Cache)
  (p : Params.QueryParams) (f : option Filters.FilterCriteria) :
  TransactionService.getFilterOptions cache
    {| Params.search := Params.search p; Params.filters := f;
       Params.sortBy := Params.sortBy p;
       Params.sortOrder := Params.sortOrder p;
       Params.page := Params.page p; Params.pageSize := Params.pageSize p |}
  = TransactionService.getFilterOptions cache p.
Proof. reflexivity. Qed.

(** C4, the array backend at the five sample records with the filter
    customerRegion = North: [getFilterOptions] lists every region of
    the data set, as it does with no filter at all, where the
    specification asks for the regions of the filtered subset; the
    indexed backend lists North alone. *)
Theorem getFilterOptions_skips_the_filter_stage :
  let p :=
    {| Params.search := JS.JUndefined;
       Params.filters := Some Fixture.northOnly;
       Params.sortBy := None; Params.sortOrder := None;
       Params.page := JS.JUndefined; Params.pageSize := JS.JUndefined |} in
  TransactionService.getFilterOptions
    (Fixture.loaded Fixture.sampleTransactions) p
  = Returned
      (FilterService.getFilterOptions Fixture.sampleTransactions)
  /\ FilterService.regions
       (FilterService.getFilterOptions Fixture.sampleTransactions)
     = ["East"; "North"; "South"; "West"]
  /\ FilterService.regions
       (FilterService.getFilterOptions
          (FilterService.applyFilters Fixture.sampleTransactions
             (Some Fixture.northOnly)))
     = ["North"]
  /\ option_map TransactionServiceMongo.Options.customerRegion
       (TransactionServiceMongo.getFilterOptions Fixture.engine
          Fixture.sampleTransactions p)
     = Some ["North"].
Proof. repeat split. Qed.

End FilterOptionsProps.

(** ** Request validation *)

Module ValidationProps.

Import Spec.
Import ValidationMiddleware.

Lemma isValid_pagination (page pageSize : JS.jsval) :
  Validators.isValid (Validators.validatePagination page pageSize)
  = negb (nonEmpty
            (Validators.errors (Validators.validatePagination page pageSize))).
Proof. reflexivity. Qed.

Lemma isValid_sort (sortBy sortOrder : option string) :
  Validators.isValid (Validators.validateSort sortBy sortOrder)
  = negb (nonEmpty
            (Validators.errors (Validators.validateSort sortBy sortOrder))).
Proof. reflexivity. Qed.

Lemma isValid_filters (f : Filters.FilterCriteria) :
  Validators.isValid (Validators.validateFilters f)
  = negb (nonEmpty (Validators.errors (Validators.validateFilters f))).
Proof. reflexivity. Qed.

(** C5 as stated fails: for a page size of 101 together with the sort
    field price, the middleware reports the page size alone; the
    violation of the sort field, which the validators do find, is not
    reported. *)
Lemma validation_reports_first_category_only :
  allViolations Fixture.twoViolations
  = ["Page size must be between 1 and 100";
     "Invalid sortBy field. Must be one of: date, quantity, customerName"]
  /\ reported (validateTransactionQuery Fixture.twoViolations)
     = ["Page size must be between 1 and 100"]
  /\ ~ (forall q, reported (validateTransactionQuery q) = allViolations q).
Proof.
  split; [reflexivity|]. split; [reflexivity|].
  intros H. specialize (H Fixture.twoViolations). discriminate H.
Qed.

(** C5, amended.  The middleware lets a request through exactly when
    no validator finds a violation and the filters, if any, are valid
    JSON; otherwise it rejects it before the pipeline runs.  It checks
    pagination, then sort, then filters, stops at the first category
    that has a violation, and reports every violation of that category
    and none of a later one. *)
Theorem validation_fails_fast_per_category (q : Query) :
  let pErrors :=
    Validators.errors (Validators.validatePagination (page q) (pageSize q)) in
  let sErrors :=
    Validators.errors (Validators.validateSort (sortBy q) (sortOrder q)) in
  (validateTransactionQuery q = NextOk
   <-> allViolations q = [] /\ filters q <> FiltersBadJson)
  /\ match validateTransactionQuery q with
     | NextOk => True
     | NextError e =>
         (pErrors <> [] /\ errors e = pErrors
          /\ message e = "Invalid pagination parameters")
         \/ (pErrors = [] /\ sErrors <> [] /\ errors e = sErrors
             /\ message e = "Invalid sort parameters")
         \/ (pErrors = [] /\ sErrors = []
             /\ match filters q with
                | FiltersAbsent => False
                | FiltersBadJson =>
                    errors e = []
                    /\ message e = "Invalid filter format. Must be valid JSON"
                | FiltersParsed f =>
                    let fErrors :=
                      Validators.errors (Validators.validateFilters f) in
                    fErrors <> [] /\ errors e = fErrors
                    /\ message e = "Invalid filter parameters"
                end)
     end.
Proof.
  intros pErrors sErrors.
  unfold validateTransactionQuery, allViolations.
  rewrite isValid_pagination, isValid_sort, !negb_involutive.
  fold pErrors sErrors.
  destruct pErrors as [|pe pErrors'] eqn:Ep; cbn [nonEmpty].
  2:{ split.
      - split; [discriminate | intros [H _]; discriminate H].
      - left. repeat split. discriminate. }
  destruct sErrors as [|se sErrors'] eqn:Es; cbn [nonEmpty].
  2:{ split.
      - split; [discriminate | intros [H _]; discriminate H].
      - right; left. repeat split. discriminate. }
  destruct (filters q) as [| | f] eqn:Ef.
  - split; [|exact I]. split; [intros _; split; [reflexivity|discriminate]
                              | reflexivity].
  - split.
    + split; [discriminate | intros [_ H]; now destruct H].
    + right; right. repeat split.
  - rewrite isValid_filters, negb_involutive.
    destruct (Validators.errors (Validators.validateFilters f))
      as [|fe fErrors'] eqn:Efe; cbn [nonEmpty].
    + split; [|exact I].
      split; [intros _; split; [reflexivity|discriminate] | reflexivity].
    + split.
      * split; [discriminate | intros [H _]; discriminate H].
      * right; right. repeat split. discriminate.
Qed.

End ValidationProps.

(** ** Loading and date order *)

Module LoaderProps.

Import Spec.

(** A date that parses is kept whatever the clock reads. *)
Lemma parseDate_parsable (now : Z) (t : Z) :
  DataLoader.parseDate now (Some (ValidDate t)) = t.
Proof. reflexivity. Qed.

(** A date that is missing or does not parse becomes the reading of the
    clock. *)
Lemma parseDate_unparsable (now : Z) (value : option dateStr) :
  value = None \/ value = Some InvalidDate ->
  DataLoader.parseDate now value = now.
Proof. intros [-> | ->]; reflexivity. Qed.





End LoaderProps.

(** ** Array.prototype.sort *)

Module SortFacts.

Import Spec.

Section Sort.

Context {A : Type} (cmp : A -> A -> Z).

Lemma sort_insert_perm (x : A) (l : list A) :
  Permutation (x :: l) (JS.sort_insert cmp x l).
Proof.
  induction l as [|y l IH]; simpl; [reflexivity|].
  destruct (cmp x y >? 0); [|reflexivity].
  rewrite perm_swap. now apply perm_skip.
Qed.

Lemma sort_perm (l : list A) : Permutation l (JS.sort cmp l).
Proof.
  induction l as [|x l IH]; simpl; [reflexivity|].
  rewrite <- sort_insert_perm. now apply perm_skip.
Qed.

(** Insertion never moves an element past one that the comparator does
    not put before it. *)
Lemma filter_sort_insert (P : A -> bool) (x : A) (l : list A) :
  (forall y, P x = true -> P y = true -> (cmp x y >? 0) = false) ->
  filter P (JS.sort_insert cmp x l) = filter P (x :: l).
Proof.
  intros Hc. induction l as [|y l IH]; [reflexivity|].
  cbn [JS.sort_insert]. destruct (cmp x y >? 0) eqn:E; [|reflexivity].
  cbn [filter] in *. rewrite IH.
  destruct (P x) eqn:Px, (P y) eqn:Py; try reflexivity.
  rewrite (Hc y eq_refl Py) in E. discriminate.
Qed.

(** Stability: the elements that share a key keep their order. *)
Lemma filter_sort (P : A -> bool) (l : list A) :
  (forall x y, P x = true -> P y = true -> (cmp x y >? 0) = false) ->
  filter P (JS.sort cmp l) = filter P l.
Proof.
  intros Hc. induction l as [|x l IH]; [reflexivity|].
  cbn [JS.sort]. rewrite filter_sort_insert by (intros y; apply Hc).
  cbn [filter]. now rewrite IH.
Qed.

(** Order: with a comparator that decides a total preorder, the result
    is sorted. *)
Variable le : A -> A -> Prop.
Hypothesis le_trans : forall x y z, le x y -> le y z -> le x z.
Hypothesis cmp_gt : forall x y, (cmp x y >? 0) = true -> le y x.
Hypothesis cmp_le : forall x y, (cmp x y >? 0) = false -> le x y.

Lemma sort_insert_sorted (x : A) (l : list A) :
  StronglySorted le l -> StronglySorted le (JS.sort_insert cmp x l).
Proof.
  induction 1 as [|y l Hs IH Hy]; simpl.
  - constructor; constructor.
  - destruct (cmp x y >? 0) eqn:E.
    + constructor; [assumption|].
      apply (Permutation_Forall (sort_insert_perm x l)).
      constructor; [now apply cmp_gt | assumption].
    + constructor; [now constructor|].
      constructor; [now apply cmp_le|].
      eapply Forall_impl; [|exact Hy]. intros z Hz.
      eapply le_trans; [apply cmp_le; eassumption | assumption].
Qed.

Lemma sort_sorted (l : list A) : StronglySorted le (JS.sort cmp l).
Proof.
  induction l as [|x l IH]; simpl; [constructor|].
  now apply sort_insert_sorted.
Qed.

End Sort.



Lemma sameKey_eq (a b : SortKey) : sameKey a b = true -> a = b.
Proof.
  destruct a, b; simpl; try discriminate; try reflexivity.
  - intros H. apply Z.eqb_eq in H. now subst.
  - intros H. apply String.eqb_eq in H. now subst.
Qed.

Lemma compareStrings_refl (s : string) : FilterService.compareStrings s s = 0.
Proof.
  unfold FilterService.compareStrings.
  assert (H : String.compare s s = Eq).
  { induction s as [|c s IH]; simpl; [reflexivity|].
    unfold Ascii.compare. now rewrite N.compare_refl. }
  now rewrite H.
Qed.

End SortFacts.

(** ** Sort stage *)

Module SortProps.

Import Spec SortFacts.

Lemma sortKey_date (r : Transaction) : sortKey "date" r = KNum (date r).
Proof. reflexivity. Qed.

Lemma sortKey_quantity (r : Transaction) :
  sortKey "quantity" r = KNum (JS.num_or (quantity r) 0).
Proof. reflexivity. Qed.

Lemma sortKey_customerName (r : Transaction) :
  sortKey "customerName" r
  = KStr (JS.toLowerCase (JS.str_or_empty (customerName r))).
Proof. reflexivity. Qed.

(** Records with the same key compare as equal under the comparator of
    each supported field, in either direction. *)
Lemma compareByDate_tie (sortOrder : string) (a b : Transaction) :
  sortKey "date" a = sortKey "date" b ->
  SortService.compareByDate sortOrder a b = 0.
Proof.
  rewrite !sortKey_date. intros [= E]. unfold SortService.compareByDate.
  destruct (String.eqb sortOrder "asc"); lia.
Qed.

Lemma compareByQuantity_tie (sortOrder : string) (a b : Transaction) :
  sortKey "quantity" a = sortKey "quantity" b ->
  SortService.compareByQuantity sortOrder a b = 0.
Proof.
  rewrite !sortKey_quantity. intros [= E].
  unfold SortService.compareByQuantity.
  destruct (String.eqb sortOrder "asc"); lia.
Qed.

Lemma compareByCustomerName_tie (localeCompare : string -> string -> Z)
  (sortOrder : string) (a b : Transaction) :
  (forall s, localeCompare s s = 0) ->
  sortKey "customerName" a = sortKey "customerName" b ->
  SortService.compareByCustomerName localeCompare sortOrder a b = 0.
Proof.
  intros Hrefl. rewrite !sortKey_customerName. intros [= E].
  unfold SortService.compareByCustomerName. rewrite E, Hrefl.
  now destruct (String.eqb sortOrder "asc").
Qed.

Lemma stable_under (cmp : Transaction -> Transaction -> Z) (sortBy : string)
  (k : SortKey) (data : list Transaction) :
  (forall a b, sortKey sortBy a = sortKey sortBy b -> cmp a b = 0) ->
  withKey sortBy k (JS.sort cmp data) = withKey sortBy k data.
Proof.
  intros Htie. unfold withKey. apply filter_sort. intros x y Hx Hy.
  apply sameKey_eq in Hx, Hy. rewrite (Htie x y) by congruence. reflexivity.
Qed.

(** The sort stage rearranges its input and drops or adds nothing. *)
Lemma sortTransactions_perm (localeCompare : string -> string -> Z)
  (data : list Transaction) (sortBy sortOrder : option string) :
  Permutation data
    (SortService.sortTransactions localeCompare data sortBy sortOrder).
Proof.
  unfold SortService.sortTransactions.
  repeat match goal with
         | |- context [if ?b then _ else _] => destruct b
         end;
    try reflexivity; apply sort_perm.
Qed.

(** C9.  The sort stage is stable for every sort field and order: the
    output is a rearrangement of the input in which, for each key, the
    records that have this key (the same time value of the date, the
    same quantity, or the same lower-cased name) stand in the order
    they have in the input.  [localeCompare] is any comparison that
    finds a string equal to itself. *)
Theorem sort_is_stable (localeCompare : string -> string -> Z)
  (data : list Transaction) (sortBy sortOrder : option string)
  (k : SortKey) :
  (forall s, localeCompare s s = 0) ->
  let field := SortService.orDefault "date" sortBy in
  let sorted :=
    SortService.sortTransactions localeCompare data sortBy sortOrder in
  Permutation data sorted
  /\ withKey field k sorted = withKey field k data.
Proof.
  intros Hrefl field sorted. split; [apply sortTransactions_perm|].
  subst sorted. unfold SortService.sortTransactions. fold field.
  destruct (nonEmpty data); [|reflexivity]. cbn [negb].
  destruct (JS.arr_includes SortService.validSortFields field);
    [|reflexivity].
  cbn [negb].
  destruct (String.eqb field "date") eqn:Ed.
  { apply String.eqb_eq in Ed. rewrite Ed. apply stable_under.
    intros a b. apply compareByDate_tie. }
  destruct (String.eqb field "quantity") eqn:Eq.
  { apply String.eqb_eq in Eq. rewrite Eq. apply stable_under.
    intros a b. apply compareByQuantity_tie. }
  destruct (String.eqb field "customerName") eqn:En; [|reflexivity].
  apply String.eqb_eq in En. rewrite En. apply stable_under.
  intros a b. now apply compareByCustomerName_tie.
Qed.

Lemma sort_is_stable_witness :
  (forall s, Fixture.codeUnitCompare s s = 0)
  /\ withKey "quantity" (KNum 3)
       (SortService.sortTransactions Fixture.codeUnitCompare Fixture.tied
          (Some "quantity") (Some "desc"))
     = withKey "quantity" (KNum 3) Fixture.tied.
Proof.
  split; [exact compareStrings_refl|].
  exact (proj2 (sort_is_stable Fixture.codeUnitCompare Fixture.tied
                  (Some "quantity") (Some "desc") (KNum 3)
                  compareStrings_refl)).
Defined.

(** The two records of the sample that tie on quantity 3 keep their
    order, A before C, in both directions. *)
Example stable_on_ties :
  Spec.order (SortService.sortTransactions Fixture.codeUnitCompare
                Fixture.tied (Some "quantity") (Some "desc"))
  = ["A"; "C"; "B"; "D"]
  /\ Spec.order (SortService.sortTransactions Fixture.codeUnitCompare
                   Fixture.tied (Some "quantity") (Some "asc"))
     = ["D"; "B"; "A"; "C"].
Proof. split; reflexivity. Qed.

End SortProps.

(** ** The sort stage and the identity of arrays *)

Module StoreProps.

Import Spec SortFacts.
Import Store.

Lemma read_allocated (h : store) (r : ref) :
  read h r <> [] -> (r < List.length h)%nat.
Proof.
  intros H. destruct (Nat.lt_ge_cases r (List.length h)) as [|Hge];
    [assumption|].
  unfold read in H. now rewrite nth_overflow in H.
Qed.

Lemma read_alloc_old (h : store) (arr : list Transaction) (r : ref) :
  (r < List.length h)%nat -> read (fst (alloc h arr)) r = read h r.
Proof. intros H. unfold read, alloc. simpl. now apply app_nth1. Qed.

Lemma read_alloc_new (h : store) (arr : list Transaction) :
  read (fst (alloc h arr)) (snd (alloc h arr)) = arr.
Proof.
  unfold read, alloc. simpl. rewrite app_nth2 by lia.
  now rewrite Nat.sub_diag.
Qed.

Lemma read_write_same (h : store) (r : ref) (arr : list Transaction) :
  (r < List.length h)%nat -> read (write h r arr) r = arr.
Proof.
  revert r. induction h as [|a h IH]; intros r H; simpl in H; [lia|].
  destruct r as [|r]; [reflexivity|]. simpl. apply IH. lia.
Qed.

Lemma read_write_other (h : store) (r r' : ref) (arr : list Transaction) :
  r <> r' -> read (write h r arr) r' = read h r'.
Proof.
  revert r r'. induction h as [|a h IH]; intros r r' H; [reflexivity|].
  destruct r as [|r], r' as [|r']; try reflexivity; [congruence|].
  simpl. apply IH. congruence.
Qed.

(** Sorting a fresh copy at the end of the store. *)
Lemma sort_copy (cmp : Transaction -> Transaction -> Z) (h : store)
  (data : ref) :
  let h1 := fst (alloc h (read h data)) in
  let sorted := snd (alloc h (read h data)) in
  let result := sort_in_place cmp h1 sorted in
  snd result = List.length h
  /\ read (fst result) (snd result) = JS.sort cmp (read h data)
  /\ (forall r, (r < List.length h)%nat -> read (fst result) r = read h r).
Proof.
  intros h1 sorted result. subst result. unfold sort_in_place.
  cbn [fst snd]. split; [reflexivity|]. split.
  - rewrite read_write_same.
    + subst h1 sorted. now rewrite read_alloc_new.
    + subst h1 sorted. simpl. rewrite length_app. simpl. lia.
  - intros r Hr. rewrite read_write_other.
    + subst h1. now apply read_alloc_old.
    + subst sorted. simpl. lia.
Qed.

(** C10 as stated fails: with a sort field that is not supported,
    [sortTransactions] returns the array it was given, not a new
    one. *)
Lemma unsupported_field_returns_the_input_array :
  snd (SortServiceRef.sortTransactions Fixture.codeUnitCompare
         Fixture.sampleStore 0%nat (Some "price") (Some "asc"))
  = 0%nat
  /\ read Fixture.sampleStore 0%nat <> []
  /\ ~ (forall localeCompare h data sortBy sortOrder,
          read h data <> [] ->
          snd (SortServiceRef.sortTransactions localeCompare h data
                 sortBy sortOrder) <> data).
Proof.
  split; [reflexivity|]. split; [discriminate|].
  intros H.
  apply (H Fixture.codeUnitCompare Fixture.sampleStore 0%nat
           (Some "price") (Some "asc")); [discriminate | reflexivity].
Qed.

(** C10, amended.  For every non-empty array and every sort field and
    order, [sortTransactions] leaves the input array, and every other
    array of the store, as it was.  When the field is one of date,
    quantity and customerName the result is a new array, which holds
    the sorted records; otherwise the result is the input array
    itself. *)
Theorem sortTransactions_leaves_its_input
  (localeCompare : string -> string -> Z) (h : store) (data : ref)
  (sortBy sortOrder : option string) :
  read h data <> [] ->
  let field := SortService.orDefault "date" sortBy in
  let result :=
    SortServiceRef.sortTransactions localeCompare h data sortBy sortOrder in
  read (fst result) data = read h data
  /\ (forall r, (r < List.length h)%nat -> read (fst result) r = read h r)
  /\ read (fst result) (snd result)
     = SortService.sortTransactions localeCompare (read h data)
         sortBy sortOrder
  /\ (if JS.arr_includes SortService.validSortFields field
      then snd result = List.length h /\ snd result <> data
      else snd result = data /\ fst result = h).
Proof.
  intros Hne field result.
  pose proof (read_allocated h data Hne) as Hlt.
  assert (Hn : nonEmpty (read h data) = true)
    by (destruct (read h data); [congruence | reflexivity]).
  subst result.
  unfold SortServiceRef.sortTransactions, SortService.sortTransactions.
  fold field. rewrite Hn. cbn [negb].
  destruct (JS.arr_includes SortService.validSortFields field) eqn:Ev;
    cbn [negb fst snd].
  2:{ repeat split; reflexivity. }
  rewrite (surjective_pairing (alloc h (read h data))).
  unfold SortServiceRef.sortByDate, SortServiceRef.sortByQuantity,
    SortServiceRef.sortByCustomerName, SortService.sortByDate,
    SortService.sortByQuantity, SortService.sortByCustomerName.
  assert (G : forall cmp,
             let result :=
               sort_in_place cmp (fst (alloc h (read h data)))
                 (snd (alloc h (read h data))) in
             read (fst result) data = read h data
             /\ (forall r, (r < List.length h)%nat ->
                           read (fst result) r = read h r)
             /\ read (fst result) (snd result) = JS.sort cmp (read h data)
             /\ snd result = List.length h /\ snd result <> data).
  { intros cmp. destruct (sort_copy cmp h data) as (E1 & E2 & E3).
    cbv zeta. rewrite E1 in *. repeat split; auto. lia. }
  destruct (String.eqb field "date") eqn:E1; [apply G|].
  destruct (String.eqb field "quantity") eqn:E2; [apply G|].
  destruct (String.eqb field "customerName") eqn:E3; [apply G|].
  exfalso. unfold JS.arr_includes, SortService.validSortFields in Ev.
  cbn [existsb] in Ev. rewrite E1, E2, E3 in Ev. discriminate.
Qed.

Lemma sortTransactions_leaves_its_input_witness :
  read Fixture.sampleStore 0%nat <> []
  /\ read (fst (SortServiceRef.sortTransactions Fixture.codeUnitCompare
                  Fixture.sampleStore 0%nat (Some "quantity") (Some "desc")))
       0%nat
     = read Fixture.sampleStore 0%nat.
Proof.
  assert (H : read Fixture.sampleStore 0%nat <> []) by discriminate.
  split; [exact H|].
  exact (proj1 (sortTransactions_leaves_its_input Fixture.codeUnitCompare
                  Fixture.sampleStore 0%nat (Some "quantity") (Some "desc")
                  H)).
Defined.

End StoreProps.

(** ** The two backends *)

Module BackendProps.

Import JS Spec ListFacts StringFacts SortFacts.
Import TransactionServiceMongo.

(** *** Search *)

Lemma blank_search_array (data : list Transaction) (v : jsval) :
  blankSearch v = true ->
  SearchService.searchTransactions data (TransactionService.searchOrDefault v)
  = data.
Proof.
  destruct v as [| | n | s]; try discriminate; [reflexivity|].
  cbn [blankSearch TransactionService.searchOrDefault]. intros H.
  rewrite SearchProps.searchTransactions_eq. cbn [normalizedTerm].
  now rewrite H.
Qed.

Lemma blank_search_query (s : string) :
  String.eqb (trim s) "" = true -> buildSearchQuery s = None.
Proof.
  intros H. unfold buildSearchQuery. rewrite H.
  now rewrite orb_true_r.
Qed.

(** *** Filters *)

Lemma multi_matchIn (values : list string) (v : string) :
  negb (nonEmpty values) || arr_includes values v
  = matchIn (inClause values) v.
Proof. unfold matchIn, inClause. now destruct (nonEmpty values). Qed.

Lemma existsb_swap (xs ys : list string) :
  existsb (fun x => arr_includes ys x) xs = existsb (arr_includes xs) ys.
Proof.
  apply eq_iff_eq_true. rewrite !existsb_exists. split.
  - intros [x [Hx H]]. apply arr_includes_In in H.
    exists x. split; [assumption | now apply arr_includes_In].
  - intros [y [Hy H]]. apply arr_includes_In in H.
    exists y. split; [assumption | now apply arr_includes_In].
Qed.

Lemma tags_matchInArray (values : list string) (r : Transaction) :
  negb (nonEmpty values) || FilterService.hasAnyTag values r
  = matchInArray (inClause values) (tags r).
Proof.
  unfold matchInArray, inClause, FilterService.hasAnyTag.
  destruct (nonEmpty values) eqn:E; [|reflexivity]. cbn [negb orb].
  destruct (tags r) as [ts|].
  - apply existsb_swap.
  - rewrite existsb_swap. reflexivity.
Qed.

Lemma age_match (f : Filters.FilterCriteria) (r : Transaction) :
  ageBoundsApplied f = true ->
  match Filters.ageRange f with
  | Some rg => FilterService.ageInRange rg r
  | None => true
  end
  = matchGte (q_age_gte (buildFilterQuery f)) (age r)
      (isSome (q_age_gte (buildFilterQuery f)))
    && matchLte (q_age_lte (buildFilterQuery f)) (age r)
         (isSome (q_age_lte (buildFilterQuery f))).
Proof.
  unfold ageBoundsApplied, buildFilterQuery, FilterService.ageInRange.
  cbn [q_age_gte q_age_lte].
  destruct (Filters.ageRange f) as [[mn mx]|]; [|reflexivity].
  cbn [Filters.min Filters.max].
  destruct mn as [mn|], mx as [mx|]; rewrite ?andb_true_iff;
    intros H; try destruct H as [H1 H2];
    rewrite ?H1, ?H2; cbn [isSome matchGte matchLte];
    rewrite ?andb_true_r; try reflexivity.
Qed.

Lemma date_match (f : Filters.FilterCriteria) (r : Transaction) :
  match Filters.dateRange f with
  | Some rg => FilterService.dateInRange rg r
  | None => true
  end
  = matchGte (bindTime (q_date_gte (buildFilterQuery f))) (Some (date r))
      (isSome (q_date_gte (buildFilterQuery f)))
    && matchLte (bindTime (q_date_lte (buildFilterQuery f))) (Some (date r))
         (isSome (q_date_lte (buildFilterQuery f))).
Proof.
  unfold buildFilterQuery, FilterService.dateInRange.
  cbn [q_date_gte q_date_lte].
  destruct (Filters.dateRange f) as [[s e]|]; [|reflexivity].
  cbn [Filters.start Filters.end_].
  destruct s as [s|], e as [e|]; cbn [isSome matchGte matchLte bindTime];
    rewrite ?andb_true_r; reflexivity.
Qed.

(** Where the age bounds are ones that both backends apply, the stages
    of [applyFilters] and the query of [buildFilterQuery] select the
    same records. *)
Lemma passes_matchFilter (f : Filters.FilterCriteria) (r : Transaction) :
  ageBoundsApplied f = true ->
  passes f r = matchFilter (buildFilterQuery f) r.
Proof.
  intros Hage. unfold passes, matchFilter.
  rewrite !multi_matchIn, tags_matchInArray, (age_match f r Hage),
    (date_match f r).
  cbn [buildFilterQuery q_customerRegion q_gender q_productCategory q_tags
         q_paymentMethod].
  now rewrite !andb_assoc.
Qed.

(** *** Aggregate statistics *)

Lemma sums_agree (f : Transaction -> Z) (g : Transaction -> option Z)
  (docs : list Transaction) :
  (forall t, In t docs -> f t = match g t with Some n => n | None => 0 end) ->
  TransactionService.reduce_sum f docs = sumField g docs.
Proof.
  induction docs as [|t docs IH]; intros H; [reflexivity|].
  rewrite AggregateProps.reduce_sum_cons, AggregateProps.sumField_cons.
  rewrite (H t (or_introl eq_refl)), IH; [reflexivity|].
  intros x Hx. apply H. now right.
Qed.

Lemma num_or_0 (x : option Z) :
  num_or x 0 = match x with Some n => n | None => 0 end.
Proof.
  destruct x as [n|]; [|reflexivity]. unfold num_or.
  destruct (Z.eqb_spec n 0); lia.
Qed.

Lemma or_num_0 (x : Z) : PaginationService.or_num x 0 = x.
Proof.
  unfold PaginationService.or_num. destruct (Z.eqb_spec x 0); lia.
Qed.

Lemma amount_agrees (t : Transaction) :
  hasAmounts t = true ->
  num_or (TransactionService.opt_or (totalAmount t) (finalAmount t)) 0
  = match totalAmount t with Some n => n | None => 0 end.
Proof.
  unfold hasAmounts, TransactionService.opt_or.
  destruct (totalAmount t) as [a|]; [|discriminate].
  destruct (finalAmount t) as [f|]; [|discriminate].
  destruct (Z.eqb_spec a 0) as [->|Ha]; cbn [negb orb].
  - intros H. apply Z.eqb_eq in H. now subst.
  - intros _. rewrite num_or_0. reflexivity.
Qed.

Lemma discount_agrees (t : Transaction) :
  hasAmounts t = true ->
  TransactionService.discountOf t
  = match subtractAmounts t with Some n => n | None => 0 end.
Proof.
  unfold hasAmounts, TransactionService.discountOf, subtractAmounts.
  destruct (totalAmount t) as [a|]; [|discriminate].
  destruct (finalAmount t) as [f|]; [|discriminate].
  intros _. now rewrite !num_or_0.
Qed.

(** On records that carry both amounts, the statistics of the store,
    as the service returns them, are those of [calculateAggregateStats]. *)
Lemma stats_agree (db : Engine) (collection : list Transaction)
  (query : Query) :
  forallb hasAmounts (filter (matches db query) collection) = true ->
  let stats := getAggregateStats db collection query in
  {| Stats.totalUnits := PaginationService.or_num (Stats.totalUnits stats) 0;
     Stats.totalAmount := PaginationService.or_num (Stats.totalAmount stats) 0;
     Stats.totalDiscount :=
       PaginationService.or_num (Stats.totalDiscount stats) 0;
     Stats.recordCount :=
       PaginationService.or_num (Stats.recordCount stats) 0 |}
  = TransactionService.calculateAggregateStats
      (filter (matches db query) collection).
Proof.
  intros H stats. subst stats. rewrite !or_num_0.
  unfold getAggregateStats, TransactionService.calculateAggregateStats.
  set (matched := filter (matches db query) collection) in *.
  destruct (nonEmpty matched); cbn [negb]; [|reflexivity].
  rewrite forallb_forall in H.
  cbn [Stats.totalUnits Stats.totalAmount Stats.totalDiscount
         Stats.recordCount].
  f_equal; symmetry; apply sums_agree; intros t Ht.
  - apply num_or_0.
  - now apply amount_agrees, H.
  - now apply discount_agrees, H.
Qed.

Lemma recordCount_length (db : Engine) (collection : list Transaction)
  (query : Query) :
  Stats.recordCount (getAggregateStats db collection query)
  = Z.of_nat (List.length (filter (matches db query) collection)).
Proof.
  unfold getAggregateStats.
  destruct (filter (matches db query) collection); reflexivity.
Qed.

(** *** Sort order *)




Lemma keyOrder_trans (key : Transaction -> Z) (d : Z) (x y z : Transaction) :
  keyOrder key d x y -> keyOrder key d y z -> keyOrder key d x z.
Proof. unfold keyOrder, inDirection. destruct (d =? 1); lia. Qed.



Lemma gtb_true (a : Z) : (a >? 0) = true -> 0 < a.
Proof. rewrite Z.gtb_ltb. apply Z.ltb_lt. Qed.

Lemma gtb_false (a : Z) : (a >? 0) = false -> a <= 0.
Proof. rewrite Z.gtb_ltb. apply Z.ltb_ge. Qed.

Lemma sortByDate_sorted (sortOrder : string) (l : list Transaction) :
  StronglySorted (keyOrder date (direction sortOrder))
    (SortService.sortByDate l sortOrder).
Proof.
  unfold SortService.sortByDate. apply sort_sorted.
  - apply keyOrder_trans.
  - intros x y H. apply gtb_true in H. revert H.
    unfold keyOrder, inDirection, direction, SortService.compareByDate.
    destruct (String.eqb sortOrder "asc"); simpl; lia.
  - intros x y H. apply gtb_false in H. revert H.
    unfold keyOrder, inDirection, direction, SortService.compareByDate.
    destruct (String.eqb sortOrder "asc"); simpl; lia.
Qed.

Lemma sortByQuantity_sorted (sortOrder : string) (l : list Transaction) :
  StronglySorted
    (keyOrder (fun r => num_or (quantity r) 0) (direction sortOrder))
    (SortService.sortByQuantity l sortOrder).
Proof.
  unfold SortService.sortByQuantity. apply sort_sorted.
  - apply keyOrder_trans.
  - intros x y H. apply gtb_true in H. revert H.
    unfold keyOrder, inDirection, direction, SortService.compareByQuantity.
    destruct (String.eqb sortOrder "asc"); simpl; lia.
  - intros x y H. apply gtb_false in H. revert H.
    unfold keyOrder, inDirection, direction, SortService.compareByQuantity.
    destruct (String.eqb sortOrder "asc"); simpl; lia.
Qed.




(** *** Pagination *)

Lemma numberOr_numericOr (d : Z) (v : jsval) :
  isNumberOrAbsent v = true -> numberOr d v = Some (numericOr d v).
Proof. destruct v; try discriminate; reflexivity. Qed.


(** *** Both services on a common request *)

Lemma matched_eq (db : Engine) (data : list Transaction)
  (p : Params.QueryParams) (s : string) :
  String.eqb (trim s) "" = true ->
  ageBoundsApplied (criteriaOf p) = true ->
  filter (matches db
            (if truthy_str s
             then QAnd (buildFilterQuery (criteriaOf p)) (buildSearchQuery s)
             else QFilter (buildFilterQuery (criteriaOf p)))) data
  = matching data p.
Proof.
  intros Hs Hage. unfold matching.
  rewrite FilterProps.applyFilters_filter. apply filter_ext. intros t.
  rewrite (passes_matchFilter _ t Hage).
  destruct (truthy_str s); cbn [matches]; [|reflexivity].
  rewrite (blank_search_query s Hs). cbn [matchSearch].
  apply andb_true_r.
Qed.


Lemma array_result (localeCompare : string -> string -> Z)
  (data : list Transaction) (p : Params.QueryParams) :
  blankSearch (Params.search p) = true ->
  let selected := matching data p in
  let sorted :=
    SortService.sortTransactions localeCompare selected
      (Some (SortService.orDefault "date" (Params.sortBy p)))
      (Some (SortService.orDefault "desc" (Params.sortOrder p))) in
  let result :=
    PaginationService.paginate sorted
      (PaginationService.orDefault 1 (Params.page p))
      (PaginationService.orDefault 10 (Params.pageSize p)) in
  TransactionService.getTransactions localeCompare (loadedWith data) p
  = Returned {| items := Paging.items result;
                pagination := Paging.pagination result;
                aggregateStats :=
                  TransactionService.calculateAggregateStats selected |}.
Proof.
  intros Hs selected sorted result.
  unfold TransactionService.getTransactions.
  cbn [DataLoader.getData loadedWith DataLoader.data].
  rewrite (blank_search_array data _ Hs).
  replace (TransactionService.filtersOrDefault (Params.filters p))
    with (Some (criteriaOf p))
    by (unfold criteriaOf; now destruct (Params.filters p)).
  reflexivity.
Qed.

Lemma indexed_result (db : Engine) (data : list Transaction)
  (p : Params.QueryParams) :
  commonRequest p = true ->
  forallb hasAmounts (matching data p) = true ->
  let selected := matching data p in
  let sort :=
    buildSortQuery (SortService.orDefault "date" (Params.sortBy p))
      (SortService.orDefault "desc" (Params.sortOrder p)) in
  let page := numericOr 1 (Params.page p) in
  let ps := numericOr 10 (Params.pageSize p) in
  let n := Z.of_nat (List.length selected) in
  exists indexed,
    TransactionServiceMongo.getTransactions db data p = Some indexed
    /\ items indexed
       = map formatItem
           (firstn (Z.to_nat ps)
              (skipn (Z.to_nat ((page - 1) * ps))
                 (sortDocs db (fst sort) (snd sort) selected)))
    /\ aggregateStats indexed
       = TransactionService.calculateAggregateStats selected
    /\ Paging.totalItems (pagination indexed) = n
    /\ Paging.totalPages (pagination indexed) = ceil_div n ps
    /\ Paging.currentPage (pagination indexed) = page
    /\ Paging.pageSize (pagination indexed) = ps.
Proof.
  intros Hreq Hamt selected sort page ps n.
  unfold commonRequest in Hreq. rewrite !andb_true_iff in Hreq.
  destruct Hreq as
    (((((((((Hsearch & Hage) & Hcast) & Hfield) & Hpg) & Hpsz) & Hps1)
         & Hps100) & Hpage1) & Hpage32).
  apply Z.leb_le in Hps1, Hps100, Hpage1.
  unfold TransactionServiceMongo.getTransactions.
  fold (criteriaOf p).
  rewrite (numberOr_numericOr 1 _ Hpg), (numberOr_numericOr 10 _ Hpsz).
  fold page ps.
  assert (Es : exists s,
             TransactionService.searchOrDefault (Params.search p) = JStr s
             /\ String.eqb (trim s) "" = true).
  { destruct (Params.search p) as [| | k | s]; try discriminate.
    - exists "". split; reflexivity.
    - exists s. split; [reflexivity | exact Hsearch]. }
  destruct Es as (s & -> & Hs).
  destruct (Z.ltb_spec page 1); [lia|].
  destruct (Z.ltb_spec ps 1); [lia|]. cbn [orb].
  rewrite Hcast. cbn [negb].
  eexists. split; [reflexivity|].
  cbn [items aggregateStats pagination Paging.totalItems Paging.totalPages
         Paging.currentPage Paging.pageSize].
  pose proof (stats_agree db data
                (if truthy_str s
                 then QAnd (buildFilterQuery (criteriaOf p))
                        (buildSearchQuery s)
                 else QFilter (buildFilterQuery (criteriaOf p)))) as Hst.
  rewrite (matched_eq db data p s Hs Hage) in Hst.
  split; [now rewrite (matched_eq db data p s Hs Hage)|].
  split; [exact (Hst Hamt)|].
  rewrite recordCount_length, (matched_eq db data p s Hs Hage).
  repeat split.
Qed.

(** *** The store engine used for evaluation *)

Lemma bson_le_trans (a b c : option Z) :
  bson_le a b -> bson_le b c -> bson_le a c.
Proof. destruct a, b, c; simpl; try tauto; lia. Qed.

Lemma fixture_engine_sound : EngineSound Fixture.engine.
Proof.
  constructor.
  - intros field d docs. cbn [sortDocs Fixture.engine].
    destruct (String.eqb field "date"); [apply sort_perm|].
    destruct (String.eqb field "quantity"); [apply sort_perm | reflexivity].
  - intros d docs Hd. cbn [sortDocs Fixture.engine String.eqb].
    change (String.eqb "date" "date") with true. cbv iota.
    apply sort_sorted.
    + intros x y z. unfold inDirection. destruct (d =? 1); lia.
    + intros x y H. apply gtb_true in H. unfold inDirection.
      destruct Hd as [-> | ->]; simpl; lia.
    + intros x y H. apply gtb_false in H. unfold inDirection.
      destruct Hd as [-> | ->]; simpl; lia.
  - intros d docs Hd. cbn [sortDocs Fixture.engine].
    change (String.eqb "quantity" "date") with false.
    change (String.eqb "quantity" "quantity") with true. cbv iota.
    apply sort_sorted.
    + intros x y z. unfold inDirection.
      destruct (d =? 1); intros H1 H2; eapply bson_le_trans; eassumption.
    + intros x y H. apply gtb_true in H. revert H.
      unfold inDirection, Fixture.compareKeys, bson_le.
      destruct Hd as [-> | ->]; simpl (_ =? 1);
        destruct (quantity x), (quantity y); cbv iota; lia.
    + intros x y H. apply gtb_false in H. revert H.
      unfold inDirection, Fixture.compareKeys, bson_le.
      destruct Hd as [-> | ->]; simpl (_ =? 1);
        destruct (quantity x), (quantity y); cbv iota; lia.
Qed.

(** C1.  The indexed backend does not clamp the page.  Asked for page
    999 of the five sample records in pages of two, the array backend
    returns the last page, page 3, with its one record, as [paginate]
    does for every page beyond the last; the indexed backend skips
    (999 - 1) * 2 records and returns page 999 with no record.  The
    aggregate statistics, totalItems and totalPages of the two
    results are the same. *)
Theorem indexed_backend_does_not_clamp_the_page :
  option_map (fun r => order (items r))
    (returned (TransactionService.getTransactions Fixture.codeUnitCompare
                 (loadedWith Fixture.sampleTransactions) Fixture.page999))
  = Some ["T1"]
  /\ option_map (fun r => Paging.currentPage (pagination r))
       (returned (TransactionService.getTransactions Fixture.codeUnitCompare
                    (loadedWith Fixture.sampleTransactions) Fixture.page999))
     = Some 3
  /\ option_map (fun r => order (items r))
       (TransactionServiceMongo.getTransactions Fixture.engine
          Fixture.sampleTransactions Fixture.page999)
     = Some []
  /\ option_map (fun r => Paging.currentPage (pagination r))
       (TransactionServiceMongo.getTransactions Fixture.engine
          Fixture.sampleTransactions Fixture.page999)
     = Some 999
  /\ option_map aggregateStats
       (TransactionServiceMongo.getTransactions Fixture.engine
          Fixture.sampleTransactions Fixture.page999)
     = option_map aggregateStats
         (returned (TransactionService.getTransactions
                      Fixture.codeUnitCompare
                      (loadedWith Fixture.sampleTransactions)
                      Fixture.page999))
  /\ option_map (fun r => (Paging.totalItems (pagination r),
                           Paging.totalPages (pagination r)))
       (TransactionServiceMongo.getTransactions Fixture.engine
          Fixture.sampleTransactions Fixture.page999)
     = Some (5, 3)
  /\ option_map (fun r => (Paging.totalItems (pagination r),
                           Paging.totalPages (pagination r)))
       (returned (TransactionService.getTransactions Fixture.codeUnitCompare
                    (loadedWith Fixture.sampleTransactions) Fixture.page999))
     = Some (5, 3).
Proof. repeat split. Qed.



(** The agreeing request, evaluated: the second of the two records of
    the North region by descending quantity. *)
Example backends_agree_evaluated :
  option_map (fun r => order (items r))
    (TransactionServiceMongo.getTransactions Fixture.engine
       Fixture.sampleTransactions Fixture.northByQuantity)
  = Some ["T1"]
  /\ option_map (fun r => order (items r))
       (returned (TransactionService.getTransactions Fixture.codeUnitCompare
                    (loadedWith Fixture.sampleTransactions)
                    Fixture.northByQuantity))
     = Some ["T1"].
Proof. split; reflexivity. Qed.

End BackendProps.

Module PaginationMore.

Import JS Spec.

(** Every field of the result of [paginate], in terms of the normalized
    page and page size. *)
Lemma paginate_fields (data : list Transaction) (page pageSize : jsval) :
  let ps := normalPageSize pageSize in
  let n := Z.of_nat (List.length data) in
  let tp := ceil_div n ps in
  let cp := Z.max 1 (Z.min (normalPage page) (Z.max tp 1)) in
  PaginationService.paginate data page pageSize
  = {| Paging.items := slice data ((cp - 1) * ps) ((cp - 1) * ps + ps);
       Paging.pagination :=
         {| Paging.currentPage := cp;
            Paging.pageSize := ps;
            Paging.totalItems := n;
            Paging.totalPages := tp;
            Paging.hasNextPage := cp <? tp;
            Paging.hasPreviousPage := 1 <? cp;
            Paging.startIndex :=
              Some (if 0 <? n then (cp - 1) * ps + 1 else 0);
            Paging.endIndex := Some (Z.min ((cp - 1) * ps + ps) n) |} |}.
Proof.
  intros ps n tp cp. unfold PaginationService.paginate.
  rewrite PaginationProps.validatePage_normal,
    PaginationProps.validatePageSize_normal.
  fold ps n tp.
  pose proof (PaginationProps.normalPageSize_range pageSize) as Hps.
  fold ps in Hps.
  assert (Hn : 0 <= n) by (subst n; lia).
  destruct (PaginationProps.ceil_div_spec n ps Hn ltac:(lia))
    as (Hq0 & _ & _ & _). fold tp in Hq0.
  assert (E1 : PaginationService.or_num tp 1 = Z.max tp 1).
  { unfold PaginationService.or_num. destruct (Z.eqb_spec tp 0); lia. }
  assert (E0 : PaginationService.or_num tp 0 = tp).
  { unfold PaginationService.or_num. destruct (Z.eqb_spec tp 0); lia. }
  rewrite E1, E0. reflexivity.
Qed.


Lemma firstn_plus {A} (a b : nat) (l : list A) :
  firstn (a + b) l = (firstn a l ++ firstn b (skipn a l))%list.
Proof.
  revert l. induction a as [|a IH]; intros l; [reflexivity|].
  destruct l as [|x l]; simpl.
  - now rewrite firstn_nil.
  - now rewrite IH.
Qed.

Lemma flat_map_ext_in {A B} (f g : A -> list B) (l : list A) :
  (forall a, In a l -> f a = g a) -> flat_map f l = flat_map g l.
Proof.
  induction l as [|x l IH]; intros H; simpl; [reflexivity|].
  rewrite (H x (or_introl eq_refl)), IH; [reflexivity|].
  intros a Ha. apply H. now right.
Qed.

(** Consecutive chunks of [m] elements make up a prefix. *)
Lemma chunks_prefix {A} (m c : nat) (l : list A) :
  flat_map (fun k => firstn m (skipn ((k - 1) * m) l)) (seq 1 c)
  = firstn (c * m) l.
Proof.
  induction c as [|c IH]; [reflexivity|].
  rewrite seq_S, flat_map_app, IH. cbn [flat_map].
  rewrite app_nil_r. replace (1 + c - 1)%nat with c by lia.
  replace (S c * m)%nat with (c * m + m)%nat by lia.
  now rewrite firstn_plus.
Qed.

Lemma slice_chunk {A} (l : list A) (k ps : Z) :
  1 <= k -> 0 < ps ->
  slice l ((k - 1) * ps) ((k - 1) * ps + ps)
  = firstn (Z.to_nat ps) (skipn ((Z.to_nat k - 1) * Z.to_nat ps) l).
Proof.
  intros Hk Hps. unfold slice. f_equal; [f_equal; lia|].
  f_equal. nia.
Qed.

(** X1.  Pagination reconstruction: for every array (an array holds
    fewer than 2^32 elements) and page size, the items of the pages 1
    to totalPages, one after the other, are the array itself. *)
Theorem pages_concatenate_to_the_data (data : list Transaction)
  (pageSize : jsval) :
  fitsArray data = true ->
  let totalPages :=
    Paging.totalPages
      (Paging.pagination
         (PaginationService.paginate data JUndefined pageSize)) in
  flat_map (fun k =>
              Paging.items
                (PaginationService.paginate data (JNum (Z.of_nat k)) pageSize))
    (seq 1 (Z.to_nat totalPages))
  = data.
Proof.
  intros Hfit totalPages. subst totalPages. rewrite paginate_fields.
  cbn [Paging.pagination Paging.totalPages].
  unfold fitsArray in Hfit. apply Z.ltb_lt in Hfit.
  set (ps := normalPageSize pageSize).
  set (n := Z.of_nat (List.length data)).
  set (tp := ceil_div n ps).
  pose proof (PaginationProps.normalPageSize_range pageSize) as Hps.
  fold ps in Hps.
  assert (Hn : 0 <= n) by (subst n; lia).
  destruct (PaginationProps.ceil_div_spec n ps Hn ltac:(lia))
    as (Hq0 & Hq1 & Hq2 & Hq3). fold tp in Hq0, Hq1, Hq2, Hq3.
  assert (Htp : tp <= n).
  { destruct (Z.eqb_spec n 0) as [E0 | E0]; [apply Hq3 in E0; lia | nia]. }
  rewrite (flat_map_ext_in _
             (fun k => firstn (Z.to_nat ps)
                         (skipn ((k - 1) * Z.to_nat ps) data))).
  - rewrite chunks_prefix. apply firstn_all2. subst n. nia.
  - intros k Hk. apply in_seq in Hk. rewrite paginate_fields.
    cbn [Paging.items]. fold ps n tp.
    assert (E : normalPage (JNum (Z.of_nat k)) = Z.of_nat k).
    { unfold normalPage. cbn [parseInt].
      rewrite NumberFacts.parseInt_num_small.
      - destruct (Z.leb_spec 1 (Z.of_nat k)); lia.
      - assert (H32 : 2 ^ 32 < 10 ^ 21) by reflexivity.
        fold n in Hfit. lia. }
    rewrite E.
    replace (Z.max 1 (Z.min (Z.of_nat k) (Z.max tp 1))) with (Z.of_nat k)
      by lia.
    rewrite slice_chunk by lia. now rewrite Nat2Z.id.
Qed.

Lemma pages_concatenate_witness :
  flat_map (fun k =>
              Paging.items
                (PaginationService.paginate Fixture.sampleTransactions
                   (JNum (Z.of_nat k)) (JNum 2)))
    (seq 1 (Z.to_nat
              (Paging.totalPages
                 (Paging.pagination
                    (PaginationService.paginate Fixture.sampleTransactions
                       JUndefined (JNum 2))))))
  = Fixture.sampleTransactions.
Proof.
  exact (pages_concatenate_to_the_data Fixture.sampleTransactions (JNum 2)
           eq_refl).
Defined.

Lemma slice_length {A} (l : list A) (start end_ : Z) :
  0 <= start -> start <= end_ ->
  Z.of_nat (List.length (slice l start end_))
  = Z.max 0 (Z.min end_ (Z.of_nat (List.length l)) - start).
Proof.
  intros H0 H1. unfold slice. rewrite length_firstn, length_skipn. lia.
Qed.

(** X2.  The metadata of a page describes its items: the page holds at
    most pageSize records; with no data it is empty and both indices
    are 0; otherwise startIndex and endIndex are the 1-based inclusive
    positions of its first and last record in the array.  hasNextPage
    holds exactly when records follow endIndex, hasPreviousPage exactly
    when records precede startIndex. *)
Theorem page_metadata_describes_the_items (data : list Transaction)
  (page pageSize : jsval) :
  let r := PaginationService.paginate data page pageSize in
  let pg := Paging.pagination r in
  let len := Z.of_nat (List.length (Paging.items r)) in
  exists s e,
    Paging.startIndex pg = Some s /\ Paging.endIndex pg = Some e
    /\ len <= Paging.pageSize pg
    /\ (data = [] -> Paging.items r = [] /\ s = 0 /\ e = 0)
    /\ (data <> [] ->
        1 <= s <= e /\ e <= Paging.totalItems pg /\ len = e - s + 1
        /\ Paging.items r = slice data (s - 1) e)
    /\ (Paging.hasNextPage pg = true <-> e < Paging.totalItems pg)
    /\ (Paging.hasPreviousPage pg = true <-> 1 < s).
Proof.
  intros r pg len. subst len pg r. rewrite paginate_fields.
  cbn [Paging.pagination Paging.items Paging.startIndex Paging.endIndex
         Paging.pageSize Paging.totalItems Paging.hasNextPage
         Paging.hasPreviousPage].
  set (ps := normalPageSize pageSize).
  set (n := Z.of_nat (List.length data)).
  set (tp := ceil_div n ps).
  set (cp := Z.max 1 (Z.min (normalPage page) (Z.max tp 1))).
  pose proof (PaginationProps.normalPageSize_range pageSize) as Hps.
  fold ps in Hps.
  assert (Hn : 0 <= n) by (subst n; lia).
  destruct (PaginationProps.ceil_div_spec n ps Hn ltac:(lia))
    as (Hq0 & Hq1 & Hq2 & Hq3). fold tp in Hq0, Hq1, Hq2, Hq3.
  assert (Hcp : 1 <= cp <= Z.max tp 1) by (subst cp; lia).
  pose proof (slice_length data ((cp - 1) * ps) ((cp - 1) * ps + ps)
                ltac:(nia) ltac:(lia)) as Hlen.
  fold n in Hlen.
  eexists. eexists. split; [reflexivity|]. split; [reflexivity|].
  split; [lia|]. split; [|split; [|split]].
  - intros ->. subst n. cbn [List.length Z.of_nat] in *.
    split; [unfold slice; now rewrite skipn_nil, firstn_nil|].
    split; [reflexivity | lia].
  - intros Hd.
    assert (Hpos : 0 < n) by (subst n; destruct data; simpl; [congruence|lia]).
    destruct (Z.ltb_spec 0 n); [|lia].
    destruct (Z.eqb_spec n 0); [lia|].
    assert (Hstart : (cp - 1) * ps < n) by nia.
    assert (Hnn : 0 <= (cp - 1) * ps) by nia.
    split; [lia|]. split; [lia|]. split; [lia|].
    unfold slice.
    replace ((cp - 1) * ps + 1 - 1) with ((cp - 1) * ps) by lia.
    destruct (Z.le_gt_cases ((cp - 1) * ps + ps) n).
    + f_equal. lia.
    + rewrite !firstn_all2; [reflexivity| |];
        rewrite length_skipn; fold n; lia.
  - rewrite Z.ltb_lt. destruct (Z.eqb_spec n 0); nia.
  - rewrite Z.ltb_lt. destruct (Z.ltb_spec 0 n); [nia|].
    assert (n = 0) by lia. assert (tp = 0) by tauto. lia.
Qed.


Lemma validatePage_eq (v : jsval) :
  PaginationService.validatePage v = normalPage v.
Proof.
  unfold PaginationService.validatePage, normalPage.
  destruct (parseInt v) as [k|]; [|reflexivity].
  destruct (Z.ltb_spec k 1), (Z.leb_spec 1 k); lia.
Qed.

Lemma validatePageSize_eq (v : jsval) :
  PaginationService.validatePageSize v = normalPageSize v.
Proof.
  unfold PaginationService.validatePageSize, normalPageSize,
    PaginationService.MAX_PAGE_SIZE.
  destruct (parseInt v) as [k|]; [|reflexivity].
  destruct (Z.ltb_spec k 1), (Z.leb_spec 1 k); lia.
Qed.

(** X3.  [getPageInfo], given the length of an array, returns the
    currentPage, pageSize, totalItems, totalPages, hasNextPage and
    hasPreviousPage that [paginate] returns for the array, and the
    items of [paginate] are the slice at [getPageRange] of that current
    page (the array holding fewer than 2^32 elements, as arrays do).
    [getPageRange] itself does not clamp: at a requested page beyond
    the last its slice is empty. *)
Theorem getPageInfo_and_getPageRange_match_paginate
  (data : list Transaction) (page pageSize : jsval) :
  let r := PaginationService.paginate data page pageSize in
  let pg := Paging.pagination r in
  let info :=
    PaginationService.getPageInfo (Z.of_nat (List.length data))
      page pageSize in
  let current :=
    PaginationService.getPageRange (JNum (Paging.currentPage pg)) pageSize in
  let requested := PaginationService.getPageRange page pageSize in
  Paging.currentPage info = Paging.currentPage pg
  /\ Paging.pageSize info = Paging.pageSize pg
  /\ Paging.totalItems info = Paging.totalItems pg
  /\ Paging.totalPages info = Paging.totalPages pg
  /\ Paging.hasNextPage info = Paging.hasNextPage pg
  /\ Paging.hasPreviousPage info = Paging.hasPreviousPage pg
  /\ (fitsArray data = true ->
      Paging.items r = slice data (fst current) (snd current))
  /\ (Z.max (Paging.totalPages pg) 1 < normalPage page ->
      slice data (fst requested) (snd requested) = []).
Proof.
  intros r pg info current requested.
  subst current requested info pg r. rewrite paginate_fields.
  unfold PaginationService.getPageInfo, PaginationService.getPageRange.
  rewrite !validatePage_eq, !validatePageSize_eq.
  cbn [Paging.pagination Paging.items Paging.currentPage Paging.pageSize
         Paging.totalItems Paging.totalPages Paging.hasNextPage
         Paging.hasPreviousPage fst snd].
  set (ps := normalPageSize pageSize).
  set (n := Z.of_nat (List.length data)).
  set (tp := ceil_div n ps).
  set (cp := Z.max 1 (Z.min (normalPage page) (Z.max tp 1))).
  pose proof (PaginationProps.normalPageSize_range pageSize) as Hps.
  fold ps in Hps.
  assert (Hn : 0 <= n) by (subst n; lia).
  destruct (PaginationProps.ceil_div_spec n ps Hn ltac:(lia))
    as (Hq0 & Hq1 & Hq2 & Hq3). fold tp in Hq0, Hq1, Hq2, Hq3.
  assert (Htp : tp <= n).
  { destruct (Z.eqb_spec n 0) as [E | E]; [apply Hq3 in E; lia | nia]. }
  assert (E1 : PaginationService.or_num tp 1 = Z.max tp 1).
  { unfold PaginationService.or_num. destruct (Z.eqb_spec tp 0); lia. }
  assert (E0 : PaginationService.or_num tp 0 = tp).
  { unfold PaginationService.or_num. destruct (Z.eqb_spec tp 0); lia. }
  rewrite E1, E0. fold cp.
  assert (Ecp : fitsArray data = true -> normalPage (JNum cp) = cp).
  { intros Hfit. unfold fitsArray in Hfit. apply Z.ltb_lt in Hfit.
    unfold normalPage. cbn [parseInt].
    rewrite NumberFacts.parseInt_num_small.
    - destruct (Z.leb_spec 1 cp); subst cp; lia.
    - assert (H32 : 2 ^ 32 < 10 ^ 21) by reflexivity.
      fold n in Hfit. subst cp. lia. }
  do 6 (split; [reflexivity|]).
  split; [intros Hfit; now rewrite (Ecp Hfit)|].
  intros Hbeyond. unfold slice.
  rewrite skipn_all2; [apply firstn_nil|]. fold n in Hq1 |- *. nia.
Qed.

Lemma validatePagination_valid (page pageSize : jsval) :
  Validators.isValid (Validators.validatePagination page pageSize) = true
  <-> (Validators.isUndefined page = true
       \/ Validators.nanOrBelow1 (parseInt page) = false)
      /\ (Validators.isUndefined pageSize = true
          \/ Validators.nanOrBelow1 (parseInt pageSize)
             || js_gt (parseInt pageSize) (Some 100) = false).
Proof.
  unfold Validators.validatePagination, Validators.validation,
    Validators.push.
  cbn [Validators.isValid].
  destruct (Validators.isUndefined page),
    (Validators.nanOrBelow1 (parseInt page)),
    (Validators.isUndefined pageSize),
    (Validators.nanOrBelow1 (parseInt pageSize)
     || js_gt (parseInt pageSize) (Some 100));
    cbn; intuition congruence.
Qed.

(** X4.  A page and a page size that [validatePagination] accepts are
    used by [paginate] as [parseInt] reads them: the page size of the
    result is the one read (10 when absent), and the current page is
    the one read (1 when absent) unless it lies beyond the last page.
    A Number below 10^21 is read as it is.  A Number from 10^21 on is
    accepted as well, and is read, and used, as the one digit that
    starts its exponent form. *)
Theorem accepted_pagination_is_used_as_parseInt_reads_it
  (data : list Transaction) (page pageSize : jsval) :
  Validators.isValid (Validators.validatePagination page pageSize) = true ->
  let pg :=
    Paging.pagination (PaginationService.paginate data page pageSize) in
  exists p s,
    (page = JUndefined /\ p = 1 \/ parseInt page = Some p)
    /\ (pageSize = JUndefined /\ s = 10 \/ parseInt pageSize = Some s)
    /\ 1 <= p /\ 1 <= s <= 100
    /\ Paging.pageSize pg = s
    /\ Paging.currentPage pg = Z.min p (Z.max (Paging.totalPages pg) 1)
    /\ (forall n, page = JNum n ->
                  1 <= n < 2 ^ 1024
                  /\ if n <? 10 ^ 21 then p = n else p <= 9)
    /\ (forall n, pageSize = JNum n ->
                  1 <= n < 2 ^ 1024
                  /\ if n <? 10 ^ 21 then s = n else s <= 9).
Proof.
  intros Hv pg. subst pg. rewrite paginate_fields.
  cbn [Paging.pagination Paging.pageSize Paging.currentPage
         Paging.totalPages].
  apply validatePagination_valid in Hv. destruct Hv as [Hp Hs].
  assert (Hnum : forall n k, parseInt (JNum n) = Some k -> 1 <= k ->
                             1 <= n < 2 ^ 1024
                             /\ if n <? 10 ^ 21 then k = n else k <= 9).
  { intros n k E Hk. cbn [parseInt] in E.
    assert (H21 : 0 < 10 ^ 21) by reflexivity.
    assert (Hinf : 10 ^ 21 < 2 ^ 1024) by reflexivity.
    destruct (NumberFacts.parseInt_num_some n k E)
      as [[Hn ->] | [[Hn Hk'] | [Hn Hk']]].
    - split; [lia|]. destruct (Z.ltb_spec n (10 ^ 21)); lia.
    - split; [lia|]. destruct (Z.ltb_spec n (10 ^ 21)); lia.
    - lia. }
  assert (Hp' : exists p,
             (page = JUndefined /\ p = 1 \/ parseInt page = Some p)
             /\ 1 <= p /\ normalPage page = p).
  { destruct Hp as [Hp | Hp].
    - destruct page; try discriminate. exists 1.
      repeat split; auto; lia.
    - unfold normalPage. unfold Validators.nanOrBelow1 in Hp.
      destruct (parseInt page) as [k|]; [|discriminate].
      apply Z.ltb_ge in Hp. exists k.
      destruct (Z.leb_spec 1 k); [|lia]. repeat split; auto. }
  assert (Hs' : exists s,
             (pageSize = JUndefined /\ s = 10 \/ parseInt pageSize = Some s)
             /\ 1 <= s <= 100 /\ normalPageSize pageSize = s).
  { destruct Hs as [Hs | Hs].
    - destruct pageSize; try discriminate. exists 10.
      repeat split; auto; lia.
    - unfold normalPageSize. apply orb_false_iff in Hs as [Hs1 Hs2].
      unfold Validators.nanOrBelow1 in Hs1.
      destruct (parseInt pageSize) as [k|]; [|discriminate].
      apply Z.ltb_ge in Hs1. cbn [js_gt] in Hs2. apply Z.ltb_ge in Hs2.
      exists k. destruct (Z.leb_spec 1 k); [|lia].
      repeat split; auto; lia. }
  destruct Hp' as (p & Hp1 & Hp2 & Hp3).
  destruct Hs' as (s & Hs1 & Hs2 & Hs3).
  exists p, s. rewrite Hp3, Hs3.
  split; [assumption|]. split; [assumption|]. split; [assumption|].
  split; [assumption|]. split; [reflexivity|]. split; [lia|].
  split.
  - intros n ->. destruct Hp1 as [[Hu _] | Hp1]; [discriminate|].
    now apply Hnum.
  - intros n ->. destruct Hs1 as [[Hu _] | Hs1]; [discriminate|].
    apply Hnum; [assumption | lia].
Qed.

Lemma accepted_pagination_witness :
  exists p s,
    (JNum (10 ^ 21) = JUndefined /\ p = 1
     \/ parseInt (JNum (10 ^ 21)) = Some p)
    /\ (JStr "25" = JUndefined /\ s = 10
        \/ parseInt (JStr "25") = Some s)
    /\ 1 <= p /\ 1 <= s <= 100
    /\ Paging.pageSize
         (Paging.pagination
            (PaginationService.paginate Fixture.sampleTransactions
               (JNum (10 ^ 21)) (JStr "25"))) = s
    /\ Paging.currentPage
         (Paging.pagination
            (PaginationService.paginate Fixture.sampleTransactions
               (JNum (10 ^ 21)) (JStr "25")))
       = Z.min p
           (Z.max
              (Paging.totalPages
                 (Paging.pagination
                    (PaginationService.paginate Fixture.sampleTransactions
                       (JNum (10 ^ 21)) (JStr "25")))) 1)
    /\ (forall n, JNum (10 ^ 21) = JNum n ->
                  1 <= n < 2 ^ 1024
                  /\ if n <? 10 ^ 21 then p = n else p <= 9)
    /\ (forall n, JStr "25" = JNum n ->
                  1 <= n < 2 ^ 1024
                  /\ if n <? 10 ^ 21 then s = n else s <= 9).
Proof.
  exact (accepted_pagination_is_used_as_parseInt_reads_it
           Fixture.sampleTransactions (JNum (10 ^ 21)) (JStr "25") eq_refl).
Defined.

End PaginationMore.

Module StageComposition.

Import JS Spec ListFacts StringFacts.

Lemma normalizedTerm_by_lowered_trim (s1 s2 : string) :
  toLowerCase (trim s1) = toLowerCase (trim s2) ->
  normalizedTerm (JStr s1) = normalizedTerm (JStr s2).
Proof.
  intros E. cbn [normalizedTerm].
  destruct (String.eqb (trim s1) "") eqn:E1, (String.eqb (trim s2) "") eqn:E2;
    try reflexivity.
  - apply String.eqb_eq in E1. apply String.eqb_neq in E2.
    rewrite E1 in E. symmetry in E. cbn [toLowerCase] in E.
    destruct (E2 (proj1 (toLowerCase_empty _) E)).
  - apply String.eqb_eq in E2. apply String.eqb_neq in E1.
    rewrite E2 in E. cbn [toLowerCase] in E.
    destruct (E1 (proj1 (toLowerCase_empty _) E)).
  - now rewrite E.
Qed.

(** X5.  Two terms that differ only in letter case and in surrounding white
    space select the same records. *)
Theorem search_ignores_case_and_padding (data : list Transaction)
  (s1 s2 : string) :
  toLowerCase (trim s1) = toLowerCase (trim s2) ->
  SearchService.searchTransactions data (JStr s1)
  = SearchService.searchTransactions data (JStr s2).
Proof.
  intros E. rewrite !SearchProps.searchTransactions_eq.
  now rewrite (normalizedTerm_by_lowered_trim s1 s2 E).
Qed.

Lemma search_ignores_case_and_padding_witness :
  toLowerCase (trim "  ALICE ") = toLowerCase (trim "alice")
  /\ SearchService.searchTransactions Fixture.sampleTransactions
       (JStr "  ALICE ")
     = SearchService.searchTransactions Fixture.sampleTransactions
         (JStr "alice").
Proof.
  split; [reflexivity|].
  exact (search_ignores_case_and_padding Fixture.sampleTransactions
           "  ALICE " "alice" eq_refl).
Defined.

Lemma Substring_trans (a b c : string) :
  Substring a b -> Substring b c -> Substring a c.
Proof.
  intros (p1 & q1 & ->) (p2 & q2 & ->).
  exists (p2 ++ p1), (q1 ++ q2).
  assert (A : forall x y z : string, (x ++ y) ++ z = x ++ (y ++ z)).
  { induction x as [|ch x IH]; intros y z; simpl; [reflexivity|].
    now rewrite IH. }
  now rewrite !A.
Qed.

Lemma filter_Subsequence_impl {A} (p q : A -> bool) (l : list A) :
  (forall x, p x = true -> q x = true) ->
  Subsequence (filter p l) (filter q l).
Proof.
  intros H. induction l as [|x l IH]; simpl; [constructor|].
  destruct (p x) eqn:Px.
  - rewrite (H x Px). now constructor.
  - destruct (q x); [now constructor | assumption].
Qed.

(** X6.  A longer term narrows the result: when the normalized term of one
    search occurs inside that of another, the records found for the
    longer term are among those found for the shorter, in the same
    order. *)
Theorem longer_term_narrows_the_search (data : list Transaction)
  (s1 s2 t1 t2 : string) :
  normalizedTerm (JStr s1) = Some t1 ->
  normalizedTerm (JStr s2) = Some t2 ->
  Substring t1 t2 ->
  Subsequence (SearchService.searchTransactions data (JStr s2))
    (SearchService.searchTransactions data (JStr s1)).
Proof.
  intros E1 E2 Hsub. rewrite !SearchProps.searchTransactions_eq, E1, E2.
  apply filter_Subsequence_impl. intros r.
  rewrite !SearchProps.matchesTerm_Keeps. unfold Keeps.
  intros [H | H]; [left | right]; eapply Substring_trans; eassumption.
Qed.

Lemma longer_term_narrows_witness :
  normalizedTerm (JStr "Jo") = Some "jo"
  /\ normalizedTerm (JStr "john") = Some "john"
  /\ Substring "jo" "john"
  /\ Subsequence
       (SearchService.searchTransactions Fixture.sampleTransactions
          (JStr "john"))
       (SearchService.searchTransactions Fixture.sampleTransactions
          (JStr "Jo")).
Proof.
  assert (H : Substring "jo" "john") by (exists "", "hn"; reflexivity).
  split; [reflexivity|]. split; [reflexivity|]. split; [exact H|].
  exact (longer_term_narrows_the_search Fixture.sampleTransactions
           "Jo" "john" "jo" "john" eq_refl eq_refl H).
Defined.

Lemma search_as_filter (data : list Transaction) (term : jsval) :
  exists keep,
    forall l, SearchService.searchTransactions l term = filter keep l.
Proof.
  destruct (normalizedTerm term) as [t|] eqn:E.
  - exists (SearchService.matchesTerm t). intros l.
    now rewrite SearchProps.searchTransactions_eq, E.
  - exists (fun _ => true). intros l.
    now rewrite SearchProps.searchTransactions_eq, E, filter_all.
Qed.

Lemma applyFilters_as_filter (f : option Filters.FilterCriteria) :
  exists keep,
    forall l, FilterService.applyFilters l f = filter keep l.
Proof.
  destruct f as [f|].
  - exists (passes f). intros l. apply FilterProps.applyFilters_filter.
  - exists (fun _ => true). intros l. now rewrite filter_all.
Qed.

Lemma filter_comm {A} (p q : A -> bool) (l : list A) :
  filter p (filter q l) = filter q (filter p l).
Proof.
  rewrite !filter_filter. apply filter_ext. intros x. apply andb_comm.
Qed.

Lemma filter_idem {A} (p : A -> bool) (l : list A) :
  filter p (filter p l) = filter p l.
Proof.
  rewrite filter_filter. apply filter_ext. intros x. now destruct (p x).
Qed.

(** X7.  The search stage and the filter stage commute, two filter stages
    commute, and each stage applied twice is the stage applied once:
    the set a request selects does not depend on the order in which its
    search term and its criteria are applied. *)
Theorem search_and_filter_commute (data : list Transaction)
  (term : jsval) (f g : option Filters.FilterCriteria) :
  FilterService.applyFilters (SearchService.searchTransactions data term) f
  = SearchService.searchTransactions (FilterService.applyFilters data f) term
  /\ FilterService.applyFilters (FilterService.applyFilters data f) g
     = FilterService.applyFilters (FilterService.applyFilters data g) f
  /\ SearchService.searchTransactions
       (SearchService.searchTransactions data term) term
     = SearchService.searchTransactions data term
  /\ FilterService.applyFilters (FilterService.applyFilters data f) f
     = FilterService.applyFilters data f.
Proof.
  destruct (search_as_filter data term) as [ks Hs].
  destruct (applyFilters_as_filter f) as [kf Hf].
  destruct (applyFilters_as_filter g) as [kg Hg].
  repeat first [rewrite Hs | rewrite Hf | rewrite Hg].
  repeat split; try apply filter_comm; apply filter_idem.
Qed.

End StageComposition.

Module StringOrder.

(** Code-unit order of strings: [a] is not after [b]. *)
Lemma compare_not_gt_trans (s t u : string) :
  String.compare s t <> Gt -> String.compare t u <> Gt ->
  String.compare s u <> Gt.
Proof.
  revert t u. induction s as [|a s IH]; intros t u.
  - destruct u; simpl; congruence.
  - destruct t as [|b t]; [simpl; congruence|].
    destruct u as [|c u]; [destruct (Ascii.compare a b); simpl; congruence|].
    cbn [String.compare]. unfold Ascii.compare.
    destruct (N.compare_spec (N_of_ascii a) (N_of_ascii b)) as [E1|L1|G1];
      destruct (N.compare_spec (N_of_ascii b) (N_of_ascii c)) as [E2|L2|G2];
      destruct (N.compare_spec (N_of_ascii a) (N_of_ascii c)) as [E3|L3|G3];
      try congruence; try lia.
    apply IH.
Qed.

Lemma compareStrings_le (a b : string) :
  FilterService.compareStrings a b <= 0 <-> String.compare a b <> Gt.
Proof.
  unfold FilterService.compareStrings.
  destruct (String.compare a b); split; intros; try congruence; lia.
Qed.

Lemma compareStrings_trans (a b c : string) :
  FilterService.compareStrings a b <= 0 ->
  FilterService.compareStrings b c <= 0 ->
  FilterService.compareStrings a c <= 0.
Proof. rewrite !compareStrings_le. apply compare_not_gt_trans. Qed.

Lemma compareStrings_antisym (a b : string) :
  0 <= FilterService.compareStrings a b ->
  FilterService.compareStrings b a <= 0.
Proof.
  unfold FilterService.compareStrings.
  rewrite (String.compare_antisym a b).
  destruct (String.compare b a); simpl; lia.
Qed.

End StringOrder.

Module SortMore.

Import JS Spec ListFacts SortFacts.

Lemma isValid_validateSort (sortBy sortOrder : option string) :
  Validators.isValid (Validators.validateSort sortBy sortOrder)
  = SortService.isValidSort sortBy sortOrder.
Proof.
  unfold Validators.validateSort, SortService.isValidSort,
    Validators.validation, Validators.truthy, Validators.push.
  cbn [Validators.isValid].
  change Validators.validSortFields with SortService.validSortFields.
  change Validators.validSortOrders with ["asc"; "desc"].
  destruct sortBy as [sb|], sortOrder as [so|]; cbn [str_or_empty];
    change (truthy_str "") with false;
    repeat match goal with
           | |- context [truthy_str ?x] => destruct (truthy_str x)
           | |- context [arr_includes ?l ?x] => destruct (arr_includes l x)
           end; reflexivity.
Qed.

(** X8.  The two validators of the sort parameters, [validateSort] of the
    middleware and [isValidSort] of the sort service, accept the same
    requests.  An accepted sort field is absent, one of date, quantity
    and customerName, or the empty string; for the empty string
    [sortTransactions] returns its input in the order it has. *)
Theorem sort_validators_agree (localeCompare : string -> string -> Z)
  (data : list Transaction) (sortBy sortOrder : option string) :
  Validators.isValid (Validators.validateSort sortBy sortOrder)
  = SortService.isValidSort sortBy sortOrder
  /\ (SortService.isValidSort sortBy sortOrder = true ->
      match sortBy with
      | None => True
      | Some field => field = "" \/ In field SortService.validSortFields
      end)
  /\ SortService.sortTransactions localeCompare data (Some "") sortOrder
     = data.
Proof.
  split; [apply isValid_validateSort|]. split.
  - unfold SortService.isValidSort. destruct sortBy as [field|]; [|trivial].
    cbn [str_or_empty]. rewrite andb_true_iff, orb_true_iff.
    intros [[H | H] _].
    + left. unfold truthy_str in H. rewrite negb_involutive in H.
      now apply String.eqb_eq.
    + right. now apply arr_includes_In.
  - unfold SortService.sortTransactions. cbn [SortService.orDefault].
    destruct (nonEmpty data); reflexivity.
Qed.

(** X9.  For a supported field the result of the sort stage is ordered by
    the key of the field: by the time value of the date, or by the
    quantity with a missing quantity counted as 0; ascending when the
    order is "asc" and descending for any other order, "desc" when it
    is absent. *)
Theorem sort_orders_by_date_and_quantity
  (localeCompare : string -> string -> Z) (data : list Transaction)
  (sortOrder : option string) :
  let d := direction (SortService.orDefault "desc" sortOrder) in
  StronglySorted (keyOrder date d)
    (SortService.sortTransactions localeCompare data (Some "date") sortOrder)
  /\ StronglySorted (keyOrder date d)
       (SortService.sortTransactions localeCompare data None sortOrder)
  /\ StronglySorted (keyOrder (fun r => num_or (quantity r) 0) d)
       (SortService.sortTransactions localeCompare data (Some "quantity")
          sortOrder).
Proof.
  intros d. subst d. unfold SortService.sortTransactions.
  cbn [SortService.orDefault].
  destruct data as [|r data]; [repeat split; constructor|].
  cbn [nonEmpty negb]. repeat split.
  - apply BackendProps.sortByDate_sorted.
  - apply BackendProps.sortByDate_sorted.
  - apply BackendProps.sortByQuantity_sorted.
Qed.

(** X10.  For customerName the result is ordered by the lower-cased names
    under [localeCompare], in the direction of the order, for every
    [localeCompare] that is a total preorder. *)
Theorem sort_orders_by_customerName
  (localeCompare : string -> string -> Z) (data : list Transaction)
  (sortOrder : option string) :
  (forall a b c, localeCompare a b <= 0 -> localeCompare b c <= 0 ->
                 localeCompare a c <= 0) ->
  (forall a b, 0 <= localeCompare a b -> localeCompare b a <= 0) ->
  let name r := toLowerCase (str_or_empty (customerName r)) in
  StronglySorted
    (inDirection (direction (SortService.orDefault "desc" sortOrder))
       (fun a b => localeCompare (name a) (name b) <= 0))
    (SortService.sortTransactions localeCompare data (Some "customerName")
       sortOrder).
Proof.
  intros Htrans Hanti name. unfold SortService.sortTransactions.
  cbn [SortService.orDefault].
  destruct data as [|r data]; [constructor|].
  cbn [nonEmpty negb].
  change (arr_includes SortService.validSortFields "customerName") with true.
  cbn [negb]. change (String.eqb "customerName" "date") with false.
  change (String.eqb "customerName" "quantity") with false.
  change (String.eqb "customerName" "customerName") with true. cbv iota.
  unfold SortService.sortByCustomerName. subst name. apply sort_sorted.
  - intros x y z. unfold inDirection.
    destruct (_ =? 1); intros H1 H2; eapply Htrans; eassumption.
  - intros x y H. apply BackendProps.gtb_true in H. revert H.
    unfold inDirection, direction, SortService.compareByCustomerName.
    cbv zeta.
    destruct (String.eqb _ "asc"); simpl (_ =? 1); cbv iota; intros H.
    + apply Hanti. lia.
    + lia.
  - intros x y H. apply BackendProps.gtb_false in H. revert H.
    unfold inDirection, direction, SortService.compareByCustomerName.
    cbv zeta.
    destruct (String.eqb _ "asc"); simpl (_ =? 1); cbv iota; intros H.
    + lia.
    + apply Hanti. lia.
Qed.

Lemma sort_orders_by_customerName_witness :
  (forall a b c, Fixture.codeUnitCompare a b <= 0 ->
                 Fixture.codeUnitCompare b c <= 0 ->
                 Fixture.codeUnitCompare a c <= 0)
  /\ (forall a b, 0 <= Fixture.codeUnitCompare a b ->
                  Fixture.codeUnitCompare b a <= 0)
  /\ StronglySorted
       (inDirection (direction "asc")
          (fun a b =>
             Fixture.codeUnitCompare
               (toLowerCase (str_or_empty (customerName a)))
               (toLowerCase (str_or_empty (customerName b))) <= 0))
       (SortService.sortTransactions Fixture.codeUnitCompare
          Fixture.sampleTransactions (Some "customerName") (Some "asc")).
Proof.
  split; [exact StringOrder.compareStrings_trans|].
  split; [exact StringOrder.compareStrings_antisym|].
  exact (sort_orders_by_customerName Fixture.codeUnitCompare
           Fixture.sampleTransactions (Some "asc")
           StringOrder.compareStrings_trans
           StringOrder.compareStrings_antisym).
Defined.

End SortMore.

Module FilterOptionsMore.

Import JS Spec ListFacts SortFacts.

Lemma set_add_In (x y : string) (s : list string) :
  In x (FilterService.set_add y s) <-> x = y \/ In x s.
Proof.
  unfold FilterService.set_add.
  destruct (arr_includes s y) eqn:E.
  - apply arr_includes_In in E. split; [now right|].
    intros [-> | H]; assumption.
  - rewrite in_app_iff. simpl. intuition congruence.
Qed.

Lemma set_add_NoDup (y : string) (s : list string) :
  NoDup s -> NoDup (FilterService.set_add y s).
Proof.
  intros H. unfold FilterService.set_add.
  destruct (arr_includes s y) eqn:E; [assumption|].
  apply NoDup_app; [assumption | repeat constructor; simpl; tauto|].
  intros a Ha [<- | []].
  apply arr_includes_In in Ha. congruence.
Qed.

(** Adding the values of a list to a set. *)
Lemma add_all_In (values s : list string) (x : string) :
  In x (fold_left (fun s v => FilterService.set_add v s) values s)
  <-> In x s \/ In x values.
Proof.
  revert s. induction values as [|v values IH]; intros s; simpl; [tauto|].
  rewrite IH, set_add_In. intuition congruence.
Qed.

Lemma add_all_NoDup (values s : list string) :
  NoDup s ->
  NoDup (fold_left (fun s v => FilterService.set_add v s) values s).
Proof.
  revert s. induction values as [|v values IH]; intros s H; simpl;
    [assumption|].
  apply IH. now apply set_add_NoDup.
Qed.

Lemma addScalar_fold_In (field : Transaction -> string)
  (data : list Transaction) (s : list string) (x : string) :
  In x (fold_left (addScalar field) data s)
  <-> In x s \/ (x <> "" /\ exists t, In t data /\ field t = x).
Proof.
  revert s. induction data as [|t data IH]; intros s; simpl.
  - split; [now left | intros [H | (_ & t & [] & _)]; assumption].
  - rewrite IH. unfold addScalar, truthy_str.
    destruct (String.eqb (field t) "") eqn:E; cbn [negb].
    + apply String.eqb_eq in E. split.
      * intros [H | (Hx & t' & Ht' & Hf)]; [now left|].
        right. split; [assumption|]. exists t'. split; [now right|assumption].
      * intros [H | (Hx & t' & [<- | Ht'] & Hf)]; [now left | congruence|].
        right. split; [assumption|]. now exists t'.
    + apply String.eqb_neq in E. rewrite set_add_In. split.
      * intros [[-> | H] | (Hx & t' & Ht' & Hf)].
        -- right. split; [assumption|]. exists t. split; [now left|reflexivity].
        -- now left.
        -- right. split; [assumption|]. exists t'. split; [now right|assumption].
      * intros [H | (Hx & t' & [<- | Ht'] & Hf)].
        -- left. now right.
        -- left. left. now symmetry.
        -- right. split; [assumption|]. now exists t'.
Qed.

Lemma addScalar_fold_NoDup (field : Transaction -> string)
  (data : list Transaction) (s : list string) :
  NoDup s -> NoDup (fold_left (addScalar field) data s).
Proof.
  revert s. induction data as [|t data IH]; intros s H; simpl; [assumption|].
  apply IH. unfold addScalar. destruct (truthy_str (field t));
    [now apply set_add_NoDup | assumption].
Qed.

Lemma addTags_fold_In (data : list Transaction) (s : list string)
  (x : string) :
  In x (fold_left addTags data s)
  <-> In x s \/ exists t, In t data /\ In x (tagsOf t).
Proof.
  revert s. induction data as [|t data IH]; intros s; simpl.
  - split; [now left | intros [H | (t & [] & _)]; assumption].
  - rewrite IH. unfold addTags, tagsOf.
    destruct (tags t) as [ts|] eqn:E.
    + rewrite add_all_In. split.
      * intros [[H | H] | (t' & Ht' & Hx)]; [now left | |].
        -- right. exists t. split; [now left|]. now rewrite E.
        -- right. exists t'. split; [now right | assumption].
      * intros [H | (t' & [<- | Ht'] & Hx)].
        -- left. now left.
        -- rewrite E in Hx. left. now right.
        -- right. now exists t'.
    + split.
      * intros [H | (t' & Ht' & Hx)]; [now left|].
        right. exists t'. split; [now right | assumption].
      * intros [H | (t' & [<- | Ht'] & Hx)]; [now left | |].
        -- rewrite E in Hx. destruct Hx.
        -- right. now exists t'.
Qed.

Lemma addTags_fold_NoDup (data : list Transaction) (s : list string) :
  NoDup s -> NoDup (fold_left addTags data s).
Proof.
  revert s. induction data as [|t data IH]; intros s H; simpl; [assumption|].
  apply IH. unfold addTags. destruct (tags t);
    [now apply add_all_NoDup | assumption].
Qed.

(** The five sets that [getFilterOptions] builds evolve independently. *)
Lemma addOptions_fold (data : list Transaction)
  (o : FilterService.FilterOptions) :
  let o' := fold_left FilterService.addOptions data o in
  FilterService.regions o'
  = fold_left (addScalar customerRegion) data (FilterService.regions o)
  /\ FilterService.genders o'
     = fold_left (addScalar gender) data (FilterService.genders o)
  /\ FilterService.categories o'
     = fold_left (addScalar productCategory) data
         (FilterService.categories o)
  /\ FilterService.optionTags o'
     = fold_left addTags data (FilterService.optionTags o)
  /\ FilterService.paymentMethods o'
     = fold_left (addScalar paymentMethod) data
         (FilterService.paymentMethods o).
Proof.
  revert o. induction data as [|t data IH]; intros o; [repeat split|].
  cbn [fold_left]. destruct (IH (FilterService.addOptions o t))
    as (H1 & H2 & H3 & H4 & H5).
  cbv zeta. rewrite H1, H2, H3, H4, H5. repeat split.
Qed.

Lemma sorted_options (l : list string) :
  StronglySorted (fun a b => FilterService.compareStrings a b <= 0)
    (JS.sort FilterService.compareStrings l).
Proof.
  apply sort_sorted.
  - intros x y z. apply StringOrder.compareStrings_trans.
  - intros x y H. apply BackendProps.gtb_true in H.
    apply StringOrder.compareStrings_antisym. lia.
  - intros x y H. now apply BackendProps.gtb_false in H.
Qed.

Lemma sort_In (cmp : string -> string -> Z) (l : list string) (x : string) :
  In x (JS.sort cmp l) <-> In x l.
Proof.
  split; apply Permutation_in;
    [apply Permutation_sym|]; apply sort_perm.
Qed.

Lemma scalar_OptionsOf (field : Transaction -> string)
  (data : list Transaction) :
  OptionsOf (fun t => [field t]) false data
    (JS.sort FilterService.compareStrings
       (fold_left (addScalar field) data [])).
Proof.
  split; [|split].
  - intros v.
    rewrite sort_In, addScalar_fold_In. split.
    + intros [[] | (Hv & t & Ht & <-)]. split; [now right|].
      exists t. split; [assumption | now left].
    + intros ([H | Hv] & t & Ht & [<- | []]); [discriminate|].
      right. split; [assumption|]. now exists t.
  - eapply Permutation_NoDup; [apply sort_perm|].
    apply addScalar_fold_NoDup. constructor.
  - apply sorted_options.
Qed.

Lemma tags_OptionsOf (data : list Transaction) :
  OptionsOf tagsOf true data
    (JS.sort FilterService.compareStrings (fold_left addTags data [])).
Proof.
  split; [|split].
  - intros v. rewrite sort_In, addTags_fold_In. split.
    + intros [[] | H]. split; [now left | exact H].
    + intros (_ & H). now right.
  - eapply Permutation_NoDup; [apply sort_perm|].
    apply addTags_fold_NoDup. constructor.
  - apply sorted_options.
Qed.

Lemma getFilterOptions_fields (data : list Transaction) :
  let o := FilterService.getFilterOptions data in
  OptionsOf (fun t => [customerRegion t]) false data
    (FilterService.regions o)
  /\ OptionsOf (fun t => [gender t]) false data (FilterService.genders o)
  /\ OptionsOf (fun t => [productCategory t]) false data
       (FilterService.categories o)
  /\ OptionsOf tagsOf true data (FilterService.optionTags o)
  /\ OptionsOf (fun t => [paymentMethod t]) false data
       (FilterService.paymentMethods o).
Proof.
  intros o. subst o. unfold FilterService.getFilterOptions.
  destruct (addOptions_fold data
              {| FilterService.regions := []; FilterService.genders := [];
                 FilterService.categories := [];
                 FilterService.optionTags := [];
                 FilterService.paymentMethods := [] |})
    as (H1 & H2 & H3 & H4 & H5).
  cbv zeta in H1, H2, H3, H4, H5.
  cbn [FilterService.regions FilterService.genders FilterService.categories
         FilterService.optionTags FilterService.paymentMethods] in *.
  rewrite H1, H2, H3, H4, H5.
  split; [apply scalar_OptionsOf|].
  split; [apply scalar_OptionsOf|].
  split; [apply scalar_OptionsOf|].
  split; [apply tags_OptionsOf | apply scalar_OptionsOf].
Qed.

(** X11.  The options of the array backend: for customerRegion, gender,
    productCategory and paymentMethod, the non-empty values that occur
    in the data; for tags, every tag of every record, the empty string
    included when a record has it; each list without duplicates and in
    code-unit order. *)
Theorem getFilterOptions_lists_the_values_of_the_data
  (data : list Transaction) :
  let o := FilterService.getFilterOptions data in
  OptionsOf (fun t => [customerRegion t]) false data
    (FilterService.regions o)
  /\ OptionsOf (fun t => [gender t]) false data (FilterService.genders o)
  /\ OptionsOf (fun t => [productCategory t]) false data
       (FilterService.categories o)
  /\ OptionsOf tagsOf true data (FilterService.optionTags o)
  /\ OptionsOf (fun t => [paymentMethod t]) false data
       (FilterService.paymentMethods o).
Proof. exact (getFilterOptions_fields data). Qed.

End FilterOptionsMore.

Module FilterOptionsUse.

Import JS Spec ListFacts SortFacts.

Lemma filter_nonempty {A : Type} (f : A -> bool) (l : list A) :
  filter f l <> [] <-> exists x, In x l /\ f x = true.
Proof.
  split.
  - destruct (filter f l) as [|x r] eqn:E; [congruence|]. intros _.
    exists x. apply filter_In. rewrite E. now left.
  - intros (x & Hx & Hf) E.
    assert (H : In x (filter f l)) by (apply filter_In; split; assumption).
    rewrite E in H. destruct H.
Qed.

Lemma passes_onlyRegion (r : string) (t : Transaction) :
  passes (onlyRegion r) t = String.eqb (customerRegion t) r.
Proof.
  unfold passes, onlyRegion, nonEmpty, arr_includes. cbn.
  now rewrite !andb_true_r, orb_false_r.
Qed.

Lemma passes_onlyTag (tag : string) (t : Transaction) :
  passes (onlyTag tag) t = arr_includes (tagsOf t) tag.
Proof.
  unfold passes, onlyTag, nonEmpty, FilterService.hasAnyTag, tagsOf. cbn.
  now rewrite !andb_true_r, orb_false_r.
Qed.

(** X12.  An option is offered exactly when choosing it alone as a filter
    leaves some record: a region is offered if and only if it is not
    the empty string and filtering by it gives a non-empty result, and a
    tag is offered if and only if filtering by it gives a non-empty
    result. *)
Theorem offered_options_are_the_ones_that_select_a_record
  (data : list Transaction) (v : string) :
  let o := FilterService.getFilterOptions data in
  (In v (FilterService.regions o)
   <-> v <> ""
       /\ FilterService.applyFilters data (Some (onlyRegion v)) <> [])
  /\ (In v (FilterService.optionTags o)
      <-> FilterService.applyFilters data (Some (onlyTag v)) <> []).
Proof.
  intros o. subst o.
  destruct (FilterOptionsMore.getFilterOptions_fields data) as ((Hr & _) & _ & _ & (Ht & _) & _).
  rewrite !FilterProps.applyFilters_filter, !filter_nonempty.
  split.
  - rewrite Hr. split.
    + intros ([H | H] & t & Ht' & [E | []]); [discriminate|].
      split; [assumption|]. exists t. split; [assumption|].
      rewrite passes_onlyRegion. apply String.eqb_eq. now symmetry.
    + intros (Hv & t & Ht' & Hp). split; [now right|].
      exists t. split; [assumption|]. left.
      rewrite passes_onlyRegion in Hp. apply String.eqb_eq in Hp.
      now symmetry.
  - rewrite Ht. split.
    + intros (_ & t & Ht' & Hin). exists t. split; [assumption|].
      rewrite passes_onlyTag. now apply arr_includes_In.
    + intros (t & Ht' & Hp). split; [now left|]. exists t.
      split; [assumption|]. rewrite passes_onlyTag in Hp.
      now apply arr_includes_In.
Qed.

End FilterOptionsUse.

Module TrimFacts.

Import JS Spec.

Lemma rev_append_app (s acc : string) :
  rev_append s acc = (reverse s ++ acc)%string.
Proof.
  unfold reverse. revert acc. induction s as [|c s IH]; intros acc; simpl.
  - reflexivity.
  - rewrite (IH (String c acc)), (IH (String c "")).
    generalize (rev_append s "") as r. intros r.
    induction r as [|d r IHr]; simpl; [reflexivity | now rewrite IHr].
Qed.

Lemma reverse_cons (c : ascii) (s : string) :
  reverse (String c s) = (reverse s ++ String c "")%string.
Proof. unfold reverse at 1. simpl. apply rev_append_app. Qed.

Lemma append_empty_r (s : string) : (s ++ "")%string = s.
Proof. induction s; simpl; congruence. Qed.

Lemma append_assoc (a b c : string) :
  ((a ++ b) ++ c)%string = (a ++ (b ++ c))%string.
Proof. induction a; simpl; congruence. Qed.

Lemma reverse_app (a b : string) :
  reverse (a ++ b) = (reverse b ++ reverse a)%string.
Proof.
  induction a as [|c a IH]; simpl.
  - change (reverse "") with "". now rewrite append_empty_r.
  - rewrite !reverse_cons, IH. apply append_assoc.
Qed.

Lemma reverse_involutive (s : string) : reverse (reverse s) = s.
Proof.
  induction s as [|c s IH]; [reflexivity|].
  rewrite reverse_cons, reverse_app, IH. reflexivity.
Qed.

Lemma reverse_empty (s : string) : reverse s = "" <-> s = "".
Proof.
  split; [|intros ->; reflexivity].
  intros H. rewrite <- (reverse_involutive s), H. reflexivity.
Qed.

(** [trimStart] on a concatenation. *)
Lemma trimStart_app (s t : string) :
  trimStart (s ++ t)
  = if String.eqb (trimStart s) "" then trimStart t
    else (trimStart s ++ t)%string.
Proof.
  induction s as [|c s IH]; simpl; [reflexivity|].
  destruct (isWhiteSpace c); [exact IH | reflexivity].
Qed.

Lemma trimStart_idem (s : string) : trimStart (trimStart s) = trimStart s.
Proof.
  induction s as [|c s IH]; simpl; [reflexivity|].
  destruct (isWhiteSpace c) eqn:E; [exact IH|]. simpl. now rewrite E.
Qed.

(** A string of white space alone stays one when reversed. *)
Lemma trimStart_reverse_empty (s : string) :
  trimStart (reverse s) = "" <-> trimStart s = "".
Proof.
  induction s as [|c s IH]; [tauto|].
  rewrite reverse_cons, trimStart_app. simpl.
  destruct (String.eqb (trimStart (reverse s)) "") eqn:E.
  - apply String.eqb_eq in E. apply (proj1 IH) in E.
    destruct (isWhiteSpace c); [tauto|]. split; discriminate.
  - apply String.eqb_neq in E.
    destruct (isWhiteSpace c).
    + rewrite <- IH. split; [|tauto].
      destruct (trimStart (reverse s)); [congruence | discriminate].
    + split; [|discriminate].
      destruct (trimStart (reverse s)); [congruence | discriminate].
Qed.

Lemma trimEnd_empty (s : string) : trimEnd s = "" <-> trimStart s = "".
Proof.
  unfold trimEnd. rewrite reverse_empty. apply trimStart_reverse_empty.
Qed.

(** [trim] gives the empty string exactly on white space. *)
Lemma trim_empty (s : string) : trim s = "" <-> trimStart s = "".
Proof. unfold trim. now rewrite trimEnd_empty, trimStart_idem. Qed.

(** [trimEnd], read from the front. *)
Lemma trimEnd_cons (c : ascii) (s : string) :
  trimEnd (String c s)
  = if String.eqb (trimStart s) ""
    then (if isWhiteSpace c then "" else String c "")
    else String c (trimEnd s).
Proof.
  unfold trimEnd. rewrite reverse_cons, trimStart_app.
  destruct (String.eqb (trimStart (reverse s)) "") eqn:E.
  - apply String.eqb_eq in E.
    apply (proj1 (trimStart_reverse_empty s)) in E.
    rewrite E. simpl. now destruct (isWhiteSpace c).
  - apply String.eqb_neq in E.
    assert (E' : trimStart s <> "")
      by (intros H; apply E; now apply trimStart_reverse_empty).
    apply String.eqb_neq in E'. rewrite E'.
    rewrite reverse_app. reflexivity.
Qed.

Lemma trimStart_trimEnd_empty (s : string) :
  trimStart (trimEnd s) = "" <-> trimStart s = "".
Proof.
  split.
  - intros H. apply trimEnd_empty.
    unfold trimEnd in *.
    apply (proj1 (trimStart_reverse_empty _)) in H.
    rewrite trimStart_idem in H. now rewrite H.
  - intros H. apply (proj2 (trimEnd_empty s)) in H. now rewrite H.
Qed.

Lemma trimEnd_idem (s : string) : trimEnd (trimEnd s) = trimEnd s.
Proof.
  unfold trimEnd. now rewrite reverse_involutive, trimStart_idem.
Qed.

(** [trimEnd] leaves a first character that is not white space. *)
Lemma trimStart_trimEnd (s : string) :
  trimStart (trimEnd (trimStart s)) = trimEnd (trimStart s).
Proof.
  induction s as [|c s IH]; [reflexivity|]. simpl.
  destruct (isWhiteSpace c) eqn:E; [exact IH|].
  rewrite trimEnd_cons, E.
  destruct (String.eqb (trimStart s) ""); simpl; now rewrite E.
Qed.

Lemma trim_idem (s : string) : trim (trim s) = trim s.
Proof.
  unfold trim. now rewrite trimStart_trimEnd, trimEnd_idem.
Qed.

(** A trimmed string that is not empty starts with a character that is
    not white space. *)
Lemma trimmed_start (s : string) :
  trim s = s -> s <> "" -> trimStart s <> "".
Proof.
  intros H Hs E. apply (proj2 (trim_empty s)) in E. congruence.
Qed.

End TrimFacts.

Module SplitFacts.

Import JS Spec.

Lemma includes_comma (c : ascii) (s : string) :
  includes (String c s) "," = Ascii.eqb c "," || includes s ",".
Proof.
  cbn [includes startsWith]. destruct s; now rewrite andb_true_r.
Qed.

Lemma split_comma_nonempty (s : string) : split_comma s <> [].
Proof.
  destruct s as [|c s]; simpl; [discriminate|].
  destruct (Ascii.eqb c ","); [discriminate|].
  destruct (split_comma s); discriminate.
Qed.

Lemma split_comma_piece (t rest : string) :
  includes t "," = false ->
  split_comma (t ++ String "," rest) = t :: split_comma rest.
Proof.
  induction t as [|c t IH]; intros H.
  - reflexivity.
  - rewrite includes_comma in H. apply orb_false_elim in H.
    destruct H as [Hc Ht]. cbn [append split_comma]. rewrite Hc.
    now rewrite (IH Ht).
Qed.

Lemma split_comma_single (t : string) :
  includes t "," = false -> split_comma t = [t].
Proof.
  induction t as [|c t IH]; intros H; [reflexivity|].
  rewrite includes_comma in H. apply orb_false_elim in H.
  destruct H as [Hc Ht]. cbn [split_comma]. rewrite Hc.
  now rewrite (IH Ht).
Qed.

Lemma split_join (tags : list string) :
  tags <> [] ->
  Forall (fun t => includes t "," = false) tags ->
  split_comma (join_comma tags) = tags.
Proof.
  induction tags as [|t tags IH]; intros Hne H; [congruence|].
  inversion H as [|? ? Ht Htags]; subst.
  destruct tags as [|u tags].
  - simpl. now apply split_comma_single.
  - change (join_comma (t :: u :: tags))
      with (t ++ String "," (join_comma (u :: tags)))%string.
    rewrite split_comma_piece by assumption.
    f_equal. apply IH; [discriminate | assumption].
Qed.

End SplitFacts.

Module ParseTagsProps.

Import JS Spec TrimFacts SplitFacts.

Lemma cleanTag_parts (t : string) :
  cleanTag t = true <-> t <> "" /\ trim t = t /\ includes t "," = false.
Proof.
  unfold cleanTag, truthy_str.
  rewrite !andb_true_iff, !negb_true_iff, String.eqb_neq, String.eqb_eq.
  tauto.
Qed.

Lemma join_not_blank (t : string) (tags : list string) :
  cleanTag t = true -> trim (join_comma (t :: tags)) <> "".
Proof.
  intros H. apply cleanTag_parts in H. destruct H as (Hne & Htrim & _).
  pose proof (trimmed_start t Htrim Hne) as Hs.
  rewrite trim_empty.
  destruct tags as [|u tags].
  - exact Hs.
  - change (join_comma (t :: u :: tags))
      with (t ++ String "," (join_comma (u :: tags)))%string.
    rewrite trimStart_app.
    apply String.eqb_neq in Hs. rewrite Hs.
    apply String.eqb_neq in Hs.
    destruct (trimStart t); [congruence | discriminate].
Qed.

(** X13.  Tags that are not empty, carry no surrounding white space and no
    comma survive the trip through the text of the tags column: writing
    them joined by commas and parsing that text gives them back. *)
Theorem parseTags_reads_back_joined_tags (tags : list string) :
  forallb cleanTag tags = true ->
  DataLoader.parseTags (DataLoader.TagsString (join_comma tags)) = tags.
Proof.
  intros H. destruct tags as [|t tags]; [reflexivity|].
  pose proof H as H0. cbn [forallb] in H0. apply andb_true_iff in H0.
  destruct H0 as [Ht _].
  unfold DataLoader.parseTags.
  pose proof (join_not_blank t tags Ht) as Hb.
  unfold truthy_str at 1. apply String.eqb_neq in Hb. rewrite Hb.
  cbn [negb].
  rewrite forallb_forall in H.
  rewrite split_join.
  - assert (Hm : map trim (t :: tags) = t :: tags).
    { rewrite <- (map_id (t :: tags)) at 2. apply map_ext_in.
      intros a Ha. apply H in Ha. apply cleanTag_parts in Ha. tauto. }
    rewrite Hm. rewrite <- (ListFacts.filter_all (t :: tags)) at 2.
    apply filter_ext_in.
    intros a Ha. apply H in Ha. unfold cleanTag in Ha.
    apply andb_true_iff in Ha. destruct Ha as [Ha _].
    apply andb_true_iff in Ha. tauto.
  - discriminate.
  - apply Forall_forall. intros a Ha. apply H in Ha.
    apply cleanTag_parts in Ha. tauto.
Qed.

Lemma parseTags_reads_back_witness :
  DataLoader.parseTags
    (DataLoader.TagsString (join_comma ["organic"; "gift wrap"; "new"]))
  = ["organic"; "gift wrap"; "new"].
Proof.
  exact (parseTags_reads_back_joined_tags
           ["organic"; "gift wrap"; "new"] eq_refl).
Defined.

(** X14.  Whatever text the tags column holds, no tag that [parseTags] reads
    from it is empty or carries surrounding white space, and parsing
    white space alone gives no tag. *)
Theorem parseTags_yields_trimmed_nonempty_tags (s : string) :
  Forall (fun tag => tag <> "" /\ trim tag = tag)
    (DataLoader.parseTags (DataLoader.TagsString s))
  /\ (trimStart s = "" ->
      DataLoader.parseTags (DataLoader.TagsString s) = []).
Proof.
  unfold DataLoader.parseTags. split.
  - destruct (truthy_str (trim s)); [|constructor].
    apply Forall_forall. intros tag H. apply filter_In in H.
    destruct H as [Hin Ht]. split.
    + unfold truthy_str in Ht. apply negb_true_iff in Ht.
      now apply String.eqb_neq.
    + apply in_map_iff in Hin. destruct Hin as (piece & <- & _).
      apply trim_idem.
  - intros H. apply (proj2 (trim_empty s)) in H. now rewrite H.
Qed.

End ParseTagsProps.

Module ServiceProps.

Import JS Spec.

(** The statistics as sums, the empty list included. *)
Lemma calculateAggregateStats_sums (data : list Transaction) :
  TransactionService.calculateAggregateStats data
  = {| Stats.totalUnits :=
         TransactionService.reduce_sum (fun t => num_or (quantity t) 0) data;
       Stats.totalAmount :=
         TransactionService.reduce_sum
           (fun t =>
              num_or (TransactionService.opt_or (totalAmount t)
                        (finalAmount t)) 0) data;
       Stats.totalDiscount :=
         TransactionService.reduce_sum TransactionService.discountOf data;
       Stats.recordCount := Z.of_nat (List.length data) |}.
Proof. destruct data; reflexivity. Qed.

Lemma getTransactions_loaded (localeCompare : string -> string -> Z)
  (data : list Transaction) (p : Params.QueryParams) :
  let selected :=
    FilterService.applyFilters
      (SearchService.searchTransactions data
         (TransactionService.searchOrDefault (Params.search p)))
      (TransactionService.filtersOrDefault (Params.filters p)) in
  let sorted :=
    SortService.sortTransactions localeCompare selected
      (Some (SortService.orDefault "date" (Params.sortBy p)))
      (Some (SortService.orDefault "desc" (Params.sortOrder p))) in
  let result :=
    PaginationService.paginate sorted
      (PaginationService.orDefault 1 (Params.page p))
      (PaginationService.orDefault 10 (Params.pageSize p)) in
  TransactionService.getTransactions localeCompare (loadedWith data) p
  = Returned {| items := Paging.items result;
                pagination := Paging.pagination result;
                aggregateStats :=
                  TransactionService.calculateAggregateStats selected |}.
Proof. reflexivity. Qed.

(** X16.  The statistics of a response describe the whole selection, not the
    page: two requests with the same search term and filters get the
    same statistics and the same number of items whatever their sort
    field, direction, page and page size, and the record count of the
    statistics is the number of items of the pagination. *)
Theorem statistics_describe_the_whole_selection
  (localeCompare : string -> string -> Z) (data : list Transaction)
  (p : Params.QueryParams) (sortBy' sortOrder' : option string)
  (page' pageSize' : jsval) :
  let p' :=
    {| Params.search := Params.search p; Params.filters := Params.filters p;
       Params.sortBy := sortBy'; Params.sortOrder := sortOrder';
       Params.page := page'; Params.pageSize := pageSize' |} in
  exists r r',
    TransactionService.getTransactions localeCompare (loadedWith data) p
    = Returned r
    /\ TransactionService.getTransactions localeCompare (loadedWith data) p'
       = Returned r'
    /\ aggregateStats r = aggregateStats r'
    /\ Stats.recordCount (aggregateStats r)
       = Paging.totalItems (pagination r)
    /\ Paging.totalItems (pagination r') = Paging.totalItems (pagination r).
Proof.
  intros p'. eexists. eexists.
  split; [apply getTransactions_loaded|].
  split; [apply getTransactions_loaded|].
  cbn [aggregateStats pagination Params.search Params.filters p'
         Params.sortBy Params.sortOrder Params.page Params.pageSize].
  split; [reflexivity|].
  rewrite calculateAggregateStats_sums.
  unfold PaginationService.paginate.
  cbn [Paging.pagination Paging.totalItems Stats.recordCount].
  split; f_equal; apply Permutation_length.
  - apply SortProps.sortTransactions_perm.
  - eapply Permutation_trans;
      [apply Permutation_sym|]; apply SortProps.sortTransactions_perm.
Qed.

(** X17.  The loader reads its file once.  After [loadData], from any state
    of the cache, the cache holds the records it returned; a second
    [loadData] returns them again and leaves the cache as it is,
    whatever file and clock it is given; [getTransactions] answers
    every request instead of reporting that the data is not loaded;
    and after [clearCache] it reports just that, until the next
    [loadData], which reads its file. *)
Theorem loader_reads_the_file_once
  (clock clock' : nat -> Z) (c : DataLoader.Cache)
  (rows rows' : list DataLoader.Row)
  (localeCompare : string -> string -> Z) (p : Params.QueryParams) :
  let c1 := fst (DataLoader.loadData clock c rows) in
  let d1 := snd (DataLoader.loadData clock c rows) in
  DataLoader.getData c1 = Some d1
  /\ DataLoader.loadData clock' c1 rows' = (c1, d1)
  /\ (exists r,
        TransactionService.getTransactions localeCompare c1 p = Returned r)
  /\ returned
       (TransactionService.getTransactions localeCompare
          (DataLoader.clearCache c1) p) = None
  /\ snd (DataLoader.loadData clock' (DataLoader.clearCache c1) rows')
     = DataLoader.loadRows clock' 0 rows'.
Proof.
  cbv zeta. unfold DataLoader.loadData at 1 2 3 4 5 6.
  destruct c as [[d|] []]; cbn [DataLoader.isLoaded DataLoader.data fst snd];
    (split; [reflexivity|]); (split; [reflexivity|]);
    (split; [eexists; apply (getTransactions_loaded localeCompare _ p)|]);
    split; reflexivity.
Qed.

End ServiceProps.

Module RequestProps.

Import JS Spec.
Import ValidationMiddleware.

Lemma parseInt_truthy (v : jsval) (n : Z) :
  parseInt v = Some n -> 1 <= n -> truthy v = true.
Proof.
  destruct v as [| |k|s]; cbn [parseInt truthy]; try discriminate.
  - intros H H1. apply negb_true_iff, Z.eqb_neq. intros ->.
    change (parseInt_num 0) with (Some 0) in H. injection H as <-. lia.
  - destruct s; [|reflexivity].
    change (parseInt_str "") with (@None Z). discriminate.
Qed.

(** The pagination check of [validateParams] is that of
    [validatePagination] on the values that are truthy. *)
Lemma validateParams_isValid (p : Params.QueryParams) :
  Validators.isValid (TransactionServiceParams.validateParams p)
  = (negb (truthy (Params.search p))
     || SearchService.isValidSearchTerm (Params.search p))
    && SortService.isValidSort (Params.sortBy p) (Params.sortOrder p)
    && Validators.isValid
         (Validators.validatePagination
            (if truthy (Params.page p) then Params.page p else JUndefined)
            (if truthy (Params.pageSize p) then Params.pageSize p
             else JUndefined)).
Proof.
  unfold TransactionServiceParams.validateParams,
    TransactionServiceParams.parsedOr, Validators.validatePagination,
    Validators.validation, Validators.push.
  cbv zeta. cbn [Validators.isValid].
  destruct (truthy (Params.search p));
    destruct (SearchService.isValidSearchTerm (Params.search p));
    destruct (SortService.isValidSort (Params.sortBy p) (Params.sortOrder p));
    cbn [negb andb orb app];
    destruct (Params.page p) as [| |pn|ps] eqn:Ep;
    destruct (Params.pageSize p) as [| |sn|ss] eqn:Es;
    cbn [truthy Validators.isUndefined negb parseInt
           Validators.nanOrBelow1 js_gt orb];
    repeat match goal with
           | |- context [negb (?a =? 0)] =>
               destruct (a =? 0);
               cbn [negb Validators.isUndefined parseInt
                      Validators.nanOrBelow1 js_gt orb]
           | |- context [truthy_str ?b] =>
               destruct (truthy_str b);
               cbn [negb Validators.isUndefined parseInt
                      Validators.nanOrBelow1 js_gt orb]
           end;
    change (1 <? 1) with false; change (10 <? 1) with false;
    change (100 <? 10) with false; cbn [orb];
    repeat match goal with
           | |- context [if ?b then _ else _] => destruct b
           end; reflexivity.
Qed.

(** X18.  The service's own validation and the validators of the middleware:
    [validateParams] accepts a request exactly when its search term is
    falsy or valid, [isValidSort] accepts its sort parameters, and
    [validatePagination] accepts its page and page size once every
    falsy one of them is taken as absent.  So it lets a page of 0, of
    null or of the empty string pass, each of which
    [validatePagination] rejects. *)
Theorem validateParams_takes_falsy_pagination_as_absent
  (p : Params.QueryParams) :
  Validators.isValid (TransactionServiceParams.validateParams p)
  = (negb (truthy (Params.search p))
     || SearchService.isValidSearchTerm (Params.search p))
    && SortService.isValidSort (Params.sortBy p) (Params.sortOrder p)
    && Validators.isValid
         (Validators.validatePagination
            (if truthy (Params.page p) then Params.page p else JUndefined)
            (if truthy (Params.pageSize p) then Params.pageSize p
             else JUndefined))
  /\ forall v pageSize,
       truthy v = false -> v <> JUndefined ->
       Validators.isValid (Validators.validatePagination v pageSize) = false.
Proof.
  split; [exact (validateParams_isValid p)|].
  intros v pageSize Hv Hu.
  unfold Validators.validatePagination, Validators.validation,
    Validators.push. cbv zeta. cbn [Validators.isValid].
  destruct v as [| |n|s]; [congruence | | |];
    cbn [Validators.isUndefined negb parseInt Validators.nanOrBelow1].
  - destruct (negb (Validators.isUndefined pageSize)); [|reflexivity].
    destruct (_ || _); reflexivity.
  - cbn [truthy] in Hv. apply negb_false_iff, Z.eqb_eq in Hv. subst n.
    change (0 <? 1) with true. cbv iota.
    destruct (negb (Validators.isUndefined pageSize)); [|reflexivity].
    destruct (_ || _); reflexivity.
  - cbn [truthy] in Hv. destruct s; [|discriminate].
    change (parseInt_str "") with (@None Z).
    cbn [Validators.nanOrBelow1].
    destruct (negb (Validators.isUndefined pageSize)); [|reflexivity].
    destruct (_ || _); reflexivity.
Qed.

Lemma accepted_page (page pageSize : jsval) :
  Validators.isValid (Validators.validatePagination page pageSize) = true ->
  (page = JUndefined
   \/ exists n, parseInt page = Some n /\ 1 <= n)
  /\ (pageSize = JUndefined
      \/ exists n, parseInt pageSize = Some n /\ 1 <= n <= 100).
Proof.
  unfold Validators.validatePagination, Validators.validation,
    Validators.push. cbv zeta. cbn [Validators.isValid].
  intros H. split.
  - destruct page as [| |pn|ps]; [now left | | |]; right;
      cbn [Validators.isUndefined negb] in H.
    + cbn in H. destruct (negb (Validators.isUndefined pageSize));
        [destruct (_ || _)|]; discriminate.
    + destruct (parseInt (JNum pn)) as [n|] eqn:E;
        cbn [Validators.nanOrBelow1] in H.
      * destruct (n <? 1) eqn:En.
        -- destruct (negb (Validators.isUndefined pageSize));
             [destruct (_ || _)|]; discriminate.
        -- exists n. split; [reflexivity|]. apply Z.ltb_ge in En. lia.
      * destruct (negb (Validators.isUndefined pageSize));
          [destruct (_ || _)|]; discriminate.
    + destruct (parseInt (JStr ps)) as [n|] eqn:E;
        cbn [Validators.nanOrBelow1] in H.
      * destruct (n <? 1) eqn:En.
        -- destruct (negb (Validators.isUndefined pageSize));
             [destruct (_ || _)|]; discriminate.
        -- exists n. split; [reflexivity|]. apply Z.ltb_ge in En. lia.
      * destruct (negb (Validators.isUndefined pageSize));
          [destruct (_ || _)|]; discriminate.
  - destruct (if negb (Validators.isUndefined page) then _ else _)
      as [|e es] in H.
    + destruct pageSize as [| |sn|ss]; [now left | | |]; right;
        cbn [Validators.isUndefined negb] in H.
      * discriminate.
      * destruct (parseInt (JNum sn)) as [n|] eqn:E;
          cbn [Validators.nanOrBelow1 js_gt] in H; [|discriminate].
        destruct (n <? 1) eqn:En; [discriminate|].
        destruct (100 <? n) eqn:Em; [discriminate|].
        exists n. split; [reflexivity|].
        apply Z.ltb_ge in En. apply Z.ltb_ge in Em. lia.
      * destruct (parseInt (JStr ss)) as [n|] eqn:E;
          cbn [Validators.nanOrBelow1 js_gt] in H; [|discriminate].
        destruct (n <? 1) eqn:En; [discriminate|].
        destruct (100 <? n) eqn:Em; [discriminate|].
        exists n. split; [reflexivity|].
        apply Z.ltb_ge in En. apply Z.ltb_ge in Em. lia.
    + exfalso. destruct (negb (Validators.isUndefined pageSize));
        [destruct (_ || _)|]; discriminate.
Qed.

Lemma numericParam_accepted (v : jsval) (P : Z -> Prop) :
  (forall n, P n -> 1 <= n) ->
  (v = JUndefined \/ exists n, parseInt v = Some n /\ P n) ->
  exists w, TransactionController.numericParam v = Some w
            /\ (w = JUndefined \/ exists n, w = JNum n /\ P n).
Proof.
  intros HP [-> | (n & Hn & Hr)].
  - exists JUndefined. split; [reflexivity | now left].
  - exists (JNum n). unfold TransactionController.numericParam.
    rewrite (parseInt_truthy v n Hn (HP n Hr)), Hn.
    split; [reflexivity | right; now exists n].
Qed.

Lemma numbers_in_range_valid (w1 w2 : jsval) :
  (w1 = JUndefined \/ exists n, w1 = JNum n /\ 1 <= n) ->
  (w2 = JUndefined \/ exists n, w2 = JNum n /\ 1 <= n <= 100) ->
  Validators.isValid
    (Validators.validatePagination
       (if truthy w1 then w1 else JUndefined)
       (if truthy w2 then w2 else JUndefined)) = negb (isInfinite w1).
Proof.
  intros H1 H2.
  assert (E2 : (if truthy w2 then w2 else JUndefined) = JUndefined
               \/ exists m, (if truthy w2 then w2 else JUndefined) = JNum m
                            /\ parseInt (JNum m) = Some m /\ 1 <= m <= 100).
  { destruct H2 as [-> | (m & -> & Hm)]; [now left|]. right. exists m.
    cbn [truthy parseInt].
    replace (m =? 0) with false by (symmetry; apply Z.eqb_neq; lia).
    split; [reflexivity|]. split; [|assumption].
    apply NumberFacts.parseInt_num_small.
    assert (100 < 10 ^ 21) by reflexivity. lia. }
  assert (G : forall v,
             Validators.isValid
               (Validators.validatePagination v
                  (if truthy w2 then w2 else JUndefined))
             = orb (Validators.isUndefined v)
                 (negb (Validators.nanOrBelow1 (parseInt v)))).
  { intros v. unfold Validators.validatePagination, Validators.validation,
      Validators.push. cbv zeta. cbn [Validators.isValid].
    destruct E2 as [-> | (m & -> & -> & Hm)];
      cbn [Validators.isUndefined negb Validators.nanOrBelow1 js_gt].
    - destruct (Validators.isUndefined v); cbn [negb orb]; [reflexivity|].
      destruct (Validators.nanOrBelow1 (parseInt v)); reflexivity.
    - replace (m <? 1) with false by (symmetry; apply Z.ltb_ge; lia).
      replace (100 <? m) with false by (symmetry; apply Z.ltb_ge; lia).
      cbn [orb].
      destruct (Validators.isUndefined v); cbn [negb orb]; [reflexivity|].
      destruct (Validators.nanOrBelow1 (parseInt v)); reflexivity. }
  rewrite G. destruct H1 as [-> | (n & -> & Hn)]; [reflexivity|].
  cbn [truthy isInfinite].
  replace (n =? 0) with false by (symmetry; apply Z.eqb_neq; lia).
  cbn [negb Validators.isUndefined orb parseInt]. f_equal.
  rewrite Z.abs_eq by lia.
  destruct (Z.leb_spec (2 ^ 1024) n) as [Hi | Hi].
  - replace (parseInt_num n) with (@None Z); [reflexivity|].
    symmetry. apply NumberFacts.parseInt_num_none. lia.
  - destruct (parseInt_num n) as [k|] eqn:E.
    + cbn [Validators.nanOrBelow1]. apply Z.ltb_ge.
      pose proof (NumberFacts.parseInt_num_below_1 n k E). lia.
    + apply NumberFacts.parseInt_num_none in E. lia.
Qed.

Lemma middleware_accepts (q : Query) :
  validateTransactionQuery q = NextOk ->
  Validators.isValid
    (Validators.validatePagination (page q) (pageSize q)) = true
  /\ Validators.isValid
       (Validators.validateSort (sortBy q) (sortOrder q)) = true
  /\ filters q <> FiltersBadJson.
Proof.
  unfold validateTransactionQuery. cbv zeta.
  destruct (Validators.isValid (Validators.validatePagination _ _));
    cbn [negb]; [|discriminate].
  destruct (Validators.isValid (Validators.validateSort _ _));
    cbn [negb]; [|discriminate].
  destruct (filters q); try discriminate; intros _; repeat split;
    discriminate.
Qed.

(** X19.  A request that the middleware lets through reaches the service:
    the controller raises no error of its own and hands over the sort
    parameters as they are, filters (the empty criteria when the
    request has none), and a page and a page size that are absent or
    numbers in range, the page at least 1 and the page size from 1 to
    100.  The service's own [validateParams] accepts these parameters
    exactly when the search term is falsy or valid and the page is not
    an infinity: a page of more digits than a Number holds passes the
    middleware, reaches the service as [Infinity], and is rejected by
    [validateParams]. *)
Theorem accepted_request_reaches_the_service (search : jsval) (q : Query) :
  validateTransactionQuery q = NextOk ->
  exists p,
    TransactionController.serviceParams search q = Some (Returned p)
    /\ Params.search p = search
    /\ Params.sortBy p = sortBy q
    /\ Params.sortOrder p = sortOrder q
    /\ Params.filters p <> None
    /\ (Params.page p = JUndefined
        \/ exists n, Params.page p = JNum n /\ 1 <= n)
    /\ (Params.pageSize p = JUndefined
        \/ exists n, Params.pageSize p = JNum n /\ 1 <= n <= 100)
    /\ Validators.isValid (TransactionServiceParams.validateParams p)
       = (negb (truthy search) || SearchService.isValidSearchTerm search)
         && negb (isInfinite (Params.page p)).
Proof.
  intros H. apply middleware_accepts in H. destruct H as (Hp & Hs & Hf).
  apply accepted_page in Hp. destruct Hp as [Hpage Hsize].
  unfold TransactionController.serviceParams.
  destruct (numericParam_accepted (page q) (fun n => 1 <= n)
              (fun n H => H) Hpage) as (w1 & E1 & Hw1).
  destruct (numericParam_accepted (pageSize q) (fun n => 1 <= n <= 100)
              (fun n H => proj1 H) Hsize) as (w2 & E2 & Hw2).
  rewrite E1, E2.
  destruct (filters q) as [| |f] eqn:Ef; [|congruence|];
    (eexists; split; [reflexivity|]);
    cbn [Params.search Params.sortBy Params.sortOrder Params.filters
           Params.page Params.pageSize];
    (split; [reflexivity|]); (split; [reflexivity|]);
    (split; [reflexivity|]); (split; [discriminate|]);
    (split; [assumption|]); (split; [assumption|]);
    rewrite validateParams_isValid;
    cbn [Params.search Params.sortBy Params.sortOrder Params.filters
           Params.page Params.pageSize];
    rewrite <- SortMore.isValid_validateSort, Hs,
      (numbers_in_range_valid w1 w2 Hw1 Hw2);
    now rewrite !andb_true_r.
Qed.

Lemma accepted_request_witness :
  exists p,
    TransactionController.serviceParams (JStr "ann") Fixture.secondPage
    = Some (Returned p)
    /\ Params.search p = JStr "ann"
    /\ Params.sortBy p = sortBy Fixture.secondPage
    /\ Params.sortOrder p = sortOrder Fixture.secondPage
    /\ Params.filters p <> None
    /\ (Params.page p = JUndefined
        \/ exists n, Params.page p = JNum n /\ 1 <= n)
    /\ (Params.pageSize p = JUndefined
        \/ exists n, Params.pageSize p = JNum n /\ 1 <= n <= 100)
    /\ Validators.isValid (TransactionServiceParams.validateParams p)
       = (negb (truthy (JStr "ann"))
          || SearchService.isValidSearchTerm (JStr "ann"))
         && negb (isInfinite (Params.page p)).
Proof.
  exact (accepted_request_reaches_the_service (JStr "ann")
           Fixture.secondPage eq_refl).
Defined.

End RequestProps.

Module RangeProps.

Import JS Spec.

Lemma validateFilters_accepts (f : Filters.FilterCriteria) :
  Validators.isValid (Validators.validateFilters f) = true ->
  (forall r, Filters.ageRange f = Some r -> Validators.ageRangeErrors r = [])
  /\ (forall r, Filters.dateRange f = Some r ->
                Validators.dateRangeErrors r = []).
Proof.
  unfold Validators.validateFilters, Validators.validation. cbv zeta.
  cbn [Validators.isValid]. intros H.
  assert (E : forall l : list string, negb (nonEmpty l) = true -> l = [])
    by (intros [|x l]; [reflexivity | discriminate]).
  apply E in H.
  destruct (Filters.ageRange f) as [a|], (Filters.dateRange f) as [d|];
    cbn [app] in H.
  - apply app_eq_nil in H. destruct H as [Ha Hd].
    split; intros r [= <-]; assumption.
  - split; [intros r [= <-]; assumption | discriminate].
  - split; [discriminate | intros r [= <-]; assumption].
  - split; discriminate.
Qed.

(** X20.  What [validateFilters] accepts can be met: an accepted age range
    holds some age that is not negative, and an accepted date range
    with both bounds holds some date, so that a record of that age or
    that date passes the range stage of [applyFilters]. *)
Theorem accepted_ranges_can_be_met (f : Filters.FilterCriteria) :
  Validators.isValid (Validators.validateFilters f) = true ->
  (forall r, Filters.ageRange f = Some r ->
             exists a, 0 <= a
                       /\ forall t, age t = Some a ->
                                    FilterService.ageInRange r t = true)
  /\ (forall r s e,
        Filters.dateRange f = Some r ->
        Filters.start r = Some s -> Filters.end_ r = Some e ->
        exists d, forall t, date t = d ->
                            FilterService.dateInRange r t = true).
Proof.
  intros H. apply validateFilters_accepts in H. destruct H as [Ha Hd].
  split.
  - intros r Hr. specialize (Ha r Hr). revert Ha.
    unfold Validators.ageRangeErrors, Validators.push,
      FilterService.ageInRange. cbv zeta.
    destruct (Filters.min r) as [mn|], (Filters.max r) as [mx|].
    + destruct (mx <? mn) eqn:E1; [destruct (mn <? 0), (mx <? 0);
                                   discriminate|].
      destruct (mn <? 0) eqn:E2; [destruct (mx <? 0); discriminate|].
      intros _. apply Z.ltb_ge in E1. apply Z.ltb_ge in E2.
      exists mn. split; [assumption|]. intros t ->.
      unfold js_le, js_ge. apply andb_true_iff. split; apply Z.leb_le; lia.
    + destruct (mn <? 0) eqn:E2; [discriminate|].
      intros _. apply Z.ltb_ge in E2.
      exists mn. split; [assumption|]. intros t ->.
      unfold js_ge. apply Z.leb_le. lia.
    + destruct (mx <? 0) eqn:E2; [discriminate|].
      intros _. apply Z.ltb_ge in E2.
      exists 0. split; [lia|]. intros t ->.
      unfold js_le, js_ge. apply Z.leb_le. lia.
    + intros _. exists 0. split; [lia | reflexivity].
  - intros r s e Hr Hs He. specialize (Hd r Hr). revert Hd.
    unfold Validators.dateRangeErrors, Validators.push,
      FilterService.dateInRange. cbv zeta. rewrite Hs, He.
    destruct s as [ts|], e as [te|]; cbn [getTime js_gt app];
      try (destruct (_ <? _); discriminate); try discriminate.
    destruct (te <? ts) eqn:E; [discriminate|]. intros _.
    apply Z.ltb_ge in E. exists ts. intros t ->.
    unfold js_le, js_ge. apply andb_true_iff. split; apply Z.leb_le; lia.
Qed.

Lemma accepted_ranges_witness :
  (forall r, Filters.ageRange Fixture.adultsOfJanuary = Some r ->
             exists a, 0 <= a
                       /\ forall t, age t = Some a ->
                                    FilterService.ageInRange r t = true)
  /\ (forall r s e,
        Filters.dateRange Fixture.adultsOfJanuary = Some r ->
        Filters.start r = Some s -> Filters.end_ r = Some e ->
        exists d, forall t, date t = d ->
                            FilterService.dateInRange r t = true).
Proof.
  exact (accepted_ranges_can_be_met Fixture.adultsOfJanuary eq_refl).
Defined.

Lemma filter_none {A} (f : A -> bool) (l : list A) :
  (forall x, In x l -> f x = false) -> filter f l = [].
Proof.
  induction l as [|x l IH]; intros H; [reflexivity|]. simpl.
  rewrite (H x (or_introl eq_refl)). apply IH. intros y Hy. apply H.
  now right.
Qed.

(** X21.  A date range with one bound alone is not checked: when that bound
    does not parse, [validateFilters] reports nothing for the range and
    accepts criteria without an age range, and [applyFilters] with
    these criteria returns no record, whatever the data. *)
Theorem lone_invalid_date_is_accepted_and_selects_nothing
  (f : Filters.FilterCriteria) (r : Filters.DateRange)
  (data : list Transaction) :
  Filters.dateRange f = Some r ->
  (Filters.start r = Some InvalidDate /\ Filters.end_ r = None)
  \/ (Filters.start r = None /\ Filters.end_ r = Some InvalidDate) ->
  Validators.dateRangeErrors r = []
  /\ (Filters.ageRange f = None ->
      Validators.isValid (Validators.validateFilters f) = true)
  /\ FilterService.applyFilters data (Some f) = [].
Proof.
  intros Hr Hb.
  assert (He : Validators.dateRangeErrors r = []).
  { unfold Validators.dateRangeErrors.
    destruct Hb as [[H1 H2] | [H1 H2]]; rewrite ?H1, ?H2; reflexivity. }
  split; [assumption|]. split.
  - intros Ha. unfold Validators.validateFilters. cbv zeta.
    rewrite Ha, Hr, He. reflexivity.
  - rewrite FilterProps.applyFilters_filter. apply filter_none.
    intros t _. unfold passes. rewrite Hr.
    replace (FilterService.dateInRange r t) with false.
    + apply andb_false_r.
    + unfold FilterService.dateInRange.
      destruct Hb as [[H1 H2] | [H1 H2]]; rewrite ?H1, ?H2; reflexivity.
Qed.

Lemma lone_invalid_date_witness :
  Validators.dateRangeErrors
    {| Filters.start := Some InvalidDate; Filters.end_ := None |} = []
  /\ (Filters.ageRange Fixture.sinceInvalidDate = None ->
      Validators.isValid (Validators.validateFilters Fixture.sinceInvalidDate)
      = true)
  /\ FilterService.applyFilters Fixture.sampleTransactions
       (Some Fixture.sinceInvalidDate) = [].
Proof.
  exact (lone_invalid_date_is_accepted_and_selects_nothing
           Fixture.sinceInvalidDate
           {| Filters.start := Some InvalidDate; Filters.end_ := None |}
           Fixture.sampleTransactions eq_refl
           (or_introl (conj eq_refl eq_refl))).
Defined.

End RangeProps.

Module IndexedOptionsProps.

Import JS Spec ListFacts.
Import TransactionServiceMongo.

Lemma nonEmptyStrings_distinct_In (values : list string) (v : string) :
  In v (nonEmptyStrings (distinct values)) <-> v <> "" /\ In v values.
Proof.
  unfold nonEmptyStrings, distinct.
  rewrite filter_In, FilterOptionsMore.add_all_In.
  unfold truthy_str. rewrite negb_true_iff, String.eqb_neq.
  simpl. tauto.
Qed.

Lemma nonEmptyStrings_distinct_NoDup (values : list string) :
  NoDup (nonEmptyStrings (distinct values)).
Proof.
  apply NoDup_filter, FilterOptionsMore.add_all_NoDup. constructor.
Qed.

Lemma scalar_options_agree (field : Transaction -> string)
  (selected : list Transaction) (options : list string) (v : string) :
  OptionsOf (fun t => [field t]) false selected options ->
  In v (nonEmptyStrings (distinct (map field selected))) <-> In v options.
Proof.
  intros (H & _). rewrite nonEmptyStrings_distinct_In, H, in_map_iff.
  split.
  - intros (Hv & t & <- & Ht). split; [now right|].
    exists t. split; [assumption | now left].
  - intros ([Hv | Hv] & t & Ht & [<- | []]); [discriminate|].
    split; [assumption|]. now exists t.
Qed.

(** The accumulators [$min] and [$max] bound every value they have
    seen. *)
Lemma accumulate_bounds (pick : Z -> Z -> Z) (R : Z -> Z -> Prop)
  (f : Transaction -> option Z) :
  (forall a, R a a) ->
  (forall a b c, R a b -> R b c -> R a c) ->
  (forall a v, R (pick a v) a /\ R (pick a v) v) ->
  forall docs t x, In t docs -> f t = Some x ->
                   exists m, accumulate pick f docs = Some m /\ R m x.
Proof.
  intros Hrefl Htrans Hpick. unfold accumulate.
  set (step := fun (acc : option Z) doc =>
                 match acc, f doc with
                 | Some a, Some v => Some (pick a v)
                 | None, Some v => Some v
                 | _, None => acc
                 end).
  assert (Hacc : forall docs a,
             exists m, fold_left step docs (Some a) = Some m /\ R m a).
  { induction docs as [|d docs IH]; intros a; cbn [fold_left].
    - exists a. split; [reflexivity | apply Hrefl].
    - unfold step at 2. destruct (f d) as [v|].
      + destruct (IH (pick a v)) as (m & E & Hm). exists m.
        split; [assumption|]. eapply Htrans; [exact Hm | apply Hpick].
      + apply IH. }
  intros docs. generalize (@None Z) as acc.
  induction docs as [|d docs IH]; intros acc t x [] Hx.
  - subst d. cbn [fold_left]. unfold step at 2. rewrite Hx.
    destruct acc as [a|].
    + destruct (Hacc docs (pick a x)) as (m & E & Hm). exists m.
      split; [assumption|]. eapply Htrans; [exact Hm | apply Hpick].
    + apply Hacc.
  - cbn [fold_left]. now apply IH with (t := t).
Qed.

Lemma blankSearch_term (v : jsval) :
  blankSearch v = true ->
  exists s, TransactionService.searchOrDefault v = JStr s
            /\ String.eqb (trim s) "" = true.
Proof.
  destruct v as [| |n|s]; try discriminate; intros H.
  - now exists "".
  - now exists s.
Qed.

(** X22.  The options of the indexed backend are those of the selection.  For
    a request with a blank search term whose age bounds the backend
    applies and whose dates parse, [getFilterOptions] of the indexed
    backend lists, for each of the five fields, the values that
    [getFilterOptions] of the filter service lists for the records that
    pass the filters, the empty tag excepted, each once; and the age
    range it reports holds the age of every such record. *)
Theorem indexed_options_are_those_of_the_selection
  (db : Engine) (data : list Transaction) (p : Params.QueryParams) :
  blankSearch (Params.search p) = true ->
  ageBoundsApplied (criteriaOf p) = true ->
  castable (buildFilterQuery (criteriaOf p)) = true ->
  exists o,
    TransactionServiceMongo.getFilterOptions db data p = Some o
    /\ (forall v,
          let a := FilterService.getFilterOptions (matching data p) in
          (In v (Options.customerRegion o) <-> In v (FilterService.regions a))
          /\ (In v (Options.gender o) <-> In v (FilterService.genders a))
          /\ (In v (Options.productCategory o)
              <-> In v (FilterService.categories a))
          /\ (In v (Options.paymentMethod o)
              <-> In v (FilterService.paymentMethods a))
          /\ (In v (Options.tags o)
              <-> v <> "" /\ In v (FilterService.optionTags a)))
    /\ NoDup (Options.customerRegion o) /\ NoDup (Options.gender o)
    /\ NoDup (Options.productCategory o) /\ NoDup (Options.paymentMethod o)
    /\ NoDup (Options.tags o)
    /\ (forall t x, In t (matching data p) -> age t = Some x ->
                    Options.min (Options.ageRange o) <= x
                                 <= Options.max (Options.ageRange o)).
Proof.
  intros Hs Hage Hcast.
  destruct (blankSearch_term _ Hs) as (s & Es & Hblank).
  unfold TransactionServiceMongo.getFilterOptions.
  change (match Params.filters p with
          | Some f => f
          | None => Filters.empty
          end) with (criteriaOf p).
  rewrite Es, Hcast. cbn [negb]. cbv zeta.
  rewrite (BackendProps.matched_eq db data p s Hblank Hage).
  eexists. split; [reflexivity|].
  cbn [Options.customerRegion Options.gender Options.productCategory
         Options.tags Options.paymentMethod Options.ageRange].
  destruct (FilterOptionsMore.getFilterOptions_fields (matching data p))
    as (H1 & H2 & H3 & H4 & H5). cbv zeta in H1, H2, H3, H4, H5.
  split.
  { intros v. cbv zeta.
    split; [now apply scalar_options_agree|].
    split; [now apply scalar_options_agree|].
    split; [now apply scalar_options_agree|].
    split; [now apply scalar_options_agree|].
    rewrite nonEmptyStrings_distinct_In. destruct H4 as (H4 & _).
    rewrite H4, in_flat_map. unfold tagsOf.
    split; [intros (Hv & H); split; [assumption|]; split; [now left|]
           | intros (Hv & _ & H); split; [assumption|]]; exact H. }
  repeat (split; [apply nonEmptyStrings_distinct_NoDup|]).
  intros t x Ht Hx.
  destruct (matching data p) as [|r rest] eqn:Em; [destruct Ht|].
  cbn [nonEmpty Options.min Options.max].
  destruct (accumulate_bounds Z.min Z.le age Z.le_refl Z.le_trans
              (fun a v => conj (Z.le_min_l a v) (Z.le_min_r a v))
              (r :: rest) t x Ht Hx) as (m & -> & Hm).
  destruct (accumulate_bounds Z.max Z.ge age)
    with (docs := r :: rest) (t := t) (x := x) as (M & -> & HM);
    try assumption; try (intros; lia).
  unfold num_or. destruct (m =? 0) eqn:E1, (M =? 0) eqn:E2;
    rewrite ?Z.eqb_eq in *; lia.
Qed.

Lemma indexed_options_witness :
  exists o,
    TransactionServiceMongo.getFilterOptions Fixture.engine
      Fixture.sampleTransactions Fixture.northByQuantity = Some o
    /\ (forall v,
          let a :=
            FilterService.getFilterOptions
              (matching Fixture.sampleTransactions Fixture.northByQuantity) in
          (In v (Options.customerRegion o) <-> In v (FilterService.regions a))
          /\ (In v (Options.gender o) <-> In v (FilterService.genders a))
          /\ (In v (Options.productCategory o)
              <-> In v (FilterService.categories a))
          /\ (In v (Options.paymentMethod o)
              <-> In v (FilterService.paymentMethods a))
          /\ (In v (Options.tags o)
              <-> v <> "" /\ In v (FilterService.optionTags a)))
    /\ NoDup (Options.customerRegion o) /\ NoDup (Options.gender o)
    /\ NoDup (Options.productCategory o) /\ NoDup (Options.paymentMethod o)
    /\ NoDup (Options.tags o)
    /\ (forall t x,
          In t (matching Fixture.sampleTransactions Fixture.northByQuantity) ->
          age t = Some x ->
          Options.min (Options.ageRange o) <= x
                       <= Options.max (Options.ageRange o)).
Proof.
  exact (indexed_options_are_those_of_the_selection Fixture.engine
           Fixture.sampleTransactions Fixture.northByQuantity
           eq_refl eq_refl eq_refl).
Defined.

End IndexedOptionsProps.

Module IndexedFilterProps.

Import JS Spec ListFacts.
Import TransactionServiceMongo.

Lemma age_match_weak (f : Filters.FilterCriteria) (r : Transaction) :
  match Filters.ageRange f with
  | Some rg => FilterService.ageInRange rg r
  | None => true
  end = true ->
  matchGte (q_age_gte (buildFilterQuery f)) (age r)
    (isSome (q_age_gte (buildFilterQuery f)))
  && matchLte (q_age_lte (buildFilterQuery f)) (age r)
       (isSome (q_age_lte (buildFilterQuery f))) = true.
Proof.
  unfold buildFilterQuery, FilterService.ageInRange.
  cbn [q_age_gte q_age_lte].
  destruct (Filters.ageRange f) as [[mn mx]|]; [|reflexivity].
  cbn [Filters.min Filters.max].
  destruct mn as [mn|], mx as [mx|]; intros H;
    repeat match goal with
           | |- context [if ?b then _ else _] => destruct b
           end;
    cbn [isSome matchGte matchLte]; try reflexivity; try assumption;
    try (apply andb_true_iff in H; destruct H as [H1 H2];
         rewrite ?H1, ?H2; reflexivity);
    rewrite H; reflexivity.
Qed.

Lemma passes_implies_matchFilter (f : Filters.FilterCriteria)
  (r : Transaction) :
  passes f r = true -> matchFilter (buildFilterQuery f) r = true.
Proof.
  unfold passes, matchFilter.
  rewrite !BackendProps.multi_matchIn, BackendProps.tags_matchInArray,
    (BackendProps.date_match f r).
  cbn [buildFilterQuery q_customerRegion q_gender q_productCategory q_tags
         q_paymentMethod].
  rewrite !andb_true_iff.
  intros ((((((H1 & H2) & H3) & H4) & H5) & H6) & H7 & H8).
  apply age_match_weak in H3. apply andb_true_iff in H3.
  tauto.
Qed.

Lemma widest_query (f : Filters.FilterCriteria) :
  widestAgeRange f = true ->
  buildFilterQuery f = buildFilterQuery (withoutAgeRange f).
Proof.
  unfold widestAgeRange, buildFilterQuery, withoutAgeRange.
  cbn [Filters.customerRegion Filters.gender Filters.ageRange
         Filters.productCategory Filters.tags Filters.paymentMethod
         Filters.dateRange].
  destruct (Filters.ageRange f) as [[mn mx]|]; [|reflexivity].
  cbn [Filters.min Filters.max].
  destruct mn as [mn|], mx as [mx|]; rewrite ?andb_true_iff;
    intros H; try destruct H as [H1 H2];
    repeat match goal with
           | H : (_ <=? _) = true |- _ => apply Z.leb_le in H
           end;
    repeat match goal with
           | |- context [?a <? ?b] =>
               replace (a <? b) with false by (symmetry; apply Z.ltb_ge; lia)
           end; reflexivity.
Qed.

(** X23.  The query of the indexed backend is never stricter than the filters
    of the array backend: every record that [applyFilters] keeps
    matches the query of [buildFilterQuery], so that applying the
    filters to the matched documents gives what they give on the whole
    data; and the two select the same records when the backend applies
    the age bounds. *)
Theorem indexed_query_keeps_what_the_filters_keep
  (db : Engine) (f : Filters.FilterCriteria) (data : list Transaction) :
  let matched := filter (matches db (QFilter (buildFilterQuery f))) data in
  FilterService.applyFilters matched (Some f)
  = FilterService.applyFilters data (Some f)
  /\ Subsequence (FilterService.applyFilters data (Some f)) matched
  /\ (ageBoundsApplied f = true ->
      matched = FilterService.applyFilters data (Some f)).
Proof.
  intros matched. subst matched. cbn [matches].
  rewrite !FilterProps.applyFilters_filter.
  assert (E : filter (passes f)
                (filter (matchFilter (buildFilterQuery f)) data)
              = filter (passes f) data).
  { rewrite filter_filter. apply filter_ext. intros t.
    destruct (passes f t) eqn:Ep; [|apply andb_false_r].
    now rewrite (passes_implies_matchFilter f t Ep). }
  split; [exact E|]. split.
  - rewrite <- E. apply filter_Subsequence.
  - intros H. apply filter_ext. intros t.
    symmetry. now apply BackendProps.passes_matchFilter.
Qed.

(** X24.  An age range at least as wide as 0 to 100 is no filter in the
    indexed backend: its query is the query of the criteria without the
    age range, and it matches the records that [applyFilters] keeps
    for those, a record with no age or an age above 100 included. *)
Theorem indexed_query_drops_the_widest_age_range
  (db : Engine) (f : Filters.FilterCriteria) (data : list Transaction) :
  widestAgeRange f = true ->
  buildFilterQuery f = buildFilterQuery (withoutAgeRange f)
  /\ filter (matches db (QFilter (buildFilterQuery f))) data
     = FilterService.applyFilters data (Some (withoutAgeRange f)).
Proof.
  intros H. split; [now apply widest_query|].
  rewrite (widest_query f H), FilterProps.applyFilters_filter.
  cbn [matches]. apply filter_ext. intros t. symmetry.
  now apply BackendProps.passes_matchFilter.
Qed.

Lemma indexed_query_widest_witness :
  buildFilterQuery Fixture.anyAge
  = buildFilterQuery (withoutAgeRange Fixture.anyAge)
  /\ filter (matches Fixture.engine
              (QFilter (buildFilterQuery Fixture.anyAge)))
       Fixture.sampleTransactions
     = FilterService.applyFilters Fixture.sampleTransactions
         (Some (withoutAgeRange Fixture.anyAge)).
Proof.
  exact (indexed_query_drops_the_widest_age_range Fixture.engine
           Fixture.anyAge Fixture.sampleTransactions eq_refl).
Defined.

End IndexedFilterProps.

Module IndexedSearchProps.

Import JS Spec ListFacts StringFacts.
Import TransactionServiceMongo.

Lemma toLowerCase_app (a b : string) :
  toLowerCase (a ++ b) = (toLowerCase a ++ toLowerCase b)%string.
Proof. induction a as [|c a IH]; simpl; congruence. Qed.

Lemma lower_ascii_idem (c : ascii) :
  lower_ascii (lower_ascii c) = lower_ascii c.
Proof. destruct c as [[] [] [] [] [] [] [] []]; reflexivity. Qed.

Lemma toLowerCase_idem (s : string) :
  toLowerCase (toLowerCase s) = toLowerCase s.
Proof.
  induction s as [|c s IH]; simpl; [reflexivity|].
  now rewrite lower_ascii_idem, IH.
Qed.

(** A substring stays one when both strings are lower-cased. *)
Lemma includes_lower (s t : string) :
  includes s t = true -> includes (toLowerCase s) (toLowerCase t) = true.
Proof.
  rewrite !includes_spec. intros (pre & post & ->).
  exists (toLowerCase pre), (toLowerCase post).
  now rewrite !toLowerCase_app.
Qed.

Lemma matchesTerm_matchSearch (db : Engine) (term : string)
  (t : Transaction) :
  (forall s, regexTest db (trim term) s
             = includes (toLowerCase s) (toLowerCase (trim term))) ->
  trim term <> "" ->
  SearchService.matchesTerm (toLowerCase (trim term)) t = true ->
  matchSearch db (Some (trim term)) t = true.
Proof.
  intros Hdb Hne. unfold SearchService.matchesTerm, matchSearch. cbv zeta.
  rewrite !Hdb.
  assert (Hl : toLowerCase (trim term) <> "")
    by (intros E; apply Hne; now apply toLowerCase_empty).
  intros H. apply orb_true_iff in H. destruct H as [H | H].
  - destruct (customerName t) as [n|]; cbn [str_or_empty] in H.
    + rewrite Hdb, H. reflexivity.
    + cbn [toLowerCase] in H. now rewrite includes_empty in H.
  - destruct (phoneNumber t) as [n|]; cbn [str_or_empty] in H.
    + apply includes_lower in H. rewrite toLowerCase_idem in H.
      rewrite (Hdb n), H. now rewrite orb_true_r.
    + now rewrite includes_empty in H.
Qed.

(** X25.  The search of the indexed backend is never narrower than that of
    the array backend.  When the store matches the trimmed term as a
    case-insensitive substring, which it does for a term without
    pattern characters, every record that [searchTransactions] keeps
    matches the query of [buildSearchQuery]; that query looks at the
    customer id, the product name and the transaction id as well. *)
Theorem indexed_search_keeps_what_the_array_search_keeps
  (db : Engine) (term : string) (data : list Transaction) :
  (forall s, regexTest db (trim term) s
             = includes (toLowerCase s) (toLowerCase (trim term))) ->
  filter (matchSearch db (buildSearchQuery term))
    (SearchService.searchTransactions data (JStr term))
  = SearchService.searchTransactions data (JStr term).
Proof.
  intros Hdb. rewrite SearchProps.searchTransactions_eq.
  unfold normalizedTerm, buildSearchQuery.
  destruct (String.eqb (trim term) "") eqn:E.
  - rewrite orb_true_r. apply filter_all.
  - apply String.eqb_neq in E.
    assert (Ht : truthy_str term = true).
    { destruct term; [|reflexivity]. now destruct E. }
    rewrite Ht. cbn [negb orb].
    rewrite filter_filter. apply filter_ext. intros t.
    destruct (SearchService.matchesTerm _ t) eqn:Em; [|reflexivity].
    now rewrite (matchesTerm_matchSearch db term t Hdb E Em).
Qed.

Lemma indexed_search_witness :
  filter (matchSearch Fixture.engine (buildSearchQuery "  JOHN "))
    (SearchService.searchTransactions Fixture.sampleTransactions
       (JStr "  JOHN "))
  = SearchService.searchTransactions Fixture.sampleTransactions
      (JStr "  JOHN ").
Proof.
  exact (indexed_search_keeps_what_the_array_search_keeps Fixture.engine
           "  JOHN " Fixture.sampleTransactions (fun s => eq_refl)).
Defined.

End IndexedSearchProps.

Module ServiceOptionsProps.

Import JS Spec ListFacts.

Lemma OptionsOf_mono (valuesOf : Transaction -> list string)
  (withEmpty : bool) (part data : list Transaction)
  (o1 o2 : list string) (v : string) :
  OptionsOf valuesOf withEmpty part o1 ->
  OptionsOf valuesOf withEmpty data o2 ->
  (forall t, In t part -> In t data) ->
  In v o1 -> In v o2.
Proof.
  intros (H1 & _) (H2 & _) Hsub Hv. apply H2. apply H1 in Hv.
  destruct Hv as (Hw & t & Ht & Hin). split; [assumption|].
  exists t. split; [now apply Hsub | assumption].
Qed.

Lemma searchTransactions_In (data : list Transaction) (term : jsval)
  (t : Transaction) :
  In t (SearchService.searchTransactions data term) -> In t data.
Proof.
  rewrite SearchProps.searchTransactions_eq.
  destruct (normalizedTerm term); [|trivial].
  intros H. now apply filter_In in H.
Qed.

Lemma guarded_search (data : list Transaction) (v : jsval) :
  match TransactionService.searchOrDefault v with
  | JStr s =>
      if truthy_str s
      then SearchService.searchTransactions data
             (TransactionService.searchOrDefault v)
      else data
  | JNum n =>
      if n =? 0 then data
      else SearchService.searchTransactions data
             (TransactionService.searchOrDefault v)
  | _ => data
  end
  = SearchService.searchTransactions data v.
Proof.
  destruct v as [| |n|s]; cbn [TransactionService.searchOrDefault];
    try reflexivity.
  - now destruct (n =? 0).
  - cbn [SearchService.searchTransactions].
    now destruct (truthy_str s).
Qed.

(** X26.  The options of the array service follow the search term and nothing
    else: on loaded data [getFilterOptions] returns the options of the
    records that [searchTransactions] keeps for the term of the
    request, so that its test of the term adds nothing; and a search
    can take options away and cannot add any. *)
Theorem service_options_follow_the_search
  (data : list Transaction) (p : Params.QueryParams) :
  let found := SearchService.searchTransactions data (Params.search p) in
  TransactionService.getFilterOptions (loadedWith data) p
  = Returned (FilterService.getFilterOptions found)
  /\ forall v,
       (In v (FilterService.regions (FilterService.getFilterOptions found))
        -> In v (FilterService.regions
                   (FilterService.getFilterOptions data)))
       /\ (In v (FilterService.genders (FilterService.getFilterOptions found))
           -> In v (FilterService.genders
                      (FilterService.getFilterOptions data)))
       /\ (In v (FilterService.categories
                   (FilterService.getFilterOptions found))
           -> In v (FilterService.categories
                      (FilterService.getFilterOptions data)))
       /\ (In v (FilterService.optionTags
                   (FilterService.getFilterOptions found))
           -> In v (FilterService.optionTags
                      (FilterService.getFilterOptions data)))
       /\ (In v (FilterService.paymentMethods
                   (FilterService.getFilterOptions found))
           -> In v (FilterService.paymentMethods
                      (FilterService.getFilterOptions data))).
Proof.
  intros found. split.
  - unfold TransactionService.getFilterOptions.
    cbn [DataLoader.getData loadedWith DataLoader.data]. cbv zeta.
    now rewrite guarded_search.
  - intros v.
    destruct (FilterOptionsMore.getFilterOptions_fields found)
      as (F1 & F2 & F3 & F4 & F5).
    destruct (FilterOptionsMore.getFilterOptions_fields data)
      as (D1 & D2 & D3 & D4 & D5).
    cbv zeta in *.
    pose proof (searchTransactions_In data (Params.search p)) as Hsub.
    repeat split; eapply OptionsOf_mono; eassumption.
Qed.

End ServiceOptionsProps.

(** ** The two backends, whatever the page *)

Module BackendFigures.

Import JS Spec.
Import TransactionServiceMongo.

Lemma normalPageSize_number (psz : jsval) :
  isNumberOrAbsent psz = true ->
  1 <= numericOr 10 psz <= 100 ->
  normalPageSize (PaginationService.orDefault 10 psz) = numericOr 10 psz.
Proof.
  destruct psz as [| |k|s]; try discriminate; intros _ H;
    [reflexivity|].
  cbn [PaginationService.orDefault numericOr] in *.
  unfold normalPageSize. cbn [parseInt].
  rewrite NumberFacts.parseInt_num_small
    by (assert (100 < 10 ^ 21) by reflexivity; lia).
  destruct (Z.leb_spec 1 k); lia.
Qed.

Lemma normalPage_number (pg : jsval) :
  isNumberOrAbsent pg = true ->
  1 <= numericOr 1 pg < 2 ^ 32 ->
  normalPage (PaginationService.orDefault 1 pg) = numericOr 1 pg.
Proof.
  destruct pg as [| |k|s]; try discriminate; intros _ H;
    [reflexivity|].
  cbn [PaginationService.orDefault numericOr] in *.
  unfold normalPage. cbn [parseInt].
  rewrite NumberFacts.parseInt_num_small
    by (assert (2 ^ 32 < 10 ^ 21) by reflexivity; lia).
  destruct (Z.leb_spec 1 k); lia.
Qed.

Lemma commonRequest_parts (p : Params.QueryParams) :
  commonRequest p = true ->
  blankSearch (Params.search p) = true
  /\ isNumberOrAbsent (Params.page p) = true
  /\ isNumberOrAbsent (Params.pageSize p) = true
  /\ 1 <= numericOr 10 (Params.pageSize p) <= 100
  /\ 1 <= numericOr 1 (Params.page p) < 2 ^ 32.
Proof.
  unfold commonRequest. rewrite !andb_true_iff.
  intros (((((((((Hsearch & _) & _) & _) & Hpg) & Hpsz) & Hps1)
             & Hps100) & Hpage1) & Hpage32).
  apply Z.leb_le in Hps1, Hps100, Hpage1. apply Z.ltb_lt in Hpage32.
  repeat split; assumption.
Qed.

(** What the array backend returns for a common request. *)
Lemma array_figures (localeCompare : string -> string -> Z)
  (data : list Transaction) (p : Params.QueryParams) :
  commonRequest p = true ->
  let n := Z.of_nat (List.length (matching data p)) in
  let ps := numericOr 10 (Params.pageSize p) in
  let tp := ceil_div n ps in
  let cp := Z.max 1 (Z.min (numericOr 1 (Params.page p)) (Z.max tp 1)) in
  exists array,
    TransactionService.getTransactions localeCompare (loadedWith data) p
    = Returned array
    /\ aggregateStats array
       = TransactionService.calculateAggregateStats (matching data p)
    /\ Paging.totalItems (pagination array) = n
    /\ Paging.totalPages (pagination array) = tp
    /\ Paging.pageSize (pagination array) = ps
    /\ Paging.currentPage (pagination array) = cp
    /\ items array
       = slice
           (SortService.sortTransactions localeCompare (matching data p)
              (Some (SortService.orDefault "date" (Params.sortBy p)))
              (Some (SortService.orDefault "desc" (Params.sortOrder p))))
           ((cp - 1) * ps) ((cp - 1) * ps + ps).
Proof.
  intros Hreq n ps tp cp.
  destruct (commonRequest_parts p Hreq) as (Hs & Hpg & Hpsz & Hps & Hpage).
  eexists. split; [apply BackendProps.array_result; exact Hs|].
  cbn [aggregateStats pagination items].
  rewrite PaginationMore.paginate_fields.
  rewrite (normalPageSize_number _ Hpsz Hps),
    (normalPage_number _ Hpg Hpage).
  cbn [Paging.pagination Paging.totalItems Paging.totalPages
         Paging.pageSize Paging.currentPage Paging.items].
  rewrite <- (Permutation_length
                (SortProps.sortTransactions_perm localeCompare
                   (matching data p)
                   (Some (SortService.orDefault "date" (Params.sortBy p)))
                   (Some (SortService.orDefault "desc"
                            (Params.sortOrder p))))).
  repeat split.
Qed.



(** X30.  The indexed backend does not clamp the page, in general.
    For every request as above whose page lies beyond the last page of
    its selection, the array backend returns the last page, which
    holds records when the selection does, and the indexed backend
    returns the requested page with no record. *)
Theorem indexed_page_beyond_the_last_is_empty
  (db : Engine) (localeCompare : string -> string -> Z)
  (data : list Transaction) (p : Params.QueryParams) :
  EngineSound db ->
  commonRequest p = true ->
  forallb hasAmounts (matching data p) = true ->
  Z.max 1 (ceil_div (Z.of_nat (List.length (matching data p)))
             (numericOr 10 (Params.pageSize p)))
  < numericOr 1 (Params.page p) ->
  exists array indexed,
    TransactionService.getTransactions localeCompare (loadedWith data) p
    = Returned array
    /\ TransactionServiceMongo.getTransactions db data p = Some indexed
    /\ items indexed = []
    /\ Paging.currentPage (pagination indexed)
       = numericOr 1 (Params.page p)
    /\ Paging.currentPage (pagination array)
       = Z.max 1 (ceil_div (Z.of_nat (List.length (matching data p)))
                    (numericOr 10 (Params.pageSize p)))
    /\ (matching data p <> [] -> items array <> []).
Proof.
  intros Hdb Hreq Hamt Hbeyond.
  destruct (commonRequest_parts p Hreq) as (Hs & Hpg & Hpsz & Hps & Hpage).
  destruct (array_figures localeCompare data p Hreq)
    as (array & Ha & _ & _ & _ & _ & Ac & Ai).
  destruct (BackendProps.indexed_result db data p Hreq Hamt)
    as (indexed & Hi & Ii & _ & _ & _ & Ic & _).
  exists array, indexed.
  set (n := Z.of_nat (List.length (matching data p))) in *.
  set (ps := numericOr 10 (Params.pageSize p)) in *.
  set (page := numericOr 1 (Params.page p)) in *.
  assert (Hn : 0 <= n) by (subst n; lia).
  destruct (PaginationProps.ceil_div_spec n ps Hn ltac:(lia))
    as (Hq0 & Hq1 & Hq2 & Hq3).
  split; [exact Ha|]. split; [exact Hi|]. split.
  { rewrite Ii. rewrite skipn_all2; [now rewrite firstn_nil|].
    rewrite <- (Permutation_length (sortDocs_perm db Hdb _ _ _)).
    fold n. nia. }
  split; [exact Ic|]. split; [rewrite Ac; lia|].
  intros Hne. rewrite Ai.
  assert (Hpos : 0 < n).
  { subst n. destruct (matching data p); [congruence | simpl; lia]. }
  assert (Hq2' : (ceil_div n ps - 1) * ps < n).
  { rewrite (proj2 (Z.eqb_neq n 0)) in Hq2 by lia. lia. }
  assert (Htp : 1 <= ceil_div n ps) by nia.
  apply PaginationProps.slice_nonempty.
  - nia.
  - rewrite <- (Permutation_length
                  (SortProps.sortTransactions_perm localeCompare
                     (matching data p) _ _)).
    fold n.
    replace (Z.max 1 (Z.min page (Z.max (ceil_div n ps) 1)))
      with (ceil_div n ps) by lia.
    exact Hq2'.
  - lia.
Qed.

Lemma indexed_page_beyond_the_last_witness :
  exists array indexed,
    TransactionService.getTransactions Fixture.codeUnitCompare
      (loadedWith Fixture.sampleTransactions) Fixture.page999
    = Returned array
    /\ TransactionServiceMongo.getTransactions Fixture.engine
         Fixture.sampleTransactions Fixture.page999 = Some indexed
    /\ items indexed = []
    /\ Paging.currentPage (pagination indexed)
       = numericOr 1 (Params.page Fixture.page999)
    /\ Paging.currentPage (pagination array)
       = Z.max 1
           (ceil_div
              (Z.of_nat
                 (List.length
                    (matching Fixture.sampleTransactions Fixture.page999)))
              (numericOr 10 (Params.pageSize Fixture.page999)))
    /\ (matching Fixture.sampleTransactions Fixture.page999 <> [] ->
        items array <> []).
Proof.
  exact (indexed_page_beyond_the_last_is_empty Fixture.engine
           Fixture.codeUnitCompare Fixture.sampleTransactions
           Fixture.page999 BackendProps.fixture_engine_sound
           eq_refl eq_refl eq_refl).
Defined.

End BackendFigures.
